(** * A library catalog: entities, persistence and transactions

    Shallow embedding of [library_management_system] ([models.py],
    [exceptions.py], [decorators.py], [library.py]) and the properties of
    its specification.

    Conventions of the embedding.
    - A Python [str] is the [string] of its UTF-8 bytes; [len] counts its
      code points.  Two texts are equal, and one occurs in the other, as
      their bytes do.
    - A Python [int] is a [Z].
    - A raised exception is a value of [exn]; a call that may raise returns
      a [result].  A method that mutates its object before raising returns
      the object as it is left together with the [result].
    - A [dict] is an association list in insertion order.
    - An object held in one of the catalog's mappings is named by its key:
      mutating the object is replacing the value stored under that key,
      at the same position ([Library]).  Where sharing matters, in the
      snapshots of a transaction, the mappings hold references into a
      store of objects ([Store]), and the catalog operations over the
      store are shown to do what they do over the values.
    - The clock is an argument: [now] is what [datetime.datetime.now()]
      returns during the call.
    - [str.lower] is an argument of the search; on ASCII text it is
      [str_lower], and the properties of the search that speak of the case
      of letters are stated for ASCII text.
    - The fields of an entity have their annotated types.  A stored record
      with a field of another JSON type, or with a due date in another
      shape than [isoformat] writes, is outside the embedding: [from_dict]
      marks it with [TypeError] or [ValueError], and no property is stated
      about the catalogs the code loads from such records.
    - Left out: exceptions that are not [Exception]s, failures of the file
      system, floats in JSON, and the text of log lines. *)

From Stdlib Require Import String Ascii ZArith List Bool Lia DecimalString
  Permutation.
Import ListNotations.

Local Open Scope string_scope.
Local Open Scope Z_scope.

Set Implicit Arguments.

(** ** Exceptions ([exceptions.py] and the built-in ones the code raises) *)

Inductive exn : Type :=
| ValueError (msg : string)
| RuntimeError (msg : string)
| KeyError (key : string)
| TypeError (msg : string)
| OverflowError (msg : string)
| JSONDecodeError (msg : string)
| BookNotFoundError (isbn : string)
| BookNotAvailableError (isbn : string)
| MemberNotFoundError (member_id : string)
| BorrowLimitExceededError (member_id : string) (limit : Z)
| InvalidDataError (message : string).

Inductive result (A : Type) : Type :=
| Ok (a : A)
| Raise (e : exn).

Arguments Ok {A} a.
Arguments Raise {A} e.

Definition rbind {A B : Type} (r : result A) (k : A -> result B) : result B :=
  match r with
  | Ok a => k a
  | Raise e => Raise e
  end.

Declare Scope result_scope.
Delimit Scope result_scope with result.
Notation "x <- r ;; k" := (rbind r (fun x => k))
  (at level 61, r at next level, right associativity) : result_scope.

(** [str(n)] for an integer. *)
Definition str_int (n : Z) : string := NilZero.string_of_int (Z.to_int n).

(** [repr(s)] for a string without quotes or escapes (the field names). *)
Definition repr_str (s : string) : string := "'" ++ s ++ "'".

(** [str(e)], as the f-string of [_load_data] formats the caught error. *)
Definition str_exn (e : exn) : string :=
  match e with
  | ValueError m | RuntimeError m | TypeError m | OverflowError m
  | JSONDecodeError m | InvalidDataError m => m
  | KeyError k => repr_str k
  | BookNotFoundError i => "Book with ISBN " ++ i ++ " not found"
  | BookNotAvailableError i =>
      "Book with ISBN " ++ i ++ " is not available for borrowing"
  | MemberNotFoundError m => "Member with ID " ++ m ++ " not found"
  | BorrowLimitExceededError m l =>
      "Member " ++ m ++ " has reached the borrowing limit of "
        ++ str_int l ++ " books"
  end.

(** The error kinds of the specification.  The code raises [ValueError]
    for an invalid field, for a key that is already there and for a return
    by the wrong member alike. *)
Inductive kind : Type :=
| InvalidInput | NotFound | Unavailable | LimitExceeded
| IllegalState | CorruptData | OtherError.

Definition kind_of (e : exn) : kind :=
  match e with
  | ValueError _ => InvalidInput
  | RuntimeError _ => IllegalState
  | BookNotFoundError _ | MemberNotFoundError _ => NotFound
  | BookNotAvailableError _ => Unavailable
  | BorrowLimitExceededError _ _ => LimitExceeded
  | InvalidDataError _ => CorruptData
  | KeyError _ | TypeError _ | OverflowError _ | JSONDecodeError _ => OtherError
  end.

(** ** [datetime]: the part of Python's module the code uses

    A naive [datetime.datetime] is its seven fields.  The constructor
    checks the ranges; [now + timedelta(days=d)] goes through the proleptic
    Gregorian ordinal, raises [OverflowError] when [d] is not a
    representable [timedelta] or the sum leaves years 1..9999. *)

Module DT.

Record datetime : Type := mk {
  year : Z; month : Z; day : Z;
  hour : Z; minute : Z; second : Z; microsecond : Z
}.

Definition is_leap (y : Z) : bool :=
  (y mod 4 =? 0) && (negb (y mod 100 =? 0) || (y mod 400 =? 0)).

Definition days_in_month (y m : Z) : Z :=
  if m =? 2 then (if is_leap y then 29 else 28)
  else if (m =? 4) || (m =? 6) || (m =? 9) || (m =? 11) then 30
  else 31.

Definition days_before_year (y : Z) : Z :=
  let y1 := y - 1 in y1 * 365 + y1 / 4 - y1 / 100 + y1 / 400.

Fixpoint days_before_month_aux (y : Z) (n : nat) : Z :=
  match n with
  | O => 0
  | S n' => days_before_month_aux y n' + days_in_month y (Z.of_nat n)
  end.

(** Days of year [y] before the first day of month [m]. *)
Definition days_before_month (y m : Z) : Z :=
  days_before_month_aux y (Z.to_nat (m - 1)).

Definition ymd2ord (y m d : Z) : Z :=
  days_before_year y + days_before_month y m + d.

Definition MAXORDINAL : Z := 3652059.

Definition DI400Y : Z := 146097.
Definition DI100Y : Z := 36524.
Definition DI4Y : Z := 1461.

(** Month and day for the [n]-th day (from 0) of year [y]: the month is
    found by scanning forward. *)
Fixpoint month_day (y : Z) (fuel : nat) (m n : Z) : Z * Z :=
  match fuel with
  | O => (m, n + 1)
  | S fuel' =>
      if n <? days_in_month y m then (m, n + 1)
      else month_day y fuel' (m + 1) (n - days_in_month y m)
  end.

Definition ord2ymd (n : Z) : Z * Z * Z :=
  let n := n - 1 in
  let n400 := n / DI400Y in
  let n := n mod DI400Y in
  let y := n400 * 400 + 1 in
  let n100 := n / DI100Y in
  let n := n mod DI100Y in
  let n4 := n / DI4Y in
  let n := n mod DI4Y in
  let n1 := n / 365 in
  let n := n mod 365 in
  let y := y + n100 * 100 + n4 * 4 + n1 in
  if (n1 =? 4) || (n100 =? 4) then (y - 1, 12, 31)
  else let '(m, d) := month_day y 11 1 n in (y, m, d).

Definition check_fields (y mo d h mi s us : Z) : bool :=
  (1 <=? y) && (y <=? 9999) && (1 <=? mo) && (mo <=? 12) &&
  (1 <=? d) && (d <=? days_in_month y mo) &&
  (0 <=? h) && (h <=? 23) && (0 <=? mi) && (mi <=? 59) &&
  (0 <=? s) && (s <=? 59) && (0 <=? us) && (us <=? 999999).

(** [datetime(y, mo, d, h, mi, s, us)]; one message stands for those of
    the seven range checks. *)
Definition new (y mo d h mi s us : Z) : result datetime :=
  if check_fields y mo d h mi s us then Ok (mk y mo d h mi s us)
  else Raise (ValueError "datetime field out of range").

(** The class invariant of a [datetime] object. *)
Definition wf (t : datetime) : Prop :=
  check_fields (year t) (month t) (day t) (hour t) (minute t) (second t)
    (microsecond t) = true.

(** [t + timedelta(days=d)].  A [timedelta] has at most 999999999 days,
    and the sum must fall on a day of the years 1 to 9999. *)
Definition add_days (t : datetime) (d : Z) : result datetime :=
  if 999999999 <? Z.abs d then
    Raise (OverflowError
             ("days=" ++ str_int d ++ "; must have magnitude <= 999999999"))
  else
    let o := ymd2ord (year t) (month t) (day t) + d in
    if (0 <? o) && (o <=? MAXORDINAL) then
      let '(y, m, dd) := ord2ymd o in
      new y m dd (hour t) (minute t) (second t) (microsecond t)
    else Raise (OverflowError "date value out of range").

(** *** [isoformat] and [fromisoformat] *)

Definition digit (n : Z) : ascii := ascii_of_nat (48 + Z.to_nat n).

Definition digit_of (c : ascii) : option Z :=
  let n := Z.of_nat (nat_of_ascii c) in
  if (48 <=? n) && (n <=? 57) then Some (n - 48) else None.

Fixpoint pow10 (w : nat) : Z :=
  match w with
  | O => 1
  | S w' => 10 * pow10 w'
  end.

(** ["%0wd" % n] for [0 <= n < 10^w]. *)
Fixpoint zfill (w : nat) (n : Z) : string :=
  match w with
  | O => EmptyString
  | S w' => String (digit (n / pow10 w')) (zfill w' (n mod pow10 w'))
  end.

(** Reads exactly [w] decimal digits. *)
Fixpoint read_digits (w : nat) (acc : Z) (s : string) : option (Z * string) :=
  match w with
  | O => Some (acc, s)
  | S w' =>
      match s with
      | String c s' =>
          match digit_of c with
          | Some d => read_digits w' (acc * 10 + d) s'
          | None => None
          end
      | EmptyString => None
      end
  end.

Definition expect (c : ascii) (s : string) : option string :=
  match s with
  | String c' s' => if Ascii.eqb c c' then Some s' else None
  | EmptyString => None
  end.

Definition isoformat (t : datetime) : string :=
  zfill 4 (year t) ++ "-" ++ zfill 2 (month t) ++ "-" ++ zfill 2 (day t)
    ++ "T" ++ zfill 2 (hour t) ++ ":" ++ zfill 2 (minute t) ++ ":"
    ++ zfill 2 (second t)
    ++ (if microsecond t =? 0 then "" else "." ++ zfill 6 (microsecond t)).

Definition obind {A B : Type} (o : option A) (k : A -> option B) : option B :=
  match o with
  | Some a => k a
  | None => None
  end.

(** The fields of a string of the shape [YYYY-MM-DD?HH:MM:SS] with an
    optional [.ffffff], where [?] is any one character. *)
Definition parse_iso (s : string) : option (Z * Z * Z * Z * Z * Z * Z) :=
  obind (read_digits 4 0 s) (fun '(y, s) =>
  obind (expect "-" s) (fun s =>
  obind (read_digits 2 0 s) (fun '(mo, s) =>
  obind (expect "-" s) (fun s =>
  obind (read_digits 2 0 s) (fun '(d, s) =>
  match s with
  | EmptyString => None
  | String _ s =>
  obind (read_digits 2 0 s) (fun '(h, s) =>
  obind (expect ":" s) (fun s =>
  obind (read_digits 2 0 s) (fun '(mi, s) =>
  obind (expect ":" s) (fun s =>
  obind (read_digits 2 0 s) (fun '(sec, s) =>
  match s with
  | EmptyString => Some (y, mo, d, h, mi, sec, 0)
  | String c s =>
      if Ascii.eqb c "." then
        obind (read_digits 6 0 s) (fun '(us, s) =>
        match s with
        | EmptyString => Some (y, mo, d, h, mi, sec, us)
        | String _ _ => None
        end)
      else None
  end)))))
  end))))).

(** [datetime.fromisoformat(s)] on the strings [isoformat] writes; any
    other string is rejected with [ValueError]. *)
Definition fromisoformat (s : string) : result datetime :=
  match parse_iso s with
  | Some (y, mo, d, h, mi, sec, us) => new y mo d h mi sec us
  | None => Raise (ValueError ("Invalid isoformat string: " ++ repr_str s))
  end.

(** *** Comparison *)

(** The fields in the order two [datetime]s are compared by. *)
Definition fields (t : datetime) : list Z :=
  [year t; month t; day t; hour t; minute t; second t; microsecond t].

(** [a > b] on tuples of integers. *)
Fixpoint tuple_gt (a b : list Z) : bool :=
  match a, b with
  | x :: a', y :: b' => (y <? x) || ((x =? y) && tuple_gt a' b')
  | _ :: _, [] => true
  | [], _ => false
  end.

(** [a > b] *)
Definition gt (a b : datetime) : bool := tuple_gt (fields a) (fields b).

End DT.

(** ** Dictionaries in insertion order *)

Definition dict (V : Type) : Type := list (string * V).

Section Dict.
Context {V : Type}.

(** [d.get(k)] *)
Fixpoint dict_get (k : string) (d : dict V) : option V :=
  match d with
  | [] => None
  | (k', v) :: d' => if String.eqb k k' then Some v else dict_get k d'
  end.

(** [k in d] *)
Definition dict_mem (k : string) (d : dict V) : bool :=
  match dict_get k d with
  | Some _ => true
  | None => false
  end.

(** [d[k] = v]: an existing key keeps its position, a new key goes last. *)
Fixpoint dict_set (k : string) (v : V) (d : dict V) : dict V :=
  match d with
  | [] => [(k, v)]
  | (k', v') :: d' =>
      if String.eqb k k' then (k, v) :: d' else (k', v') :: dict_set k v d'
  end.

(** [d.values()] *)
Definition dict_values (d : dict V) : list V := map snd d.

Definition dict_keys (d : dict V) : list string := map fst d.
End Dict.

(** ** JSON values and the [json] module

    The values [json.load] returns and [json.dump] accepts, floats left
    out.  A [JObj] is a Python [dict] with string keys. *)

#[warnings="-register-all"] Inductive json : Type :=
| JNull
| JBool (b : bool)
| JInt (n : Z)
| JStr (s : string)
| JArr (items : list json)
| JObj (fields : list (string * json)).

(** Python's truth value of a decoded JSON value. *)
Definition truthy (v : json) : bool :=
  match v with
  | JNull => false
  | JBool b => b
  | JInt n => negb (n =? 0)
  | JStr s => negb (String.eqb s "")
  | JArr l => match l with [] => false | _ => true end
  | JObj l => match l with [] => false | _ => true end
  end.

(** A value that exists as a Python object: no dictionary in it has a key
    twice. *)
Fixpoint json_wf (v : json) : Prop :=
  match v with
  | JArr l => (fix all (l : list json) : Prop :=
                 match l with
                 | [] => True
                 | x :: l' => json_wf x /\ all l'
                 end) l
  | JObj l => NoDup (map fst l) /\
              (fix all (l : list (string * json)) : Prop :=
                 match l with
                 | [] => True
                 | (_, x) :: l' => json_wf x /\ all l'
                 end) l
  | _ => True
  end.

(** [json.dump] and [json.load] as the code calls them.  [loads] returns the
    decoded value or the message of the [JSONDecodeError]. *)
Class JsonLib : Type := {
  dumps : json -> string;
  loads : string -> json + string;
  loads_dumps : forall v, json_wf v -> loads (dumps v) = inl v;
  dumps_nonempty : forall v, dumps v <> ""%string
}.

Definition json_load `{JsonLib} (s : string) : result json :=
  match loads s with
  | inl v => Ok v
  | inr msg => Raise (JSONDecodeError msg)
  end.

(** [data[k]] on a decoded record. *)
Definition getitem (data : dict json) (k : string) : result json :=
  match dict_get k data with
  | Some v => Ok v
  | None => Raise (KeyError k)
  end.

(** The annotated type of a field, read off a JSON value.  A value of
    another JSON type is outside the typed model and is rejected with
    [TypeError]. *)
Definition as_str (v : json) : result string :=
  match v with
  | JStr s => Ok s
  | _ => Raise (TypeError "expected str")
  end.

Definition as_int (v : json) : result Z :=
  match v with
  | JInt n => Ok n
  | _ => Raise (TypeError "expected int")
  end.

Definition as_bool (v : json) : result bool :=
  match v with
  | JBool b => Ok b
  | _ => Raise (TypeError "expected bool")
  end.

Definition as_opt_str (v : json) : result (option string) :=
  match v with
  | JNull => Ok None
  | JStr s => Ok (Some s)
  | _ => Raise (TypeError "expected str or None")
  end.

Fixpoint as_str_list (l : list json) : result (list string) :=
  match l with
  | [] => Ok []
  | v :: l' =>
      (s <- as_str v ;; r <- as_str_list l' ;; Ok (s :: r))%result
  end.

Definition as_list_str (v : json) : result (list string) :=
  match v with
  | JArr l => as_str_list l
  | _ => Raise (TypeError "expected list")
  end.

(** A byte [10xxxxxx], which continues a code point. *)
Definition is_continuation (c : ascii) : bool :=
  let n := nat_of_ascii c in (128 <=? n)%nat && (n <? 192)%nat.

(** [len(s)] for a [str]: the code points, each counted at its first
    byte. *)
Fixpoint len (s : string) : Z :=
  match s with
  | EmptyString => 0
  | String c s' => (if is_continuation c then 0 else 1) + len s'
  end.

(** The code points of a [str], each with the bytes that continue it. *)
Fixpoint chars (s : string) : list string :=
  match s with
  | EmptyString => []
  | String c s' =>
      match chars s' with
      | u :: rest =>
          match s' with
          | String c' _ =>
              if is_continuation c' then String c u :: rest
              else String c "" :: u :: rest
          | EmptyString => String c "" :: u :: rest
          end
      | [] => [String c ""]
      end
  end.

(** [s.startswith(p)] *)
Fixpoint starts_with (p s : string) : bool :=
  match p with
  | EmptyString => true
  | String a p' =>
      match s with
      | EmptyString => false
      | String b s' => Ascii.eqb a b && starts_with p' s'
      end
  end.

(** [needle in hay] for strings. *)
Fixpoint str_contains (needle hay : string) : bool :=
  starts_with needle hay ||
  match hay with
  | EmptyString => false
  | String _ hay' => str_contains needle hay'
  end.

Definition opt_str_eqb (a b : option string) : bool :=
  match a, b with
  | Some x, Some y => String.eqb x y
  | None, None => true
  | _, _ => false
  end.

(** ** [range] and slices *)

(** The number of items of [range(lo, hi, step)] for [step > 0]. *)
Definition range_length (lo hi step : Z) : Z :=
  if lo <? hi then (hi - lo - 1) / step + 1 else 0.

Fixpoint range_items (n : nat) (i step : Z) : list Z :=
  match n with
  | O => []
  | S n' => i :: range_items n' (i + step) step
  end.

(** [range(start, stop, step)], as the list of its items. *)
Definition range (start stop step : Z) : result (list Z) :=
  if step =? 0 then Raise (ValueError "range() arg 3 must not be zero")
  else if 0 <? step
  then Ok (range_items (Z.to_nat (range_length start stop step)) start step)
  else Ok (range_items (Z.to_nat (range_length stop start (- step))) start
             step).

(** A bound of a slice of a list of length [len]: a negative one counts from
    the end, and both are clipped to the list. *)
Definition slice_index (len i : Z) : Z :=
  if i <? 0 then Z.max 0 (len + i) else Z.min i len.

(** [l[i:j]] *)
Definition slice {A : Type} (l : list A) (i j : Z) : list A :=
  let len := Z.of_nat (List.length l) in
  let a := slice_index len i in
  let b := slice_index len j in
  firstn (Z.to_nat (b - a)) (skipn (Z.to_nat a) l).

(** ** [models.py]: Book *)

Module Book.

Record t : Type := mk {
  isbn : string;
  title : string;
  author : string;
  year : Z;
  available : bool;
  borrowed_by : option string;
  due_date : option DT.datetime
}.

(** [now] is the reading of [datetime.datetime.now()]. *)
Definition __post_init__ (now : DT.datetime) (self : t) : result unit :=
  let current_year := DT.year now in
  if String.eqb (isbn self) "" || (len (isbn self) <? 10)
  then Raise (ValueError "ISBN должен содержать не менее 10 символов.")
  else if String.eqb (title self) ""
  then Raise (ValueError "Название не может быть пустым.")
  else if String.eqb (author self) ""
  then Raise (ValueError "Автор не может быть пустым.")
  else if negb ((1000 <=? year self) && (year self <=? current_year))
  then Raise (ValueError ("Год должен быть между 1000 и "
                            ++ str_int current_year ++ "."))
  else Ok tt.

(** [Book(isbn, title, author, year, available, borrowed_by, due_date)] *)
Definition __init__ (now : DT.datetime) (isbn title author : string)
    (year : Z) (available : bool) (borrowed_by : option string)
    (due_date : option DT.datetime) : result t :=
  let self := mk isbn title author year available borrowed_by due_date in
  (_ <- __post_init__ now self ;; Ok self)%result.

(** [Book(isbn=, title=, author=, year=)], the other fields at their
    defaults. *)
Definition create (now : DT.datetime) (isbn title author : string) (year : Z)
    : result t :=
  __init__ now isbn title author year true None None.

Definition set_available (v : bool) (self : t) : t :=
  mk (isbn self) (title self) (author self) (year self) v
     (borrowed_by self) (due_date self).

Definition set_borrowed_by (v : option string) (self : t) : t :=
  mk (isbn self) (title self) (author self) (year self) (available self)
     v (due_date self).

Definition set_due_date (v : option DT.datetime) (self : t) : t :=
  mk (isbn self) (title self) (author self) (year self) (available self)
     (borrowed_by self) v.

(** [self.borrow(member_id, days)]: the object as the call leaves it, and
    the outcome.  The assignments are in the order of the source: the two
    flags first, then the due date, whose computation may raise. *)
Definition borrow (now : DT.datetime) (member_id : string) (days : Z)
    (self : t) : t * result unit :=
  if negb (available self)
  then (self, Raise (RuntimeError "Книга уже выдана."))
  else
    let self := set_available false self in
    let self := set_borrowed_by (Some member_id) self in
    match DT.add_days now days with
    | Ok d => (set_due_date (Some d) self, Ok tt)
    | Raise e => (self, Raise e)
    end.

Definition return_book (self : t) : t * result unit :=
  if available self
  then (self, Raise (RuntimeError "Книга не была выдана."))
  else
    let self := set_available true self in
    let self := set_borrowed_by None self in
    let self := set_due_date None self in
    (self, Ok tt).

(** [now] is read only when there is a due date. *)
Definition is_overdue (now : DT.datetime) (self : t) : bool :=
  match due_date self with
  | None => false
  | Some d => DT.gt now d
  end.

Definition to_dict (self : t) : dict json :=
  [ ("isbn", JStr (isbn self));
    ("title", JStr (title self));
    ("author", JStr (author self));
    ("year", JInt (year self));
    ("available", JBool (available self));
    ("borrowed_by", match borrowed_by self with
                    | Some m => JStr m
                    | None => JNull
                    end);
    ("due_date", match due_date self with
                 | Some d => JStr (DT.isoformat d)
                 | None => JNull
                 end) ].

Definition from_dict (now : DT.datetime) (data : dict json) : result t :=
  (due_date <-
     match dict_get "due_date" data with
     | Some v =>
         if truthy v
         then (s <- as_str v ;; d <- DT.fromisoformat s ;; Ok (Some d))
         else Ok None
     | None => Ok None
     end ;;
   v_isbn <- getitem data "isbn" ;;
   v_title <- getitem data "title" ;;
   v_author <- getitem data "author" ;;
   v_year <- getitem data "year" ;;
   available <-
     match dict_get "available" data with
     | Some v => as_bool v
     | None => Ok true
     end ;;
   borrowed_by <-
     match dict_get "borrowed_by" data with
     | Some v => as_opt_str v
     | None => Ok None
     end ;;
   isbn <- as_str v_isbn ;;
   title <- as_str v_title ;;
   author <- as_str v_author ;;
   year <- as_int v_year ;;
   __init__ now isbn title author year available borrowed_by due_date)%result.

(** The invariant of the data model. *)
Definition invariant (self : t) : Prop :=
  (available self = false <->
     borrowed_by self <> None /\ due_date self <> None) /\
  (available self = true <->
     borrowed_by self = None /\ due_date self = None).

(** A record that passed validation and holds a well-formed timestamp. *)
Definition valid (now : DT.datetime) (self : t) : Prop :=
  __post_init__ now self = Ok tt /\
  (forall d, due_date self = Some d -> DT.wf d).

End Book.

(** ** [models.py]: Member *)

Module Member.

Record t : Type := mk {
  member_id : string;
  name : string;
  email : string;
  borrowed_books : list string;
  max_books : Z
}.

Definition __post_init__ (self : t) : result unit :=
  if String.eqb (member_id self) ""
  then Raise (ValueError "ID читателя не может быть пустым.")
  else if String.eqb (name self) ""
  then Raise (ValueError "Имя не может быть пустым.")
  else if negb (str_contains "@" (email self))
  then Raise (ValueError "Email должен содержать символ '@'.")
  else Ok tt.

Definition __init__ (member_id name email : string)
    (borrowed_books : list string) (max_books : Z) : result t :=
  let self := mk member_id name email borrowed_books max_books in
  (_ <- __post_init__ self ;; Ok self)%result.

(** [Member(member_id=, name=, email=)] *)
Definition create (member_id name email : string) : result t :=
  __init__ member_id name email [] 3.

Definition can_borrow (self : t) : bool :=
  Z.of_nat (List.length (borrowed_books self)) <? max_books self.

Definition mem (x : string) (l : list string) : bool :=
  existsb (String.eqb x) l.

(** [l.remove(x)]: the first occurrence goes. *)
Fixpoint remove_first (x : string) (l : list string) : list string :=
  match l with
  | [] => []
  | y :: l' => if String.eqb x y then l' else y :: remove_first x l'
  end.

Definition set_borrowed_books (v : list string) (self : t) : t :=
  mk (member_id self) (name self) (email self) v (max_books self).

Definition add_borrowed_book (isbn : string) (self : t) : t :=
  if negb (mem isbn (borrowed_books self))
  then set_borrowed_books (borrowed_books self ++ [isbn]) self
  else self.

Definition remove_borrowed_book (isbn : string) (self : t) : t :=
  if mem isbn (borrowed_books self)
  then set_borrowed_books (remove_first isbn (borrowed_books self)) self
  else self.

Definition to_dict (self : t) : dict json :=
  [ ("member_id", JStr (member_id self));
    ("name", JStr (name self));
    ("email", JStr (email self));
    ("borrowed_books", JArr (map JStr (borrowed_books self)));
    ("max_books", JInt (max_books self)) ].

Definition from_dict (data : dict json) : result t :=
  (v_id <- getitem data "member_id" ;;
   v_name <- getitem data "name" ;;
   v_email <- getitem data "email" ;;
   borrowed_books <-
     match dict_get "borrowed_books" data with
     | Some v => as_list_str v
     | None => Ok []
     end ;;
   max_books <-
     match dict_get "max_books" data with
     | Some v => as_int v
     | None => Ok 3
     end ;;
   member_id <- as_str v_id ;;
   name <- as_str v_name ;;
   email <- as_str v_email ;;
   __init__ member_id name email borrowed_books max_books)%result.

End Member.

(** ** [library.py]: the catalog, persistence and the transaction

    The state is what a [Library] object reads and writes: its two
    mappings and the two files of its data directory (the text of a file,
    or [None] when the file does not exist).  Opening and writing a file
    are taken to succeed. *)

Module Library.

Record t : Type := mk {
  books : dict Book.t;
  members : dict Member.t;
  books_file : option string;
  members_file : option string
}.

(** A method of [Library]: the state it leaves and its outcome.  A raised
    exception keeps the mutations made so far. *)
Definition M (A : Type) : Type := t -> t * result A.

Definition ret {A : Type} (a : A) : M A := fun self => (self, Ok a).

Definition raise {A : Type} (e : exn) : M A := fun self => (self, Raise e).

Definition bind {A B : Type} (m : M A) (k : A -> M B) : M B :=
  fun self =>
    match m self with
    | (self', Ok a) => k a self'
    | (self', Raise e) => (self', Raise e)
    end.

Declare Scope lib_scope.
Delimit Scope lib_scope with lib.
Notation "x <- m ;; k" := (bind m (fun x => k))
  (at level 61, m at next level, right associativity) : lib_scope.
Notation "m ;; k" := (bind m (fun _ => k))
  (at level 61, right associativity) : lib_scope.

(** [try: m  except Exception as e: handler e] *)
Definition try_except {A : Type} (m : M A) (handler : exn -> M A) : M A :=
  fun self =>
    match m self with
    | (self', Ok a) => (self', Ok a)
    | (self', Raise e) => handler e self'
    end.

Definition lift {A : Type} (r : result A) : M A := fun self => (self, r).

Definition set_books (v : dict Book.t) : M unit :=
  fun self => (mk v (members self) (books_file self) (members_file self), Ok tt).

Definition set_members (v : dict Member.t) : M unit :=
  fun self => (mk (books self) v (books_file self) (members_file self), Ok tt).

Definition write_books_file (text : string) : M unit :=
  fun self => (mk (books self) (members self) (Some text) (members_file self),
               Ok tt).

Definition write_members_file (text : string) : M unit :=
  fun self => (mk (books self) (members self) (books_file self) (Some text),
               Ok tt).

(** A method call on the book object stored under [isbn]: the object is
    replaced by the one the call leaves. *)
Definition on_book {A : Type} (isbn : string) (call : Book.t * result A)
    : M A :=
  fun self =>
    (mk (dict_set isbn (fst call) (books self)) (members self)
        (books_file self) (members_file self), snd call).

Definition on_member {A : Type} (member_id : string)
    (call : Member.t * result A) : M A :=
  fun self =>
    (mk (books self) (dict_set member_id (fst call) (members self))
        (books_file self) (members_file self), snd call).

(** *** [decorators.py] *)

(** Logging around the call; the exception is re-raised. *)
Definition log_operation {A : Type} (func : M A) : M A := func.

(** Timing around the call. *)
Definition measure_time {A : Type} (func : M A) : M A := func.

Definition validate_isbn {A : Type} (isbn : string) (func : M A) : M A :=
  if len isbn <? 10
  then raise (ValueError "ISBN должен содержать не менее 10 символов.")
  else func.

Definition require_member {A : Type} (member_id : string) (func : M A) : M A :=
  if String.eqb member_id ""
  then raise (ValueError "member_id is required")
  else func.

(** A snapshot by [copy.deepcopy] shares no object with the live mappings,
    so no later call on a book or a member of the catalog reaches it: it
    is the value of the mappings when it is taken.  [Store] below has the
    objects and the copies; [simulates_transaction] relates the two. *)
Definition deepcopy {A : Type} (x : A) : A := x.

(** What a [for] loop iterates over. *)
Definition iter_json (v : json) : result (list json) :=
  match v with
  | JArr l => Ok l
  | JObj l => Ok (map (fun kv => JStr (fst kv)) l)
  | JStr s => Ok (map JStr (chars s))
  | _ => Raise (TypeError "object is not iterable")
  end.

(** [data[k]] on any decoded value. *)
Definition subscript (data : json) (k : string) : result json :=
  match data with
  | JObj l => getitem l k
  | _ => Raise (TypeError "indices must be integers")
  end.

Definition as_dict (data : json) : result (dict json) :=
  match data with
  | JObj l => Ok l
  | _ => Raise (TypeError "expected dict")
  end.

(** The exceptions [_load_data] catches: [json.JSONDecodeError], [KeyError],
    [ValueError] (of which [JSONDecodeError] is a subclass). *)
Definition caught_by_load (e : exn) : bool :=
  match e with
  | JSONDecodeError _ | KeyError _ | ValueError _ => true
  | _ => false
  end.

Section Methods.
Variable now : DT.datetime.
Context {J : JsonLib}.
Variable lower : string -> string.

(** [{data["isbn"]: Book.from_dict(data) for data in books_data}] *)
Fixpoint books_of (items : list json) (acc : dict Book.t)
    : result (dict Book.t) :=
  match items with
  | [] => Ok acc
  | data :: rest =>
      (key <- subscript data "isbn" ;;
       d <- as_dict data ;;
       book <- Book.from_dict now d ;;
       k <- as_str key ;;
       books_of rest (dict_set k book acc))%result
  end.

Fixpoint members_of (items : list json) (acc : dict Member.t)
    : result (dict Member.t) :=
  match items with
  | [] => Ok acc
  | data :: rest =>
      (key <- subscript data "member_id" ;;
       d <- as_dict data ;;
       member <- Member.from_dict d ;;
       k <- as_str key ;;
       members_of rest (dict_set k member acc))%result
  end.

(** One branch of [_load_data]: the file exists and is not empty, or the
    mapping is empty. *)
Definition read_books (file : option string) : result (dict Book.t) :=
  match file with
  | Some text =>
      if negb (String.eqb text "")
      then (books_data <- json_load text ;;
            items <- iter_json books_data ;;
            books_of items [])%result
      else Ok []
  | None => Ok []
  end.

Definition read_members (file : option string) : result (dict Member.t) :=
  match file with
  | Some text =>
      if negb (String.eqb text "")
      then (members_data <- json_load text ;;
            items <- iter_json members_data ;;
            members_of items [])%result
      else Ok []
  | None => Ok []
  end.

Definition _load_data : M unit :=
  try_except
    (fun self =>
       (bs <- lift (read_books (books_file self)) ;;
        set_books bs ;;
        ms <- lift (read_members (members_file self)) ;;
        set_members ms)%lib self)
    (fun e =>
       if caught_by_load e
       then raise (InvalidDataError ("Ошибка загрузки данных: " ++ str_exn e))
       else raise e).

(** [Library(data_dir)] over the two files of the directory. *)
Definition __init__ (books_file members_file : option string) : result t :=
  match _load_data (mk [] [] books_file members_file) with
  | (self, Ok _) => Ok self
  | (_, Raise e) => Raise e
  end.

Definition save : M unit :=
  measure_time
    (fun self =>
       (write_books_file
          (dumps (JArr (map (fun book => JObj (Book.to_dict book))
                            (dict_values (books self))))) ;;
        write_members_file
          (dumps (JArr (map (fun member => JObj (Member.to_dict member))
                            (dict_values (members self))))))%lib self).

Definition add_book (isbn title author : string) (year : Z) : M Book.t :=
  log_operation (validate_isbn isbn
    (fun self =>
       if dict_mem isbn (books self)
       then raise (ValueError ("Книга с ISBN " ++ isbn ++ " уже существует."))
              self
       else
         (book <- lift (Book.create now isbn title author year) ;;
          on_book isbn (book, Ok tt) ;;
          ret book)%lib self)).

Definition get_book (isbn : string) : M Book.t :=
  validate_isbn isbn
    (fun self =>
       match dict_get isbn (books self) with
       | Some book => ret book self
       | None => raise (BookNotFoundError isbn) self
       end).

Definition add_member (member_id name email : string) : M Member.t :=
  log_operation
    (fun self =>
       if dict_mem member_id (members self)
       then raise (ValueError ("Читатель с ID " ++ member_id
                                 ++ " уже существует.")) self
       else
         (member <- lift (Member.create member_id name email) ;;
          on_member member_id (member, Ok tt) ;;
          ret member)%lib self).

Definition get_member (member_id : string) : M Member.t :=
  fun self =>
    match dict_get member_id (members self) with
    | Some member => ret member self
    | None => raise (MemberNotFoundError member_id) self
    end.

Definition borrow_book (isbn member_id : string) (days : Z) : M unit :=
  log_operation (validate_isbn isbn (require_member member_id
    (book <- get_book isbn ;;
     member <- get_member member_id ;;
     if negb (Book.available book)
     then raise (BookNotAvailableError isbn)
     else if negb (Member.can_borrow member)
     then raise (BorrowLimitExceededError member_id (Member.max_books member))
     else
       (on_book isbn (Book.borrow now member_id days book) ;;
        on_member member_id (Member.add_borrowed_book isbn member, Ok tt)))))%lib.

Definition return_book (isbn member_id : string) : M unit :=
  log_operation (validate_isbn isbn (require_member member_id
    (book <- get_book isbn ;;
     member <- get_member member_id ;;
     if negb (opt_str_eqb (Book.borrowed_by book) (Some member_id))
     then raise (ValueError ("Книга с ISBN " ++ isbn
                               ++ " не была выдана читателю "
                               ++ member_id ++ "."))
     else
       (on_book isbn (Book.return_book book) ;;
        on_member member_id
          (Member.remove_borrowed_book isbn member, Ok tt)))))%lib.

Definition search_books (query : string) (self : t) : list Book.t :=
  let query_lower := lower query in
  filter (fun book =>
            str_contains query_lower (lower (Book.title book))
            || str_contains query_lower (lower (Book.author book)))
         (dict_values (books self)).

(** [with self.transaction() as tx: body]: [body] is what the caller
    runs on the yielded catalog. *)
Definition transaction (body : M unit) : M unit :=
  fun self =>
    let books_backup := deepcopy (books self) in
    let members_backup := deepcopy (members self) in
    try_except
      (body ;; save)%lib
      (fun e =>
         (set_books books_backup ;;
          set_members members_backup ;;
          raise e)%lib)
      self.

(** *** Batches of catalog mutations *)

Inductive op : Type :=
| AddBook (isbn title author : string) (year : Z)
| AddMember (member_id name email : string)
| BorrowBook (isbn member_id : string) (days : Z)
| ReturnBook (isbn member_id : string)
| RaiseError (e : exn).

Definition run_op (o : op) : M unit :=
  match o with
  | AddBook i t a y => (add_book i t a y ;; ret tt)%lib
  | AddMember m n e => (add_member m n e ;; ret tt)%lib
  | BorrowBook i m d => borrow_book i m d
  | ReturnBook i m => return_book i m
  | RaiseError e => raise e
  end.

Fixpoint run_ops (l : list op) : M unit :=
  match l with
  | [] => ret tt
  | o :: l' => (run_op o ;; run_ops l')%lib
  end.

End Methods.

(** *** Queries, generators and statistics

    A generator is the list of what it yields, in order, when it is
    consumed to its end with no call on the catalog in between; where
    consuming it can raise, the exception comes with that list. *)

Section Queries.
Context {J : JsonLib}.
Variable lower : string -> string.

Definition get_available_books (self : t) : list Book.t :=
  filter (fun book => Book.available book) (dict_values (books self)).

Definition get_borrowed_books (self : t) : list Book.t :=
  filter (fun book => negb (Book.available book)) (dict_values (books self)).

(** [book.is_overdue()] over the books from position [k] on; [clock k] is
    what [datetime.datetime.now()] returns during the call on the book at
    position [k]. *)
Fixpoint overdue_from (clock : nat -> DT.datetime) (k : nat)
    (l : list Book.t) : list Book.t :=
  match l with
  | [] => []
  | book :: l' =>
      if Book.is_overdue (clock k) book
      then book :: overdue_from clock (S k) l'
      else overdue_from clock (S k) l'
  end.

Definition get_overdue_books (clock : nat -> DT.datetime) (self : t)
    : list Book.t :=
  overdue_from clock 0 (dict_values (books self)).

(** [iter(library)] *)
Definition __iter__ (self : t) : list Book.t := dict_values (books self).

Definition books_by_author (author : string) (self : t) : list Book.t :=
  let author_lower := lower author in
  filter (fun book => str_contains author_lower (lower (Book.author book)))
         (dict_values (books self)).

Definition books_by_year_range (start_year end_year : Z) (self : t)
    : list Book.t :=
  filter (fun book =>
            (start_year <=? Book.year book) && (Book.year book <=? end_year))
         (dict_values (books self)).

(** The pages, and how the generator ends. *)
Definition paginate_books (page_size : Z) (self : t)
    : list (list Book.t) * result unit :=
  let all_books := dict_values (books self) in
  match range 0 (Z.of_nat (List.length all_books)) page_size with
  | Ok starts =>
      (map (fun i => slice all_books i (i + page_size)) starts, Ok tt)
  | Raise e => ([], Raise e)
  end.

Definition get_statistics (clock : nat -> DT.datetime) (self : t) : dict Z :=
  [ ("total_books", Z.of_nat (List.length (books self)));
    ("available_books", Z.of_nat (List.length (get_available_books self)));
    ("borrowed_books", Z.of_nat (List.length (get_borrowed_books self)));
    ("overdue_books",
     Z.of_nat (List.length (get_overdue_books clock self)));
    ("total_members", Z.of_nat (List.length (members self))) ].

(** [clear()] empties each mapping in place; the snapshots of a transaction
    are other mappings. *)
Definition clear_all_data : M unit :=
  (set_books [] ;; set_members [] ;; save)%lib.

End Queries.

End Library.

(** ** The catalog with its objects held by reference

    [Library] names the objects of the catalog by their keys.  Here the two
    mappings hold references into a store of [Book] and [Member] objects,
    as in Python: a method call mutates the object in place, a new object
    takes a fresh address, and [copy.deepcopy] allocates a copy of every
    object.  [view] reads the values behind the references. *)

Module Store.

Definition addr : Type := nat.

Record t : Type := mk {
  book_objs : list Book.t;
  member_objs : list Member.t;
  books : dict addr;
  members : dict addr;
  books_file : option string;
  members_file : option string
}.

(** What a reference to no object reads; the references of a catalog are
    allocated. *)
Definition no_book : Book.t := Book.mk "" "" "" 0 true None None.

Definition no_member : Member.t := Member.mk "" "" "" [] 0.

(** The object at address [n] replaced. *)
Fixpoint upd {A : Type} (n : nat) (x : A) (l : list A) : list A :=
  match l with
  | [] => []
  | y :: l' =>
      match n with
      | O => x :: l'
      | S n' => y :: upd n' x l'
      end
  end.

Definition book_at (a : addr) (w : t) : Book.t := nth a (book_objs w) no_book.

Definition member_at (a : addr) (w : t) : Member.t :=
  nth a (member_objs w) no_member.

(** A mapping with the objects in place of the references. *)
Definition view_dict {V : Type} (objs : list V) (none : V) (m : dict addr)
    : dict V :=
  map (fun ka => (fst ka, nth (snd ka) objs none)) m.

(** The catalog by value. *)
Definition view (w : t) : Library.t :=
  Library.mk (view_dict (book_objs w) no_book (books w))
             (view_dict (member_objs w) no_member (members w))
             (books_file w) (members_file w).

Definition M (A : Type) : Type := t -> t * result A.

Definition ret {A : Type} (a : A) : M A := fun w => (w, Ok a).

Definition raise {A : Type} (e : exn) : M A := fun w => (w, Raise e).

Definition bind {A B : Type} (m : M A) (k : A -> M B) : M B :=
  fun w =>
    match m w with
    | (w', Ok a) => k a w'
    | (w', Raise e) => (w', Raise e)
    end.

Declare Scope store_scope.
Delimit Scope store_scope with store.
Notation "x <- m ;; k" := (bind m (fun x => k))
  (at level 61, m at next level, right associativity) : store_scope.
Notation "m ;; k" := (bind m (fun _ => k))
  (at level 61, right associativity) : store_scope.

Definition lift {A : Type} (r : result A) : M A := fun w => (w, r).

Definition try_except {A : Type} (m : M A) (handler : exn -> M A) : M A :=
  fun w =>
    match m w with
    | (w', Ok a) => (w', Ok a)
    | (w', Raise e) => handler e w'
    end.

(** A new [Book] object. *)
Definition alloc_book (b : Book.t) : M addr :=
  fun w =>
    (mk (book_objs w ++ [b])%list (member_objs w) (books w) (members w)
        (books_file w) (members_file w), Ok (List.length (book_objs w))).

Definition alloc_member (m : Member.t) : M addr :=
  fun w =>
    (mk (book_objs w) (member_objs w ++ [m])%list (books w) (members w)
        (books_file w) (members_file w), Ok (List.length (member_objs w))).

(** [self.books[isbn] = book] *)
Definition set_book_item (isbn : string) (a : addr) : M unit :=
  fun w =>
    (mk (book_objs w) (member_objs w) (dict_set isbn a (books w)) (members w)
        (books_file w) (members_file w), Ok tt).

Definition set_member_item (member_id : string) (a : addr) : M unit :=
  fun w =>
    (mk (book_objs w) (member_objs w) (books w)
        (dict_set member_id a (members w)) (books_file w) (members_file w),
     Ok tt).

(** [self.books = v] *)
Definition set_books (v : dict addr) : M unit :=
  fun w =>
    (mk (book_objs w) (member_objs w) v (members w) (books_file w)
        (members_file w), Ok tt).

Definition set_members (v : dict addr) : M unit :=
  fun w =>
    (mk (book_objs w) (member_objs w) (books w) v (books_file w)
        (members_file w), Ok tt).

(** A method call on the [Book] object at [a], which it mutates in
    place. *)
Definition call_book {A : Type} (a : addr)
    (method : Book.t -> Book.t * result A) : M A :=
  fun w =>
    let r := method (book_at a w) in
    (mk (upd a (fst r) (book_objs w)) (member_objs w) (books w) (members w)
        (books_file w) (members_file w), snd r).

Definition call_member {A : Type} (a : addr)
    (method : Member.t -> Member.t * result A) : M A :=
  fun w =>
    let r := method (member_at a w) in
    (mk (book_objs w) (upd a (fst r) (member_objs w)) (books w) (members w)
        (books_file w) (members_file w), snd r).

Definition log_operation {A : Type} (func : M A) : M A := func.

Definition measure_time {A : Type} (func : M A) : M A := func.

Definition validate_isbn {A : Type} (isbn : string) (func : M A) : M A :=
  if len isbn <? 10
  then raise (ValueError "ISBN должен содержать не менее 10 символов.")
  else func.

Definition require_member {A : Type} (member_id : string) (func : M A) : M A :=
  if String.eqb member_id ""
  then raise (ValueError "member_id is required")
  else func.

(** [copy.deepcopy(m)]: a copy of every object, at fresh addresses, and the
    mapping to the copies.  (An object held under two keys is copied once
    by Python and once per key here; what is read under each key is the
    same.) *)
Definition deepcopy {V : Type} (objs : list V) (none : V) (m : dict addr)
    : list V * dict addr :=
  ((objs ++ map (fun ka => nth (snd ka) objs none) m)%list,
   combine (map fst m) (seq (List.length objs) (List.length m))).

(** [copy.deepcopy(self.books)] *)
Definition deepcopy_books : M (dict addr) :=
  fun w =>
    let r := deepcopy (book_objs w) no_book (books w) in
    (mk (fst r) (member_objs w) (books w) (members w) (books_file w)
        (members_file w), Ok (snd r)).

(** [copy.deepcopy(self.members)] *)
Definition deepcopy_members : M (dict addr) :=
  fun w =>
    let r := deepcopy (member_objs w) no_member (members w) in
    (mk (book_objs w) (fst r) (books w) (members w) (books_file w)
        (members_file w), Ok (snd r)).

Section Methods.
Variable now : DT.datetime.
Context {J : JsonLib}.

Definition save : M unit :=
  measure_time
    (fun w =>
       (mk (book_objs w) (member_objs w) (books w) (members w)
           (Some (dumps (JArr (map (fun book => JObj (Book.to_dict book))
                                   (dict_values (Library.books (view w)))))))
           (Some (dumps (JArr (map (fun member => JObj (Member.to_dict member))
                                   (dict_values
                                      (Library.members (view w))))))),
        Ok tt)).

Definition add_book (isbn title author : string) (year : Z) : M Book.t :=
  log_operation (validate_isbn isbn
    (fun w =>
       if dict_mem isbn (books w)
       then raise (ValueError ("Книга с ISBN " ++ isbn ++ " уже существует."))
              w
       else
         (book <- lift (Book.create now isbn title author year) ;;
          a <- alloc_book book ;;
          set_book_item isbn a ;;
          ret book)%store w)).

(** The reference that [self.books.get(isbn)] returns. *)
Definition get_book (isbn : string) : M addr :=
  validate_isbn isbn
    (fun w =>
       match dict_get isbn (books w) with
       | Some a => ret a w
       | None => raise (BookNotFoundError isbn) w
       end).

Definition add_member (member_id name email : string) : M Member.t :=
  log_operation
    (fun w =>
       if dict_mem member_id (members w)
       then raise (ValueError ("Читатель с ID " ++ member_id
                                 ++ " уже существует.")) w
       else
         (member <- lift (Member.create member_id name email) ;;
          a <- alloc_member member ;;
          set_member_item member_id a ;;
          ret member)%store w).

Definition get_member (member_id : string) : M addr :=
  fun w =>
    match dict_get member_id (members w) with
    | Some a => ret a w
    | None => raise (MemberNotFoundError member_id) w
    end.

Definition borrow_book (isbn member_id : string) (days : Z) : M unit :=
  log_operation (validate_isbn isbn (require_member member_id
    (book <- get_book isbn ;;
     member <- get_member member_id ;;
     fun w =>
       if negb (Book.available (book_at book w))
       then raise (BookNotAvailableError isbn) w
       else if negb (Member.can_borrow (member_at member w))
       then raise (BorrowLimitExceededError member_id
                     (Member.max_books (member_at member w))) w
       else
         (call_book book (Book.borrow now member_id days) ;;
          call_member member
            (fun m => (Member.add_borrowed_book isbn m, Ok tt)))%store w)))%store.

Definition return_book (isbn member_id : string) : M unit :=
  log_operation (validate_isbn isbn (require_member member_id
    (book <- get_book isbn ;;
     member <- get_member member_id ;;
     fun w =>
       if negb (opt_str_eqb (Book.borrowed_by (book_at book w))
                  (Some member_id))
       then raise (ValueError ("Книга с ISBN " ++ isbn
                                 ++ " не была выдана читателю "
                                 ++ member_id ++ ".")) w
       else
         (call_book book Book.return_book ;;
          call_member member
            (fun m => (Member.remove_borrowed_book isbn m, Ok tt)))%store w)))%store.

(** [with self.transaction() as tx: body] *)
Definition transaction (body : M unit) : M unit :=
  (books_backup <- deepcopy_books ;;
   members_backup <- deepcopy_members ;;
   try_except
     (body ;; save)
     (fun e =>
        set_books books_backup ;;
        set_members members_backup ;;
        raise e))%store.

Definition run_op (o : Library.op) : M unit :=
  match o with
  | Library.AddBook i t a y => (add_book i t a y ;; ret tt)%store
  | Library.AddMember m n e => (add_member m n e ;; ret tt)%store
  | Library.BorrowBook i m d => borrow_book i m d
  | Library.ReturnBook i m => return_book i m
  | Library.RaiseError e => raise e
  end.

Fixpoint run_ops (l : list Library.op) : M unit :=
  match l with
  | [] => ret tt
  | o :: l' => (run_op o ;; run_ops l')%store
  end.

End Methods.

End Store.

(** * Vocabulary of the specification *)

Unset Implicit Arguments.

(** ** Entities *)

(** The states a book goes through: validated construction from the four
    descriptive fields, then [borrow] and [return_book] calls, whatever
    their outcome. *)
Inductive book_reachable (now : DT.datetime) : Book.t -> Prop :=
| reach_create (isbn title author : string) (year : Z) (b : Book.t) :
    Book.create now isbn title author year = Ok b -> book_reachable now b
| reach_borrow (b : Book.t) (at_time : DT.datetime) (member_id : string)
    (days : Z) :
    book_reachable now b ->
    book_reachable now (fst (Book.borrow at_time member_id days b))
| reach_return (b : Book.t) :
    book_reachable now b -> book_reachable now (fst (Book.return_book b)).

(** The books the public interface produces, as C4 lists them: the
    validating constructor, [from_dict] on a record, and calls of [borrow]
    and [return_book] that return. *)
Inductive book_produced (now : DT.datetime) : Book.t -> Prop :=
| produced_init (isbn title author : string) (year : Z) (available : bool)
    (borrowed_by : option string) (due_date : option DT.datetime)
    (b : Book.t) :
    Book.__init__ now isbn title author year available borrowed_by due_date
    = Ok b ->
    book_produced now b
| produced_from_dict (data : dict json) (b : Book.t) :
    Book.from_dict now data = Ok b -> book_produced now b
| produced_borrow (b b' : Book.t) (member_id : string) (days : Z) :
    book_produced now b -> Book.borrow now member_id days b = (b', Ok tt) ->
    book_produced now b'
| produced_return (b b' : Book.t) :
    book_produced now b -> Book.return_book b = (b', Ok tt) ->
    book_produced now b'.

(** The book once lent to [member_id] until [due], and once returned. *)
Definition book_borrowed (b : Book.t) (member_id : string)
    (due : DT.datetime) : Book.t :=
  Book.mk (Book.isbn b) (Book.title b) (Book.author b) (Book.year b)
          false (Some member_id) (Some due).

Definition book_returned (b : Book.t) : Book.t :=
  Book.mk (Book.isbn b) (Book.title b) (Book.author b) (Book.year b)
          true None None.

(** ** Catalog states *)

(** The catalog with the object under a key replaced. *)
Definition with_book (isbn : string) (b : Book.t) (self : Library.t)
    : Library.t :=
  Library.mk (dict_set isbn b (Library.books self)) (Library.members self)
             (Library.books_file self) (Library.members_file self).

Definition with_member (member_id : string) (m : Member.t) (self : Library.t)
    : Library.t :=
  Library.mk (Library.books self) (dict_set member_id m (Library.members self))
             (Library.books_file self) (Library.members_file self).

(** The arguments the two decorators let through. *)
Definition usable_isbn (isbn : string) : Prop :=
  10 <= len isbn.

Definition usable_member_id (member_id : string) : Prop :=
  member_id <> ""%string.

(** The two files of [s'] are those of [s]. *)
Definition same_files (s s' : Library.t) : Prop :=
  Library.books_file s' = Library.books_file s /\
  Library.members_file s' = Library.members_file s.

(** Every entry of the book mapping is keyed by the book's own ISBN. *)
Definition keyed (self : Library.t) : Prop :=
  forall k b, dict_get k (Library.books self) = Some b -> Book.isbn b = k.

(** Every book that is out names a member of the catalog whose list holds
    the book's ISBN. *)
Definition consistent (self : Library.t) : Prop :=
  forall k b,
    dict_get k (Library.books self) = Some b ->
    Book.available b = false ->
    exists member_id member,
      Book.borrowed_by b = Some member_id /\
      dict_get member_id (Library.members self) = Some member /\
      In (Book.isbn b) (Member.borrowed_books member).

(** A catalog of validated entities, each stored under its own key. *)
Definition catalog_wf (now : DT.datetime) (self : Library.t) : Prop :=
  NoDup (dict_keys (Library.books self)) /\
  (forall k b, In (k, b) (Library.books self) ->
               Book.isbn b = k /\ Book.valid now b) /\
  NoDup (dict_keys (Library.members self)) /\
  (forall k m, In (k, m) (Library.members self) ->
               Member.member_id m = k /\ Member.__post_init__ m = Ok tt).

(** Missing, or of length zero. *)
Definition absent_or_empty (file : option string) : Prop :=
  file = None \/ file = Some ""%string.

(** [borrow_book] as the specification words it: [NotFound] when an entity
    is absent, then [Unavailable], then [LimitExceeded], the catalog
    unchanged by each; otherwise the book is lent and the member updated. *)
Definition borrow_book_as_specified (now : DT.datetime) (self : Library.t)
    (isbn member_id : string) (days : Z) : Prop :=
  let out := Library.borrow_book now isbn member_id days self in
  match dict_get isbn (Library.books self),
        dict_get member_id (Library.members self) with
  | Some book, Some member =>
      if negb (Book.available book)
      then out = (self, Raise (BookNotAvailableError isbn))
      else if negb (Member.can_borrow member)
      then out = (self, Raise (BorrowLimitExceededError member_id
                                 (Member.max_books member)))
      else exists due,
          out = (with_member member_id (Member.add_borrowed_book isbn member)
                   (with_book isbn (book_borrowed book member_id due) self),
                 Ok tt)
  | _, _ => exists e, out = (self, Raise e) /\ kind_of e = NotFound
  end.

(** [return_book] on a book of the catalog as the specification words it:
    an error of the [ValueError] class whenever the book's borrower is
    not [member_id], the catalog unchanged; otherwise the book is returned
    and the ISBN leaves the member's list. *)
Definition return_book_as_specified (self : Library.t)
    (isbn member_id : string) : Prop :=
  let out := Library.return_book isbn member_id self in
  forall book,
    dict_get isbn (Library.books self) = Some book ->
    if negb (opt_str_eqb (Book.borrowed_by book) (Some member_id))
    then exists msg, out = (self, Raise (ValueError msg))
    else exists member,
        dict_get member_id (Library.members self) = Some member /\
        out = (with_member member_id
                 (Member.remove_borrowed_book isbn member)
                 (with_book isbn (book_returned book) self), Ok tt).

(** ** The calendar *)

(** The extra day of a leap year. *)
Definition leap_day (y : Z) : Z := if DT.is_leap y then 1 else 0.

(** A date of the calendar. *)
Definition date_ok (y m d : Z) : Prop :=
  1 <= m <= 12 /\ 1 <= d <= DT.days_in_month y m.

(** ** Loans *)

(** No member holds more books than the member's limit. *)
Definition within_limits (self : Library.t) : Prop :=
  forall k m, dict_get k (Library.members self) = Some m ->
    Z.of_nat (List.length (Member.borrowed_books m)) <= Member.max_books m.

(** No member's list holds an ISBN twice. *)
Definition no_duplicate_loans (self : Library.t) : Prop :=
  forall k m, dict_get k (Library.members self) = Some m ->
    NoDup (Member.borrowed_books m).

(** Every ISBN of a member's list names a book of the catalog that is out
    to that member. *)
Definition loans_backed (self : Library.t) : Prop :=
  forall k m isbn,
    dict_get k (Library.members self) = Some m ->
    In isbn (Member.borrowed_books m) ->
    exists b,
      dict_get isbn (Library.books self) = Some b /\
      Book.available b = false /\ Book.borrowed_by b = Some k.

(** The book as [borrow] leaves it when the due date cannot be computed. *)
Definition book_half_borrowed (b : Book.t) (member_id : string) : Book.t :=
  Book.mk (Book.isbn b) (Book.title b) (Book.author b) (Book.year b)
          false (Some member_id) (Book.due_date b).

(** ** The object store *)

(** Every reference of the two mappings is to an object of the store. *)
Definition allocated (w : Store.t) : Prop :=
  (forall a, In a (dict_values (Store.books w)) ->
     (a < List.length (Store.book_objs w))%nat) /\
  (forall a, In a (dict_values (Store.members w)) ->
     (a < List.length (Store.member_objs w))%nat).

(** No object is held under two keys. *)
Definition unaliased (w : Store.t) : Prop :=
  NoDup (dict_values (Store.books w)) /\
  NoDup (dict_values (Store.members w)).

(** What a computation may do to a store of objects and a mapping into
    it: allocate, mutate the objects the mapping refers to, and put into
    the mapping references it already holds or new ones.  An object the
    mapping does not refer to is left as it is. *)
Definition frame {V : Type} (none : V) (objs objs' : list V)
    (m m' : dict Store.addr) : Prop :=
  (List.length objs <= List.length objs')%nat /\
  (forall a, (a < List.length objs)%nat -> ~ In a (dict_values m) ->
     nth a objs' none = nth a objs none) /\
  (forall a, In a (dict_values m') ->
     In a (dict_values m) \/ (List.length objs <= a)%nat).

(** A body that reaches the objects of the catalog through the catalog
    only. *)
Definition confined {A : Type} (body : Store.M A) : Prop :=
  forall w,
    frame Store.no_book (Store.book_objs w) (Store.book_objs (fst (body w)))
      (Store.books w) (Store.books (fst (body w))) /\
    frame Store.no_member (Store.member_objs w)
      (Store.member_objs (fst (body w)))
      (Store.members w) (Store.members (fst (body w))).

(** The store when the [with] block is entered: the two snapshots are
    taken. *)
Definition scope_entry (w : Store.t) : Store.t :=
  fst (Store.bind Store.deepcopy_books (fun _ => Store.deepcopy_members) w).

(** The stores the catalog operations build. *)
Definition store_wf (w : Store.t) : Prop := allocated w /\ unaliased w.

(** A computation over the object store and one over the values that do
    the same to what is read through the references. *)
Definition simulates {A : Type} (m : Store.M A) (m' : Library.M A) : Prop :=
  forall w, store_wf w ->
    m' (Store.view w) = (Store.view (fst (m w)), snd (m w)) /\
    store_wf (fst (m w)).

(** The transaction with [dict(self.books)] and [dict(self.members)] for
    the two [copy.deepcopy] calls: new mappings to the same objects.  It is
    not the code; the depth of the copy is measured against it. *)
Definition transaction_sharing {J : JsonLib} (body : Store.M unit)
    : Store.M unit :=
  fun w =>
    Store.try_except
      (Store.bind body (fun _ => Store.save))
      (fun e =>
         Store.bind (Store.set_books (Store.books w))
           (fun _ => Store.bind (Store.set_members (Store.members w))
                       (fun _ => Store.raise e)))
      w.

(** ** Search *)

Section SearchSpec.
Variable lower : string -> string.

(** [query] occurs in [text] as a substring, case aside. *)
Definition ci_substring (query text : string) : Prop :=
  exists pre post, lower text = (pre ++ lower query ++ post)%string.

Definition search_match (query : string) (b : Book.t) : Prop :=
  ci_substring query (Book.title b) \/ ci_substring query (Book.author b).

(** The test that [search_books] filters by. *)
Definition search_test (query : string) (b : Book.t) : bool :=
  str_contains (lower query) (lower (Book.title b))
  || str_contains (lower query) (lower (Book.author b)).

End SearchSpec.

(** ** A text codec for the [json] interface

    [JsonLib] is the contract of Python's [json.dump] and [json.load] that
    the results rest on.  The codec below is a self-delimiting text
    encoding that meets the contract, so that the catalog can be run on
    concrete files; it is not JSON's concrete syntax, on which no result
    depends. *)

Module RefJson.

Fixpoint unary (n : nat) (rest : string) : string :=
  match n with
  | O => String ";" rest
  | S n' => String "1" (unary n' rest)
  end.

Fixpoint read_unary (s : string) : option (nat * string) :=
  match s with
  | EmptyString => None
  | String c s' =>
      if Ascii.eqb c "1" then
        match read_unary s' with
        | Some (n, r) => Some (S n, r)
        | None => None
        end
      else if Ascii.eqb c ";" then Some (O, s')
      else None
  end.

Fixpoint take (n : nat) (s : string) : option (string * string) :=
  match n with
  | O => Some (EmptyString, s)
  | S n' =>
      match s with
      | EmptyString => None
      | String c s' =>
          match take n' s' with
          | Some (a, r) => Some (String c a, r)
          | None => None
          end
      end
  end.

Definition enc_str (s rest : string) : string :=
  unary (String.length s) (s ++ rest).

Definition dec_str (s : string) : option (string * string) :=
  match read_unary s with
  | Some (n, r) => take n r
  | None => None
  end.

Definition enc_int (z : Z) (rest : string) : string :=
  String (if z <? 0 then "-"%char else "+"%char) (unary (Z.to_nat (Z.abs z)) rest).

Definition dec_int (s : string) : option (Z * string) :=
  match s with
  | EmptyString => None
  | String c s' =>
      match read_unary s' with
      | Some (n, r) =>
          if Ascii.eqb c "-" then Some (- Z.of_nat n, r)
          else if Ascii.eqb c "+" then Some (Z.of_nat n, r)
          else None
      | None => None
      end
  end.

(** The text of [v], followed by [rest]. *)
Fixpoint enc (v : json) (rest : string) : string :=
  match v with
  | JNull => String "n" rest
  | JBool b => String (if b then "t"%char else "f"%char) rest
  | JInt z => String "i" (enc_int z rest)
  | JStr s => String "s" (enc_str s rest)
  | JArr l =>
      String "["
        ((fix items (l : list json) : string :=
            match l with
            | [] => String "]" rest
            | x :: l' => enc x (items l')
            end) l)
  | JObj l =>
      String "{"
        ((fix fields (l : list (string * json)) : string :=
            match l with
            | [] => String "}" rest
            | (k, x) :: l' => String "k" (enc_str k (enc x (fields l')))
            end) l)
  end.

Fixpoint enc_items (l : list json) (rest : string) : string :=
  match l with
  | [] => String "]" rest
  | x :: l' => enc x (enc_items l' rest)
  end.

Fixpoint enc_fields (l : list (string * json)) (rest : string) : string :=
  match l with
  | [] => String "}" rest
  | (k, x) :: l' => String "k" (enc_str k (enc x (enc_fields l' rest)))
  end.

Fixpoint dec (fuel : nat) (s : string) {struct fuel}
    : option (json * string) :=
  match fuel with
  | O => None
  | S f =>
      match s with
      | EmptyString => None
      | String c r =>
          if Ascii.eqb c "n" then Some (JNull, r)
          else if Ascii.eqb c "t" then Some (JBool true, r)
          else if Ascii.eqb c "f" then Some (JBool false, r)
          else if Ascii.eqb c "i" then
            match dec_int r with
            | Some (z, r') => Some (JInt z, r')
            | None => None
            end
          else if Ascii.eqb c "s" then
            match dec_str r with
            | Some (x, r') => Some (JStr x, r')
            | None => None
            end
          else if Ascii.eqb c "[" then
            match dec_items f r with
            | Some (l, r') => Some (JArr l, r')
            | None => None
            end
          else if Ascii.eqb c "{" then
            match dec_fields f r with
            | Some (l, r') => Some (JObj l, r')
            | None => None
            end
          else None
      end
  end
with dec_items (fuel : nat) (s : string) {struct fuel}
    : option (list json * string) :=
  match fuel with
  | O => None
  | S f =>
      match s with
      | EmptyString => None
      | String c r =>
          if Ascii.eqb c "]" then Some ([], r)
          else
            match dec f s with
            | Some (x, r1) =>
                match dec_items f r1 with
                | Some (l, r2) => Some (x :: l, r2)
                | None => None
                end
            | None => None
            end
      end
  end
with dec_fields (fuel : nat) (s : string) {struct fuel}
    : option (list (string * json) * string) :=
  match fuel with
  | O => None
  | S f =>
      match s with
      | EmptyString => None
      | String c r =>
          if Ascii.eqb c "}" then Some ([], r)
          else if Ascii.eqb c "k" then
            match dec_str r with
            | Some (k, r1) =>
                match dec f r1 with
                | Some (x, r2) =>
                    match dec_fields f r2 with
                    | Some (l, r3) => Some ((k, x) :: l, r3)
                    | None => None
                    end
                | None => None
                end
            | None => None
            end
          else None
      end
  end.

(** The fuel [dec] needs on the text of a value. *)
Fixpoint need (v : json) : nat :=
  match v with
  | JArr l =>
      S ((fix items (l : list json) : nat :=
            match l with
            | [] => 1
            | x :: l' => S (Nat.max (need x) (items l'))
            end) l)
  | JObj l =>
      S ((fix fields (l : list (string * json)) : nat :=
            match l with
            | [] => 1
            | (_, x) :: l' => S (Nat.max (need x) (fields l'))
            end) l)
  | _ => 1
  end%nat.

Fixpoint need_items (l : list json) : nat :=
  match l with
  | [] => 1
  | x :: l' => S (Nat.max (need x) (need_items l'))
  end%nat.

Fixpoint need_fields (l : list (string * json)) : nat :=
  match l with
  | [] => 1
  | (_, x) :: l' => S (Nat.max (need x) (need_fields l'))
  end%nat.

Definition ref_dumps (v : json) : string := enc v EmptyString.

Definition ref_loads (s : string) : json + string :=
  match dec (S (String.length s)) s with
  | Some (v, EmptyString) => inl v
  | Some (_, String _ _) => inr "Extra data"%string
  | None => inr "Expecting value"%string
  end.

End RefJson.

(** ** Fixtures of the test suite *)

Definition now0 : DT.datetime := DT.mk 2026 11 3 14 55 7 123456.

Definition clean_code : Book.t :=
  Book.mk "978-0132350884" "Clean Code" "Robert C. Martin" 2008 true None None.

Definition john : Member.t :=
  Member.mk "M001" "John Doe" "john@example.com" [] 3.

Definition small_library : Library.t :=
  Library.mk [("978-0132350884", clean_code)] [("M001", john)] None None.

(** The small catalog after [borrow_book("978-0132350884", "M001")]. *)
Definition lent_library : Library.t :=
  fst (Library.borrow_book now0 "978-0132350884" "M001" 14 small_library).


(** [str.lower] on ASCII text. *)
Definition ascii_lower (c : ascii) : ascii :=
  let n := nat_of_ascii c in
  if ((65 <=? n) && (n <=? 90))%nat then ascii_of_nat (n + 32) else c.

Fixpoint str_lower (s : string) : string :=
  match s with
  | EmptyString => EmptyString
  | String c s' => String (ascii_lower c) (str_lower s')
  end.

(** ** Text, the case of its letters aside *)









(** ** Catalogs of the test suite *)

Definition later0 : DT.datetime := DT.mk 2027 1 15 9 0 0 0.

Definition due0 : DT.datetime := DT.mk 2026 11 17 14 55 7 123456.

Definition populated_ops : list Library.op :=
  [ Library.AddBook "978-0132350884" "Clean Code" "Robert C. Martin" 2008;
    Library.AddBook "978-0201633610" "Design Patterns" "Erich Gamma" 1994;
    Library.AddBook "978-0735619678" "Code Complete" "Steve McConnell" 2004;
    Library.AddBook "978-0134494166" "Effective Python" "Brett Slatkin" 2019;
    Library.AddBook "978-1491904244" "Fluent Python" "Luciano Ramalho" 2015;
    Library.AddMember "M001" "John Doe" "john@example.com";
    Library.AddMember "M002" "Jane Smith" "jane@example.com";
    Library.AddMember "M003" "Peter Jones" "peter@example.com" ].

Definition populated_library : Library.t :=
  fst (Library.run_ops now0 populated_ops (Library.mk [] [] None None)).

(** The same catalogs over the object store. *)
Definition empty_store : Store.t := Store.mk [] [] [] [] None None.

Definition populated_store : Store.t :=
  Eval vm_compute in fst (Store.run_ops now0 populated_ops empty_store).

Definition small_store : Store.t :=
  Store.mk [clean_code] [john] [("978-0132350884", 0%nat)] [("M001", 0%nat)]
    None None.

(** The populated catalog with its first book out to John. *)
Definition lent_populated_library : Library.t :=
  Eval vm_compute in
    fst (Library.borrow_book now0 "978-0132350884" "M001" 14
           populated_library).

Definition member_with_books : Member.t :=
  Member.mk "M002" "Jane Smith" "jane@example.com"
            ["978-0735619678"; "978-0134494166"] 3.

(** * Properties *)

(** ** Timestamps *)

Lemma pow10_pos (w : nat) : 0 < DT.pow10 w.
Proof.
  induction w as [| w IH]; [reflexivity |].
  change (DT.pow10 (S w)) with (10 * DT.pow10 w). lia.
Qed.

Lemma digit_of_digit (d : Z) : 0 <= d <= 9 -> DT.digit_of (DT.digit d) = Some d.
Proof.
  intros Hd.
  assert (Hcases : d = 0 \/ d = 1 \/ d = 2 \/ d = 3 \/ d = 4 \/ d = 5 \/
                   d = 6 \/ d = 7 \/ d = 8 \/ d = 9) by lia.
  repeat (destruct Hcases as [-> | Hcases]; [reflexivity |]).
  subst d. reflexivity.
Qed.

Lemma read_digits_zfill (w : nat) :
  forall n acc rest,
    0 <= n < DT.pow10 w ->
    DT.read_digits w acc (DT.zfill w n ++ rest) = Some (acc * DT.pow10 w + n, rest).
Proof.
  induction w as [| w IH]; intros n acc rest Hn.
  - simpl in *. f_equal. f_equal. lia.
  - pose proof (pow10_pos w) as Hp.
    change (DT.pow10 (S w)) with (10 * DT.pow10 w) in *.
    assert (Hq : 0 <= n / DT.pow10 w <= 9).
    { split.
      - apply Z.div_pos; lia.
      - assert (n / DT.pow10 w < 10); [| lia].
        apply Z.div_lt_upper_bound; lia. }
    assert (Hr : 0 <= n mod DT.pow10 w < DT.pow10 w)
      by (apply Z.mod_pos_bound; lia).
    cbn [DT.zfill DT.read_digits append].
    rewrite (digit_of_digit _ Hq), (IH _ _ _ Hr).
    f_equal. f_equal.
    pose proof (Z.div_mod n (DT.pow10 w) ltac:(lia)). nia.
Qed.

Lemma append_empty_r (s : string) : (s ++ "")%string = s.
Proof. induction s; simpl; congruence. Qed.

Lemma read_digits_zfill_end (w : nat) (n acc : Z) :
  0 <= n < DT.pow10 w ->
  DT.read_digits w acc (DT.zfill w n) = Some (acc * DT.pow10 w + n, ""%string).
Proof.
  intros Hn. rewrite <- (append_empty_r (DT.zfill w n)).
  now apply read_digits_zfill.
Qed.

Lemma check_fields_bounds (y mo d h mi s us : Z) :
  DT.check_fields y mo d h mi s us = true ->
  1 <= y <= 9999 /\ 1 <= mo <= 12 /\ 1 <= d <= 31 /\ 0 <= h <= 23 /\
  0 <= mi <= 59 /\ 0 <= s <= 59 /\ 0 <= us <= 999999.
Proof.
  unfold DT.check_fields. intros H.
  repeat (apply andb_prop in H; destruct H as [H ?]).
  assert (DT.days_in_month y mo <= 31).
  { unfold DT.days_in_month.
    destruct (mo =? 2); [destruct (DT.is_leap y); lia |].
    destruct ((mo =? 4) || (mo =? 6) || (mo =? 9) || (mo =? 11)); lia. }
  lia.
Qed.

Ltac iso_step :=
  rewrite read_digits_zfill by (simpl; lia);
  cbn [DT.obind append DT.expect];
  try rewrite Ascii.eqb_refl;
  cbn [DT.obind].

(** [fromisoformat] inverts [isoformat] on every [datetime] object. *)
Lemma fromisoformat_isoformat (t : DT.datetime) :
  DT.wf t -> DT.fromisoformat (DT.isoformat t) = Ok t.
Proof.
  destruct t as [y mo d h mi s us]. unfold DT.wf. cbn [DT.year DT.month DT.day
    DT.hour DT.minute DT.second DT.microsecond]. intros Hwf.
  pose proof (check_fields_bounds _ _ _ _ _ _ _ Hwf) as
    (Hy & Hmo & Hd & Hh & Hmi & Hs & Hus).
  assert (Hparse : DT.parse_iso (DT.isoformat (DT.mk y mo d h mi s us))
                   = Some (y, mo, d, h, mi, s, us)).
  { unfold DT.parse_iso, DT.isoformat.
    cbn [DT.year DT.month DT.day DT.hour DT.minute DT.second DT.microsecond].
    do 6 iso_step.
    destruct (us =? 0) eqn:Hz.
    - apply Z.eqb_eq in Hz. subst us. reflexivity.
    - cbn [append]. rewrite Ascii.eqb_refl.
      rewrite read_digits_zfill_end by (simpl; lia). reflexivity. }
  unfold DT.fromisoformat. rewrite Hparse. unfold DT.new. now rewrite Hwf.
Qed.

Lemma isoformat_nonempty (t : DT.datetime) : DT.isoformat t <> ""%string.
Proof. unfold DT.isoformat. cbn [DT.zfill append]. discriminate. Qed.

Lemma new_wf (y mo d h mi s us : Z) (t : DT.datetime) :
  DT.new y mo d h mi s us = Ok t -> DT.wf t.
Proof.
  unfold DT.new, DT.wf.
  destruct (DT.check_fields y mo d h mi s us) eqn:Hc; [| discriminate].
  intros [= <-]. exact Hc.
Qed.

(** A date that [now + timedelta(days=d)] returns is a [datetime] object. *)
Lemma add_days_wf (t t' : DT.datetime) (d : Z) :
  DT.add_days t d = Ok t' -> DT.wf t'.
Proof.
  unfold DT.add_days.
  destruct (999999999 <? Z.abs d); [discriminate |].
  destruct ((0 <? _) && (_ <=? DT.MAXORDINAL)); [| discriminate].
  destruct (DT.ord2ymd _) as [[y m] dd]. apply new_wf.
Qed.

(** No [timedelta] has more than 999999999 days. *)
Lemma add_days_overflow (t : DT.datetime) (d : Z) :
  999999999 < Z.abs d ->
  exists msg, DT.add_days t d = Raise (OverflowError msg).
Proof.
  intros Hd. unfold DT.add_days.
  apply Z.ltb_lt in Hd. rewrite Hd. eauto.
Qed.

(** ** Book and Member *)

Lemma book_post_init_later (now now' : DT.datetime) (b : Book.t) :
  DT.year now <= DT.year now' ->
  Book.__post_init__ now b = Ok tt -> Book.__post_init__ now' b = Ok tt.
Proof.
  unfold Book.__post_init__. intros Hle.
  destruct (_ || _); [discriminate |].
  destruct (String.eqb (Book.title b) ""); [discriminate |].
  destruct (String.eqb (Book.author b) ""); [discriminate |].
  destruct ((1000 <=? Book.year b) && (Book.year b <=? DT.year now)) eqn:Hy;
    [| discriminate].
  intros _. apply andb_prop in Hy as [H1 H2].
  apply Z.leb_le in H1, H2.
  replace ((1000 <=? Book.year b) && (Book.year b <=? DT.year now')) with true;
    [reflexivity |].
  symmetry. apply andb_true_intro. split; apply Z.leb_le; lia.
Qed.

(** Validation reads the four descriptive fields only. *)
Lemma book_post_init_fields (now : DT.datetime) (b b' : Book.t) :
  Book.isbn b' = Book.isbn b -> Book.title b' = Book.title b ->
  Book.author b' = Book.author b -> Book.year b' = Book.year b ->
  Book.__post_init__ now b' = Book.__post_init__ now b.
Proof.
  unfold Book.__post_init__. intros -> -> -> ->. reflexivity.
Qed.

Lemma book_from_dict_to_dict (now now' : DT.datetime) (b : Book.t) :
  Book.valid now b -> DT.year now <= DT.year now' ->
  Book.from_dict now' (Book.to_dict b) = Ok b.
Proof.
  intros [Hpost Hdue] Hle.
  apply (book_post_init_later _ _ _ Hle) in Hpost.
  destruct b as [i t a y av bb dd]. cbn [Book.due_date] in Hdue.
  unfold Book.from_dict, Book.to_dict, getitem, Book.__init__.
  cbn [dict_get String.eqb Ascii.eqb Bool.eqb Book.isbn Book.title Book.author
       Book.year Book.available Book.borrowed_by Book.due_date].
  destruct dd as [d |].
  - cbn [truthy]. destruct (String.eqb (DT.isoformat d) "") eqn:He.
    + apply String.eqb_eq in He. now apply isoformat_nonempty in He.
    + cbn [negb rbind as_str]. rewrite (fromisoformat_isoformat _ (Hdue d eq_refl)).
      cbn [rbind as_bool as_int]. destruct bb; cbn [as_opt_str rbind];
        rewrite Hpost; reflexivity.
  - cbn [truthy rbind as_str as_bool as_int].
    destruct bb; cbn [as_opt_str rbind]; rewrite Hpost; reflexivity.
Qed.

Lemma as_str_list_map (l : list string) : as_str_list (map JStr l) = Ok l.
Proof.
  induction l as [| s l IH]; [reflexivity |].
  cbn [map as_str_list as_str rbind]. now rewrite IH.
Qed.

Lemma member_from_dict_to_dict (m : Member.t) :
  Member.__post_init__ m = Ok tt -> Member.from_dict (Member.to_dict m) = Ok m.
Proof.
  intros Hpost. destruct m as [i n e bs mx].
  unfold Member.from_dict, Member.to_dict, getitem, Member.__init__.
  cbn [dict_get String.eqb Ascii.eqb Bool.eqb Member.member_id Member.name
       Member.email Member.borrowed_books Member.max_books rbind as_str as_int
       as_list_str].
  rewrite as_str_list_map. cbn [rbind]. rewrite Hpost. reflexivity.
Qed.

Lemma book_create_valid (now : DT.datetime) (i t a : string) (y : Z)
    (b : Book.t) :
  Book.create now i t a y = Ok b -> Book.valid now b.
Proof.
  unfold Book.create, Book.__init__.
  destruct (Book.__post_init__ now _) as [[] |] eqn:Hp; [| discriminate].
  cbn [rbind]. intros [= <-]. split; [exact Hp |]. discriminate.
Qed.

Lemma book_borrow_valid (now at_time : DT.datetime) (m : string) (d : Z)
    (b : Book.t) :
  Book.valid now b -> Book.valid now (fst (Book.borrow at_time m d b)).
Proof.
  intros [Hp Hd]. unfold Book.borrow.
  destruct (negb (Book.available b)); [now split |].
  destruct (DT.add_days at_time d) as [due |] eqn:Hadd; cbn [fst].
  - split.
    + rewrite <- Hp. now apply book_post_init_fields.
    + cbn. intros d0 [= <-]. eapply add_days_wf; eassumption.
  - split.
    + rewrite <- Hp. now apply book_post_init_fields.
    + exact Hd.
Qed.

Lemma book_return_valid (now : DT.datetime) (b : Book.t) :
  Book.valid now b -> Book.valid now (fst (Book.return_book b)).
Proof.
  intros [Hp Hd]. unfold Book.return_book.
  destruct (Book.available b); [now split |]. cbn [fst]. split.
  - rewrite <- Hp. now apply book_post_init_fields.
  - cbn. discriminate.
Qed.

Lemma book_reachable_valid (now : DT.datetime) (b : Book.t) :
  book_reachable now b -> Book.valid now b.
Proof.
  induction 1 as [i t a y b Hc | b at_time m d _ IH | b _ IH].
  - eapply book_create_valid; eassumption.
  - now apply book_borrow_valid.
  - now apply book_return_valid.
Qed.

(** C3.  [from_dict] after [to_dict] gives back, unchanged, every book
    that passes validation, its borrow fields and due date included: such
    are the books built by the validating constructor and taken through
    any sequence of [borrow] and [return_book] calls.  It gives back
    every member that passes validation, its list of borrowed ISBNs of any
    length and order included.  The book is read back at a time [later]
    whose year is not before the year of validation. *)
Theorem serialization_round_trip :
  (forall (now later : DT.datetime) (b : Book.t),
      Book.valid now b -> DT.year now <= DT.year later ->
      Book.from_dict later (Book.to_dict b) = Ok b) /\
  (forall (now : DT.datetime) (b : Book.t),
      book_reachable now b -> Book.valid now b) /\
  (forall m : Member.t,
      Member.__post_init__ m = Ok tt ->
      Member.from_dict (Member.to_dict m) = Ok m).
Proof.
  split; [exact book_from_dict_to_dict |].
  split; [exact book_reachable_valid | exact member_from_dict_to_dict].
Qed.

(** *** The borrow invariant of a book *)

Lemma book_create_invariant (now : DT.datetime) (i t a : string) (y : Z)
    (b : Book.t) :
  Book.create now i t a y = Ok b -> Book.invariant b.
Proof.
  unfold Book.create, Book.__init__.
  destruct (Book.__post_init__ now _) as [[] |]; [| discriminate].
  cbn [rbind]. intros [= <-]. unfold Book.invariant. cbn.
  intuition congruence.
Qed.

(** A [borrow] that returns leaves the book in the invariant. *)
Lemma book_borrow_ok_invariant (now : DT.datetime) (m : string) (d : Z)
    (b b' : Book.t) :
  Book.borrow now m d b = (b', Ok tt) -> Book.invariant b'.
Proof.
  unfold Book.borrow. destruct (negb (Book.available b)); [discriminate |].
  destruct (DT.add_days now d); [| discriminate].
  intros [= <-]. unfold Book.invariant. cbn.
  intuition congruence.
Qed.

(** A [borrow] refused because the book is out leaves it as it was. *)
Lemma book_borrow_unavailable (now : DT.datetime) (m : string) (d : Z)
    (b : Book.t) :
  Book.available b = false ->
  Book.borrow now m d b = (b, Raise (RuntimeError "Книга уже выдана.")).
Proof. unfold Book.borrow. now intros ->. Qed.

Lemma book_return_invariant (b : Book.t) :
  Book.invariant b -> Book.invariant (fst (Book.return_book b)).
Proof.
  intros Hinv. unfold Book.return_book.
  destruct (Book.available b); [exact Hinv |].
  unfold Book.invariant. cbn. intuition congruence.
Qed.

(** C7.  On an available book, [borrow] followed by [return_book] gives
    back the book with [available = True], [borrowed_by = None] and
    [due_date = None], the other fields as they were, for every [days]:
    when [now + days] is the date [due], [borrow] returns with the book
    lent until [due]; and for every [days], also one so large that
    [borrow] ends in [OverflowError], [return_book] succeeds on the object
    [borrow] leaves and restores the three fields. *)
Theorem borrow_then_return_restores (now : DT.datetime) (b : Book.t)
    (member_id : string) (days : Z) :
  Book.available b = true ->
  (forall due,
      DT.add_days now days = Ok due ->
      Book.borrow now member_id days b
      = (book_borrowed b member_id due, Ok tt)) /\
  Book.return_book (fst (Book.borrow now member_id days b))
  = (book_returned b, Ok tt).
Proof.
  intros Hav. unfold Book.borrow. rewrite Hav. cbn [negb]. split.
  - intros due ->. reflexivity.
  - destruct (DT.add_days now days); reflexivity.
Qed.

(** ** Dictionaries *)

Section DictFacts.
Context {V : Type}.

Lemma dict_get_set_same (k : string) (v : V) (d : dict V) :
  dict_get k (dict_set k v d) = Some v.
Proof.
  induction d as [| [k' v'] d IH]; cbn [dict_set dict_get].
  - now rewrite String.eqb_refl.
  - destruct (String.eqb k k') eqn:E; cbn [dict_get].
    + now rewrite String.eqb_refl.
    + now rewrite E.
Qed.

Lemma dict_get_set_other (k k' : string) (v : V) (d : dict V) :
  k <> k' -> dict_get k' (dict_set k v d) = dict_get k' d.
Proof.
  intros Hne. induction d as [| [k0 v0] d IH]; cbn [dict_set dict_get].
  - destruct (String.eqb_spec k' k); congruence.
  - destruct (String.eqb_spec k k0) as [-> | Hk]; cbn [dict_get].
    + destruct (String.eqb_spec k' k0); congruence.
    + now rewrite IH.
Qed.

Lemma dict_get_set (k k' : string) (v : V) (d : dict V) :
  dict_get k' (dict_set k v d) = if String.eqb k k' then Some v else dict_get k' d.
Proof.
  destruct (String.eqb_spec k k') as [<- | Hne].
  - apply dict_get_set_same.
  - now apply dict_get_set_other.
Qed.

Lemma dict_get_in (k : string) (v : V) (d : dict V) :
  dict_get k d = Some v -> In (k, v) d.
Proof.
  induction d as [| [k' v'] d IH]; cbn [dict_get]; [discriminate |].
  destruct (String.eqb_spec k k') as [<- | Hne].
  - intros [= <-]. now left.
  - intros H. right. auto.
Qed.

(** A new key goes last. *)
Lemma dict_set_new (k : string) (v : V) (d : dict V) :
  dict_get k d = None -> dict_set k v d = (d ++ [(k, v)])%list.
Proof.
  induction d as [| [k' v'] d IH]; cbn [dict_get dict_set app]; [reflexivity |].
  destruct (String.eqb k k'); [discriminate |].
  intros H. now rewrite IH.
Qed.

Lemma in_dict_set (k k' : string) (v v' : V) (d : dict V) :
  In (k', v') (dict_set k v d) -> (k' = k /\ v' = v) \/ In (k', v') d.
Proof.
  induction d as [| [k0 v0] d IH]; cbn [dict_set In].
  - intros [[= <- <-] | []]. now left.
  - destruct (String.eqb_spec k k0) as [-> | Hne]; cbn [In].
    + intros [[= <- <-] | Hin]; [now left | right; now right].
    + intros [[= <- <-] | Hin]; [right; now left |].
      destruct (IH Hin) as [? | ?]; [now left | right; now right].
Qed.

End DictFacts.

(** ** The catalog *)

Lemma validate_isbn_usable {A : Type} (isbn : string) (func : Library.M A) :
  usable_isbn isbn -> Library.validate_isbn isbn func = func.
Proof.
  unfold usable_isbn, Library.validate_isbn. intros H.
  destruct (Z.ltb_spec (len isbn) 10); [lia | reflexivity].
Qed.

Lemma require_member_usable {A : Type} (member_id : string)
    (func : Library.M A) :
  usable_member_id member_id -> Library.require_member member_id func = func.
Proof.
  unfold usable_member_id, Library.require_member. intros H.
  destruct (String.eqb_spec member_id ""); [contradiction | reflexivity].
Qed.

Section Catalog.
Variable now : DT.datetime.

(** [borrow_book] on usable arguments, step by step. *)
Lemma borrow_book_unfold (isbn member_id : string) (days : Z)
    (self : Library.t) :
  usable_isbn isbn -> usable_member_id member_id ->
  Library.borrow_book now isbn member_id days self =
  match dict_get isbn (Library.books self) with
  | None => (self, Raise (BookNotFoundError isbn))
  | Some book =>
      match dict_get member_id (Library.members self) with
      | None => (self, Raise (MemberNotFoundError member_id))
      | Some member =>
          if negb (Book.available book)
          then (self, Raise (BookNotAvailableError isbn))
          else if negb (Member.can_borrow member)
          then (self, Raise (BorrowLimitExceededError member_id
                               (Member.max_books member)))
          else
            let call := Book.borrow now member_id days book in
            match snd call with
            | Ok _ =>
                (with_member member_id
                   (Member.add_borrowed_book isbn member)
                   (with_book isbn (fst call) self), Ok tt)
            | Raise e => (with_book isbn (fst call) self, Raise e)
            end
      end
  end.
Proof.
  intros Hi Hm. unfold Library.borrow_book, Library.log_operation.
  rewrite (validate_isbn_usable _ _ Hi), (require_member_usable _ _ Hm).
  unfold Library.bind, Library.get_book.
  rewrite (validate_isbn_usable _ _ Hi).
  destruct (dict_get isbn (Library.books self)) as [book |];
    [| reflexivity].
  cbn [Library.ret]. unfold Library.get_member.
  destruct (dict_get member_id (Library.members self)) as [member |];
    [| reflexivity].
  cbn [Library.ret].
  destruct (negb (Book.available book)); [reflexivity |].
  destruct (negb (Member.can_borrow member)); [reflexivity |].
  unfold Library.on_book, Library.on_member, with_book, with_member.
  cbn [fst snd Library.books Library.members Library.books_file
       Library.members_file].
  destruct (snd (Book.borrow now member_id days book)) as [[] |]; reflexivity.
Qed.

Lemma return_book_unfold (isbn member_id : string) (self : Library.t) :
  usable_isbn isbn -> usable_member_id member_id ->
  Library.return_book isbn member_id self =
  match dict_get isbn (Library.books self) with
  | None => (self, Raise (BookNotFoundError isbn))
  | Some book =>
      match dict_get member_id (Library.members self) with
      | None => (self, Raise (MemberNotFoundError member_id))
      | Some member =>
          if negb (opt_str_eqb (Book.borrowed_by book) (Some member_id))
          then (self, Raise (ValueError ("Книга с ISBN " ++ isbn
                                           ++ " не была выдана читателю "
                                           ++ member_id ++ ".")))
          else
            let call := Book.return_book book in
            match snd call with
            | Ok _ =>
                (with_member member_id
                   (Member.remove_borrowed_book isbn member)
                   (with_book isbn (fst call) self), Ok tt)
            | Raise e => (with_book isbn (fst call) self, Raise e)
            end
      end
  end.
Proof.
  intros Hi Hm. unfold Library.return_book, Library.log_operation.
  rewrite (validate_isbn_usable _ _ Hi), (require_member_usable _ _ Hm).
  unfold Library.bind, Library.get_book.
  rewrite (validate_isbn_usable _ _ Hi).
  destruct (dict_get isbn (Library.books self)) as [book |];
    [| reflexivity].
  cbn [Library.ret]. unfold Library.get_member.
  destruct (dict_get member_id (Library.members self)) as [member |];
    [| reflexivity].
  cbn [Library.ret].
  destruct (negb (opt_str_eqb _ _)); [reflexivity |].
  unfold Library.on_book, Library.on_member, with_book, with_member.
  cbn [fst snd Library.books Library.members Library.books_file
       Library.members_file].
  destruct (snd (Book.return_book book)) as [[] |]; reflexivity.
Qed.

(** An unusable argument is refused before any lookup. *)
Lemma borrow_book_unusable (isbn member_id : string) (days : Z)
    (self : Library.t) :
  ~ (usable_isbn isbn /\ usable_member_id member_id) ->
  exists msg,
    Library.borrow_book now isbn member_id days self = (self, Raise (ValueError msg)).
Proof.
  intros H. unfold Library.borrow_book, Library.log_operation,
    Library.validate_isbn.
  destruct (Z.ltb_spec (len isbn) 10) as [Hl | Hl].
  - eexists. reflexivity.
  - unfold Library.require_member.
    destruct (String.eqb_spec member_id "") as [He | He].
    + eexists. reflexivity.
    + exfalso. apply H. split; assumption.
Qed.

End Catalog.

(** ** The transaction: rollback *)

(** Over the values: whatever the body of the [with] block does to the
    catalog, if it ends by raising [e], the transaction ends by raising the
    same [e] and the two mappings are those the catalog had when the block
    was entered. *)
Lemma transaction_restores_values {J : JsonLib} (body : Library.M unit)
    (self after_body : Library.t) (e : exn) :
  body self = (after_body, Raise e) ->
  exists restored,
    Library.transaction body self = (restored, Raise e) /\
    Library.books restored = Library.books self /\
    Library.members restored = Library.members self.
Proof.
  intros Hbody.
  unfold Library.transaction, Library.try_except, Library.bind.
  rewrite Hbody.
  unfold Library.set_books, Library.set_members, Library.raise,
    Library.deepcopy.
  eexists. split; [reflexivity |]. split; reflexivity.
Qed.

Lemma same_files_refl (s : Library.t) : same_files s s.
Proof. split; reflexivity. Qed.

Lemma same_files_trans (s1 s2 s3 : Library.t) :
  same_files s1 s2 -> same_files s2 s3 -> same_files s1 s3.
Proof. unfold same_files. intros [-> ->] [-> ->]. split; reflexivity. Qed.

Lemma validate_isbn_cases {A : Type} (isbn : string) (func : Library.M A)
    (self : Library.t) :
  Library.validate_isbn isbn func self = func self \/
  exists msg, Library.validate_isbn isbn func self = (self, Raise (ValueError msg)).
Proof.
  unfold Library.validate_isbn.
  destruct (len isbn <? 10); [right | left].
  - eexists. reflexivity.
  - reflexivity.
Qed.

Lemma run_op_same_files (now : DT.datetime) (o : Library.op)
    (self self' : Library.t) (r : result unit) :
  Library.run_op now o self = (self', r) -> same_files self self'.
Proof.
  destruct o as [i t a y | m n e | i m d | i m | e]; cbn [Library.run_op].
  - unfold Library.bind, Library.add_book, Library.log_operation.
    destruct (validate_isbn_cases i
      (fun self0 =>
         if dict_mem i (Library.books self0)
         then Library.raise
                (ValueError ("Книга с ISBN " ++ i ++ " уже существует.")) self0
         else Library.bind (Library.lift (Book.create now i t a y))
                (fun book => Library.bind (Library.on_book i (book, Ok tt))
                               (fun _ => Library.ret book)) self0) self)
      as [-> | [msg ->]].
    + destruct (dict_mem i (Library.books self)).
      * intros [= <- _]. apply same_files_refl.
      * unfold Library.bind, Library.lift.
        destruct (Book.create now i t a y) as [b |].
        -- cbn. intros [= <- _]. split; reflexivity.
        -- intros [= <- _]. apply same_files_refl.
    + intros [= <- _]. apply same_files_refl.
  - unfold Library.bind, Library.add_member, Library.log_operation.
    destruct (dict_mem m (Library.members self)).
    + intros [= <- _]. apply same_files_refl.
    + unfold Library.bind, Library.lift.
      destruct (Member.create m n e) as [mb |].
      * cbn. intros [= <- _]. split; reflexivity.
      * intros [= <- _]. apply same_files_refl.
  - destruct (Z.ltb_spec (len i) 10) as [Hl | Hl].
    { unfold Library.borrow_book, Library.log_operation, Library.validate_isbn.
      apply Z.ltb_lt in Hl. rewrite Hl. intros [= <- _]. apply same_files_refl. }
    destruct (String.eqb_spec m "") as [-> | Hm].
    { unfold Library.borrow_book, Library.log_operation, Library.validate_isbn.
      apply Z.ltb_ge in Hl. rewrite Hl. cbn. intros [= <- _].
      apply same_files_refl. }
    rewrite borrow_book_unfold by assumption.
    destruct (dict_get i (Library.books self)) as [book |];
      [| intros [= <- _]; apply same_files_refl].
    destruct (dict_get m (Library.members self)) as [member |];
      [| intros [= <- _]; apply same_files_refl].
    destruct (negb (Book.available book));
      [intros [= <- _]; apply same_files_refl |].
    destruct (negb (Member.can_borrow member));
      [intros [= <- _]; apply same_files_refl |].
    cbn zeta. destruct (snd (Book.borrow now m d book));
      intros [= <- _]; split; reflexivity.
  - destruct (Z.ltb_spec (len i) 10) as [Hl | Hl].
    { unfold Library.return_book, Library.log_operation, Library.validate_isbn.
      apply Z.ltb_lt in Hl. rewrite Hl. intros [= <- _]. apply same_files_refl. }
    destruct (String.eqb_spec m "") as [-> | Hm].
    { unfold Library.return_book, Library.log_operation, Library.validate_isbn.
      apply Z.ltb_ge in Hl. rewrite Hl. cbn. intros [= <- _].
      apply same_files_refl. }
    rewrite return_book_unfold by assumption.
    destruct (dict_get i (Library.books self)) as [book |];
      [| intros [= <- _]; apply same_files_refl].
    destruct (dict_get m (Library.members self)) as [member |];
      [| intros [= <- _]; apply same_files_refl].
    destruct (negb (opt_str_eqb _ _));
      [intros [= <- _]; apply same_files_refl |].
    cbn zeta. destruct (snd (Book.return_book book));
      intros [= <- _]; split; reflexivity.
  - intros [= <- _]. apply same_files_refl.
Qed.

Lemma run_ops_same_files (now : DT.datetime) (ops : list Library.op) :
  forall (self self' : Library.t) (r : result unit),
    Library.run_ops now ops self = (self', r) -> same_files self self'.
Proof.
  induction ops as [| o ops IH]; intros self self' r; cbn [Library.run_ops].
  - intros [= <- _]. apply same_files_refl.
  - unfold Library.bind.
    destruct (Library.run_op now o self) as [s1 [[] | e]] eqn:Hop.
    + intros Hrest. eapply same_files_trans.
      * eapply run_op_same_files; eassumption.
      * eapply IH; eassumption.
    + intros [= <- _]. eapply run_op_same_files; eassumption.
Qed.

(** X26.  A batch of catalog operations that fails inside a transaction
    leaves the mappings as they were and the two files untouched. *)
Lemma transaction_rollback_batch {J : JsonLib} (now : DT.datetime)
    (ops : list Library.op) (self after_ops : Library.t) (e : exn) :
  Library.run_ops now ops self = (after_ops, Raise e) ->
  Library.transaction (Library.run_ops now ops) self = (self, Raise e).
Proof.
  intros Hops.
  unfold Library.transaction, Library.try_except, Library.bind.
  rewrite Hops.
  destruct (run_ops_same_files _ _ _ _ _ Hops) as [Hb Hm].
  unfold Library.set_books, Library.set_members, Library.raise,
    Library.deepcopy. cbn.
  rewrite Hb, Hm. destruct self; reflexivity.
Qed.

(** ** The transaction over the object store *)

Lemma frame_refl {V : Type} (none : V) objs m : frame none objs objs m m.
Proof. unfold frame. repeat split; auto. Qed.

Lemma frame_trans {V : Type} (none : V) o1 o2 o3 m1 m2 m3 :
  frame none o1 o2 m1 m2 -> frame none o2 o3 m2 m3 -> frame none o1 o3 m1 m3.
Proof.
  intros (L1 & K1 & R1) (L2 & K2 & R2). split; [lia | split].
  - intros a Ha Hn. rewrite K2.
    + apply K1; assumption.
    + lia.
    + intro Hin. destruct (R1 a Hin) as [H | H]; [contradiction | lia].
  - intros a Hin. destruct (R2 a Hin) as [H | H].
    + apply R1; assumption.
    + right. lia.
Qed.

Lemma upd_length {A : Type} (n : nat) (x : A) (l : list A) :
  List.length (Store.upd n x l) = List.length l.
Proof.
  revert n. induction l as [| y l IH]; intros [| n]; cbn; auto.
Qed.

Lemma nth_upd_same {A : Type} (n : nat) (x d : A) (l : list A) :
  (n < List.length l)%nat -> nth n (Store.upd n x l) d = x.
Proof.
  revert n. induction l as [| y l IH]; intros [| n] H; cbn in *;
    try lia; auto.
  apply IH. lia.
Qed.

Lemma nth_upd_other {A : Type} (n k : nat) (x d : A) (l : list A) :
  k <> n -> nth k (Store.upd n x l) d = nth k l d.
Proof.
  revert n k. induction l as [| y l IH]; intros [| n] [| k] H; cbn;
    try reflexivity; try congruence.
  apply IH. congruence.
Qed.

Lemma frame_upd {V : Type} (none : V) objs m a x :
  In a (dict_values m) -> frame none objs (Store.upd a x objs) m m.
Proof.
  intros Hin. split; [rewrite upd_length; lia | split].
  - intros k _ Hk. apply nth_upd_other. intro E. subst. contradiction.
  - auto.
Qed.

Lemma dict_get_value {V : Type} (k : string) (d : dict V) (v : V) :
  dict_get k d = Some v -> In v (dict_values d).
Proof.
  induction d as [| [k' v'] d IH]; cbn; [discriminate |].
  destruct (String.eqb k k'); intros H.
  - left. congruence.
  - right. auto.
Qed.

Lemma in_values_dict_set {V : Type} (k : string) (v x : V) (d : dict V) :
  In x (dict_values (dict_set k v d)) -> x = v \/ In x (dict_values d).
Proof.
  induction d as [| [k' v'] d IH]; cbn.
  - intuition.
  - destruct (String.eqb k k'); cbn; intuition.
Qed.

Lemma frame_alloc {V : Type} (none : V) objs m k x :
  frame none objs (objs ++ [x]) m (dict_set k (List.length objs) m).
Proof.
  split; [rewrite length_app; cbn; lia | split].
  - intros a Ha _. apply app_nth1. assumption.
  - intros a Hin. apply in_values_dict_set in Hin. destruct Hin; [right; lia | auto].
Qed.

Lemma confined_ret {A : Type} (a : A) : confined (Store.ret a).
Proof. intro w. split; apply frame_refl. Qed.

Lemma confined_raise {A : Type} (e : exn) : confined (@Store.raise A e).
Proof. intro w. split; apply frame_refl. Qed.

Lemma confined_bind {A B : Type} (m : Store.M A) (k : A -> Store.M B) :
  confined m -> (forall a, confined (k a)) -> confined (Store.bind m k).
Proof.
  intros Hm Hk w. unfold Store.bind.
  destruct (Hm w) as [F1 F2]. destruct (m w) as [w1 [a | e]] eqn:E; cbn in *.
  - destruct (Hk a w1) as [G1 G2].
    split; eapply frame_trans; eassumption.
  - split; assumption.
Qed.

Lemma confined_validate_isbn {A : Type} (isbn : string) (f : Store.M A) :
  confined f -> confined (Store.validate_isbn isbn f).
Proof.
  intro H. unfold Store.validate_isbn.
  destruct (_ <? _); [apply confined_raise | assumption].
Qed.

Lemma confined_require_member {A : Type} (member_id : string)
    (f : Store.M A) :
  confined f -> confined (Store.require_member member_id f).
Proof.
  intro H. unfold Store.require_member.
  destruct (String.eqb _ _); [apply confined_raise | assumption].
Qed.

Lemma confined_add_book now isbn title author year :
  confined (Store.add_book now isbn title author year).
Proof.
  unfold Store.add_book, Store.log_operation.
  apply confined_validate_isbn. intro w.
  destruct (dict_mem isbn (Store.books w)); [split; apply frame_refl |].
  unfold Store.bind, Store.lift.
  destruct (Book.create now isbn title author year) as [b | e]; cbn.
  - split; [apply frame_alloc | apply frame_refl].
  - split; apply frame_refl.
Qed.

Lemma confined_add_member member_id name email :
  confined (Store.add_member member_id name email).
Proof.
  unfold Store.add_member, Store.log_operation. intro w.
  destruct (dict_mem member_id (Store.members w));
    [split; apply frame_refl |].
  unfold Store.bind, Store.lift.
  destruct (Member.create member_id name email) as [m | e]; cbn.
  - split; [apply frame_refl | apply frame_alloc].
  - split; apply frame_refl.
Qed.

(** A method call on an object of the catalog. *)
Lemma confined_lookup_then {A : Type} (isbn member_id : string)
    (k : Store.addr -> Store.addr -> Store.M A) :
  (forall book member w,
     In book (dict_values (Store.books w)) ->
     In member (dict_values (Store.members w)) ->
     frame Store.no_book (Store.book_objs w)
       (Store.book_objs (fst (k book member w)))
       (Store.books w) (Store.books (fst (k book member w))) /\
     frame Store.no_member (Store.member_objs w)
       (Store.member_objs (fst (k book member w)))
       (Store.members w) (Store.members (fst (k book member w)))) ->
  confined (Store.bind (Store.get_book isbn)
              (fun book => Store.bind (Store.get_member member_id)
                             (fun member => k book member))).
Proof.
  intros Hk w. unfold Store.bind, Store.get_book, Store.validate_isbn.
  destruct (_ <? _); [split; apply frame_refl |].
  destruct (dict_get isbn (Store.books w)) as [book |] eqn:Eb;
    [| split; apply frame_refl].
  cbn. unfold Store.get_member.
  destruct (dict_get member_id (Store.members w)) as [member |] eqn:Em;
    [| split; apply frame_refl].
  cbn. apply Hk; eapply dict_get_value; eassumption.
Qed.

Lemma confined_borrow_book now isbn member_id days :
  confined (Store.borrow_book now isbn member_id days).
Proof.
  unfold Store.borrow_book, Store.log_operation.
  apply confined_validate_isbn, confined_require_member, confined_lookup_then.
  intros book member w Hb Hm.
  destruct (negb _); [split; apply frame_refl |].
  destruct (negb _); [split; apply frame_refl |].
  unfold Store.bind, Store.call_book, Store.call_member.
  destruct (snd (Book.borrow now member_id days (Store.book_at book w)));
    cbn; split; try apply frame_refl; apply frame_upd; assumption.
Qed.

Lemma confined_return_book isbn member_id :
  confined (Store.return_book isbn member_id).
Proof.
  unfold Store.return_book, Store.log_operation.
  apply confined_validate_isbn, confined_require_member, confined_lookup_then.
  intros book member w Hb Hm.
  destruct (negb _); [split; apply frame_refl |].
  unfold Store.bind, Store.call_book, Store.call_member.
  destruct (snd (Book.return_book (Store.book_at book w)));
    cbn; split; try apply frame_refl; apply frame_upd; assumption.
Qed.

Lemma confined_run_op now (o : Library.op) : confined (Store.run_op now o).
Proof.
  destruct o; cbn.
  - apply confined_bind; [apply confined_add_book | intro; apply confined_ret].
  - apply confined_bind; [apply confined_add_member | intro; apply confined_ret].
  - apply confined_borrow_book.
  - apply confined_return_book.
  - apply confined_raise.
Qed.

Lemma confined_run_ops now (l : list Library.op) :
  confined (Store.run_ops now l).
Proof.
  induction l as [| o l IH]; cbn.
  - apply confined_ret.
  - apply confined_bind; [apply confined_run_op | intro; assumption].
Qed.

Lemma view_dict_ext {V : Type} (none : V) (o1 o2 : list V)
    (m : dict Store.addr) :
  (forall a, In a (dict_values m) -> nth a o1 none = nth a o2 none) ->
  Store.view_dict o1 none m = Store.view_dict o2 none m.
Proof.
  unfold Store.view_dict.
  induction m as [| [k a] m IH]; cbn [map fst snd]; intros H;
    [reflexivity |].
  rewrite (H a) by (left; reflexivity). f_equal.
  apply IH. intros; apply H; right; assumption.
Qed.

Lemma values_combine {B : Type} (l1 : list string) (l2 : list B) :
  List.length l1 = List.length l2 -> dict_values (combine l1 l2) = l2.
Proof.
  revert l2. induction l1 as [| x l1 IH]; intros [| y l2] H; cbn in *;
    try reflexivity; try discriminate.
  f_equal. apply IH. congruence.
Qed.

(** What is read through the copy is what is read through the original. *)
Lemma view_dict_copies {V : Type} (none : V) (f : string * Store.addr -> V)
    (m : dict Store.addr) (pre : list V) :
  Store.view_dict (pre ++ map f m) none
    (combine (map fst m) (seq (List.length pre) (List.length m)))
  = map (fun ka => (fst ka, f ka)) m.
Proof.
  unfold Store.view_dict.
  revert pre. induction m as [| x m IH]; intros pre; cbn [map combine seq List.length fst snd]; [reflexivity |].
  rewrite app_nth2 by lia. rewrite Nat.sub_diag. cbn [nth]. f_equal.
  specialize (IH (pre ++ [f x])%list).
  rewrite <- app_assoc, length_app in IH. cbn [List.length app] in IH.
  rewrite Nat.add_1_r in IH. exact IH.
Qed.

Lemma view_dict_deepcopy {V : Type} (none : V) (objs : list V)
    (m : dict Store.addr) :
  Store.view_dict (fst (Store.deepcopy objs none m)) none
    (snd (Store.deepcopy objs none m))
  = Store.view_dict objs none m.
Proof. unfold Store.deepcopy. cbn [fst snd]. apply view_dict_copies. Qed.

Lemma deepcopy_fresh {V : Type} (none : V) (objs : list V)
    (m : dict Store.addr) (a : Store.addr) :
  In a (dict_values (snd (Store.deepcopy objs none m))) ->
  (List.length objs <= a < List.length (fst (Store.deepcopy objs none m)))%nat.
Proof.
  unfold Store.deepcopy. cbn [fst snd].
  rewrite values_combine by (rewrite length_map, length_seq; reflexivity).
  intros H. apply in_seq in H. rewrite length_app, length_map.
  unfold Store.addr in *. lia.
Qed.

(** A snapshot that the body does not reach reads after the body what it
    read before. *)
Lemma snapshot_kept {V : Type} (none : V) (objs objs' : list V)
    (m m' : dict Store.addr) :
  (forall a, In a (dict_values m) -> (a < List.length objs)%nat) ->
  frame none (fst (Store.deepcopy objs none m)) objs' m m' ->
  Store.view_dict objs' none (snd (Store.deepcopy objs none m))
  = Store.view_dict objs none m.
Proof.
  intros Hal (_ & K & _). rewrite <- (view_dict_deepcopy none objs m).
  apply view_dict_ext. intros a Ha. apply deepcopy_fresh in Ha.
  apply K; [apply Ha |]. intro Hin. apply Hal in Hin.
  unfold Store.addr in *. lia.
Qed.

Lemma scope_entry_eq (w : Store.t) :
  scope_entry w =
  Store.mk (fst (Store.deepcopy (Store.book_objs w) Store.no_book
                   (Store.books w)))
           (fst (Store.deepcopy (Store.member_objs w) Store.no_member
                   (Store.members w)))
           (Store.books w) (Store.members w) (Store.books_file w)
           (Store.members_file w).
Proof. reflexivity. Qed.

Lemma transaction_unfold {J : JsonLib} (body : Store.M unit) (w : Store.t) :
  Store.transaction body w =
  match body (scope_entry w) with
  | (w1, Ok _) => Store.save w1
  | (w1, Raise e) =>
      (Store.mk (Store.book_objs w1) (Store.member_objs w1)
         (snd (Store.deepcopy (Store.book_objs w) Store.no_book
                 (Store.books w)))
         (snd (Store.deepcopy (Store.member_objs w) Store.no_member
                 (Store.members w)))
         (Store.books_file w1) (Store.members_file w1), Raise e)
  end.
Proof.
  rewrite scope_entry_eq.
  unfold Store.transaction, Store.bind, Store.try_except,
    Store.deepcopy_books, Store.deepcopy_members.
  cbn -[Store.deepcopy Store.save].
  destruct (body _) as [w1 [[] | e]]; cbn -[Store.deepcopy Store.save].
  - destruct (Store.save w1) as [w2 [[] | e2]] eqn:E; [reflexivity |].
    unfold Store.save, Store.measure_time in E. discriminate.
  - reflexivity.
Qed.

Lemma rollback_confined {J : JsonLib} (body : Store.M unit)
    (w after_body : Store.t) (e : exn) :
  confined body ->
  allocated w ->
  body (scope_entry w) = (after_body, Raise e) ->
  exists restored,
    Store.transaction body w = (restored, Raise e) /\
    Library.books (Store.view restored) = Library.books (Store.view w) /\
    Library.members (Store.view restored) = Library.members (Store.view w).
Proof.
  intros Hc [Hb Hm] Hbody. rewrite transaction_unfold, Hbody.
  eexists. split; [reflexivity |].
  destruct (Hc (scope_entry w)) as [Fb Fm]. rewrite Hbody in Fb, Fm.
  rewrite scope_entry_eq in Fb, Fm. cbn -[Store.deepcopy] in *.
  split; eapply snapshot_kept; eassumption.
Qed.

Lemma dict_get_view {V : Type} (none : V) (objs : list V)
    (m : dict Store.addr) (k : string) :
  dict_get k (Store.view_dict objs none m)
  = option_map (fun a => nth a objs none) (dict_get k m).
Proof.
  unfold Store.view_dict.
  induction m as [| [k' a] m IH]; cbn; [reflexivity |].
  destruct (String.eqb k k'); [reflexivity | exact IH].
Qed.

Lemma dict_mem_view {V : Type} (none : V) (objs : list V)
    (m : dict Store.addr) (k : string) :
  dict_mem k (Store.view_dict objs none m) = dict_mem k m.
Proof.
  unfold dict_mem. rewrite dict_get_view.
  destruct (dict_get k m); reflexivity.
Qed.

Lemma view_dict_alloc {V : Type} (none : V) (objs : list V)
    (m : dict Store.addr) (k : string) (x : V) :
  (forall a, In a (dict_values m) -> (a < List.length objs)%nat) ->
  Store.view_dict (objs ++ [x]) none (dict_set k (List.length objs) m)
  = dict_set k x (Store.view_dict objs none m).
Proof.
  unfold Store.view_dict.
  induction m as [| [k' a] m IH]; cbn [map dict_set fst snd]; intros H.
  - rewrite app_nth2 by lia. rewrite Nat.sub_diag. reflexivity.
  - destruct (String.eqb k k'); cbn [map fst snd].
    + rewrite app_nth2 by lia. rewrite Nat.sub_diag. cbn [nth]. f_equal.
      apply (view_dict_ext none). intros b Hb. apply app_nth1.
      apply H. right. assumption.
    + rewrite app_nth1 by (apply H; left; reflexivity). f_equal.
      apply IH. intros b Hb. apply H. right. assumption.
Qed.

Lemma view_dict_upd {V : Type} (none : V) (objs : list V)
    (m : dict Store.addr) (k : string) (a : Store.addr) (x : V) :
  dict_get k m = Some a ->
  NoDup (dict_values m) ->
  (a < List.length objs)%nat ->
  Store.view_dict (Store.upd a x objs) none m
  = dict_set k x (Store.view_dict objs none m).
Proof.
  unfold Store.view_dict. intros Hget Hnd Ha.
  induction m as [| [k' a'] m IH]; cbn [map dict_set dict_get fst snd] in *;
    [discriminate |].
  inversion Hnd as [| ? ? Hnotin Hnd']; subst.
  destruct (String.eqb k k') eqn:E.
  - injection Hget as ->. apply String.eqb_eq in E. subst k'.
    rewrite nth_upd_same by assumption. f_equal.
    apply (view_dict_ext none). intros b Hb. apply nth_upd_other.
    intro; subst; contradiction.
  - rewrite nth_upd_other.
    + f_equal. apply IH; assumption.
    + intro; subst. apply Hnotin. eapply dict_get_value. eassumption.
Qed.

Lemma NoDup_values_dict_set (m : dict Store.addr) (k : string)
    (n : Store.addr) :
  NoDup (dict_values m) -> ~ In n (dict_values m) ->
  NoDup (dict_values (dict_set k n m)).
Proof.
  induction m as [| [k' a] m IH]; cbn; intros Hnd Hn.
  - constructor; [intros [] | constructor].
  - inversion Hnd as [| ? ? Hnotin Hnd']; subst.
    destruct (String.eqb k k'); cbn.
    + constructor; [tauto | assumption].
    + constructor.
      * intro Hin. apply in_values_dict_set in Hin. destruct Hin; [subst; tauto | contradiction].
      * apply IH; [assumption | tauto].
Qed.

Lemma simulates_ret {A : Type} (a : A) :
  simulates (Store.ret a) (Library.ret a).
Proof. intros w H. split; [reflexivity | assumption]. Qed.

Lemma simulates_raise {A : Type} (e : exn) :
  simulates (@Store.raise A e) (Library.raise e).
Proof. intros w H. split; [reflexivity | assumption]. Qed.

Lemma simulates_bind {A B : Type} (m : Store.M A) (m' : Library.M A)
    (k : A -> Store.M B) (k' : A -> Library.M B) :
  simulates m m' -> (forall a, simulates (k a) (k' a)) ->
  simulates (Store.bind m k) (Library.bind m' k').
Proof.
  intros Hm Hk w Hw. unfold Store.bind, Library.bind.
  destruct (Hm w Hw) as [E S1]. rewrite E.
  destruct (m w) as [w1 [a | e]]; cbn in *.
  - apply Hk. assumption.
  - split; [reflexivity | assumption].
Qed.

Lemma simulates_validate_isbn {A : Type} (isbn : string) (f : Store.M A)
    (f' : Library.M A) :
  simulates f f' ->
  simulates (Store.validate_isbn isbn f) (Library.validate_isbn isbn f').
Proof.
  intro H. unfold Store.validate_isbn, Library.validate_isbn.
  destruct (_ <? _); [apply simulates_raise | assumption].
Qed.

Lemma simulates_require_member {A : Type} (member_id : string)
    (f : Store.M A) (f' : Library.M A) :
  simulates f f' ->
  simulates (Store.require_member member_id f)
    (Library.require_member member_id f').
Proof.
  intro H. unfold Store.require_member, Library.require_member.
  destruct (String.eqb _ _); [apply simulates_raise | assumption].
Qed.

Lemma simulates_add_book now isbn title author year :
  simulates (Store.add_book now isbn title author year)
    (Library.add_book now isbn title author year).
Proof.
  unfold Store.add_book, Library.add_book, Store.log_operation,
    Library.log_operation.
  apply simulates_validate_isbn. intros w [[Ab Am] [Nb Nm]].
  cbn [Store.view Library.books]. rewrite dict_mem_view.
  destruct (dict_mem isbn (Store.books w));
    [split; [reflexivity | repeat split; assumption] |].
  unfold Store.bind, Library.bind, Store.lift, Library.lift.
  destruct (Book.create now isbn title author year) as [b | e];
    [| split; [reflexivity | repeat split; assumption]].
  cbn -[Store.view_dict dict_set]. split.
  - unfold Store.view. cbn -[Store.view_dict dict_set].
    rewrite view_dict_alloc by assumption. reflexivity.
  - repeat split; cbn; try assumption.
    + intros a Hin. rewrite length_app. cbn.
      apply in_values_dict_set in Hin. destruct Hin as [-> | Hin];
        [| apply Ab in Hin]; unfold Store.addr in *; lia.
    + apply NoDup_values_dict_set; [assumption |].
      intro Hin. apply Ab in Hin. unfold Store.addr in *; lia.
Qed.

Lemma simulates_add_member member_id name email :
  simulates (Store.add_member member_id name email)
    (Library.add_member member_id name email).
Proof.
  unfold Store.add_member, Library.add_member, Store.log_operation,
    Library.log_operation.
  intros w [[Ab Am] [Nb Nm]].
  cbn [Store.view Library.members]. rewrite dict_mem_view.
  destruct (dict_mem member_id (Store.members w));
    [split; [reflexivity | repeat split; assumption] |].
  unfold Store.bind, Library.bind, Store.lift, Library.lift.
  destruct (Member.create member_id name email) as [m | e];
    [| split; [reflexivity | repeat split; assumption]].
  cbn -[Store.view_dict dict_set]. split.
  - unfold Store.view. cbn -[Store.view_dict dict_set].
    rewrite view_dict_alloc by assumption. reflexivity.
  - repeat split; cbn; try assumption.
    + intros a Hin. rewrite length_app. cbn.
      apply in_values_dict_set in Hin. destruct Hin as [-> | Hin];
        [| apply Am in Hin]; unfold Store.addr in *; lia.
    + apply NoDup_values_dict_set; [assumption |].
      intro Hin. apply Am in Hin. unfold Store.addr in *; lia.
Qed.

(** The two lookups that open [borrow_book] and [return_book]. *)
Lemma simulates_lookup_then {A : Type} (isbn member_id : string)
    (k : Store.addr -> Store.addr -> Store.M A)
    (k' : Book.t -> Member.t -> Library.M A) :
  (forall book member w,
     store_wf w ->
     dict_get isbn (Store.books w) = Some book ->
     dict_get member_id (Store.members w) = Some member ->
     k' (Store.book_at book w) (Store.member_at member w) (Store.view w)
     = (Store.view (fst (k book member w)), snd (k book member w)) /\
     store_wf (fst (k book member w))) ->
  simulates
    (Store.bind (Store.get_book isbn)
       (fun book => Store.bind (Store.get_member member_id)
                      (fun member => k book member)))
    (Library.bind (Library.get_book isbn)
       (fun book => Library.bind (Library.get_member member_id)
                      (fun member => k' book member))).
Proof.
  intros Hk w Hw.
  unfold Store.bind, Library.bind, Store.get_book, Library.get_book,
    Store.validate_isbn, Library.validate_isbn.
  destruct (_ <? _); [split; [reflexivity | assumption] |].
  cbn [Store.view Library.books]. rewrite dict_get_view.
  destruct (dict_get isbn (Store.books w)) as [book |] eqn:Eb;
    [| split; [reflexivity | assumption]].
  cbn [Library.ret Store.ret option_map].
  unfold Store.get_member, Library.get_member.
  cbn [Store.view Library.members]. rewrite dict_get_view.
  destruct (dict_get member_id (Store.members w)) as [member |] eqn:Em;
    [| split; [reflexivity | assumption]].
  cbn [Library.ret Store.ret option_map]. apply Hk; assumption.
Qed.

Lemma simulates_borrow_book now isbn member_id days :
  simulates (Store.borrow_book now isbn member_id days)
    (Library.borrow_book now isbn member_id days).
Proof.
  unfold Store.borrow_book, Library.borrow_book, Store.log_operation,
    Library.log_operation.
  apply simulates_validate_isbn, simulates_require_member,
    simulates_lookup_then.
  intros book member w Hw Eb Em.
  destruct Hw as [[Ab Am] [Nb Nm]].
  destruct (negb (Book.available _));
    [split; [reflexivity | repeat split; assumption] |].
  destruct (negb (Member.can_borrow _));
    [split; [reflexivity | repeat split; assumption] |].
  unfold Store.bind, Library.bind, Store.call_book, Library.on_book,
    Store.call_member, Library.on_member.
  cbn [Store.view Library.books Library.members Library.books_file
         Library.members_file fst snd].
  destruct (Book.borrow now member_id days (Store.book_at book w))
    as [b' [[] | e]] eqn:E; cbn [fst snd Store.book_objs Store.member_objs
      Store.books Store.members Store.books_file Store.members_file].
  - split.
    + unfold Store.view. cbn -[Store.view_dict dict_set Store.upd].
      rewrite (view_dict_upd _ _ _ isbn) by (eauto using dict_get_value).
      rewrite (view_dict_upd _ _ _ member_id)
        by (eauto using dict_get_value).
      reflexivity.
    + repeat split; cbn; try assumption; intros a Hin;
        rewrite upd_length; auto.
  - split.
    + unfold Store.view. cbn -[Store.view_dict dict_set Store.upd].
      rewrite (view_dict_upd _ _ _ isbn) by (eauto using dict_get_value).
      reflexivity.
    + repeat split; cbn; try assumption; intros a Hin;
        rewrite ?upd_length; auto.
Qed.

Lemma simulates_return_book isbn member_id :
  simulates (Store.return_book isbn member_id)
    (Library.return_book isbn member_id).
Proof.
  unfold Store.return_book, Library.return_book, Store.log_operation,
    Library.log_operation.
  apply simulates_validate_isbn, simulates_require_member,
    simulates_lookup_then.
  intros book member w Hw Eb Em.
  destruct Hw as [[Ab Am] [Nb Nm]].
  destruct (negb (opt_str_eqb _ _));
    [split; [reflexivity | repeat split; assumption] |].
  unfold Store.bind, Library.bind, Store.call_book, Library.on_book,
    Store.call_member, Library.on_member.
  cbn [Store.view Library.books Library.members Library.books_file
         Library.members_file fst snd].
  destruct (Book.return_book (Store.book_at book w))
    as [b' [[] | e]] eqn:E; cbn [fst snd Store.book_objs Store.member_objs
      Store.books Store.members Store.books_file Store.members_file].
  - split.
    + unfold Store.view. cbn -[Store.view_dict dict_set Store.upd].
      rewrite (view_dict_upd _ _ _ isbn) by (eauto using dict_get_value).
      rewrite (view_dict_upd _ _ _ member_id)
        by (eauto using dict_get_value).
      reflexivity.
    + repeat split; cbn; try assumption; intros a Hin;
        rewrite upd_length; auto.
  - split.
    + unfold Store.view. cbn -[Store.view_dict dict_set Store.upd].
      rewrite (view_dict_upd _ _ _ isbn) by (eauto using dict_get_value).
      reflexivity.
    + repeat split; cbn; try assumption; intros a Hin;
        rewrite ?upd_length; auto.
Qed.

Lemma simulates_run_op now (o : Library.op) :
  simulates (Store.run_op now o) (Library.run_op now o).
Proof.
  destruct o; cbn.
  - apply simulates_bind; [apply simulates_add_book | intro; apply simulates_ret].
  - apply simulates_bind; [apply simulates_add_member | intro; apply simulates_ret].
  - apply simulates_borrow_book.
  - apply simulates_return_book.
  - apply simulates_raise.
Qed.

Lemma simulates_run_ops now (l : list Library.op) :
  simulates (Store.run_ops now l) (Library.run_ops now l).
Proof.
  induction l as [| o l IH]; cbn.
  - apply simulates_ret.
  - apply simulates_bind; [apply simulates_run_op | intro; assumption].
Qed.

Lemma view_scope_entry (w : Store.t) :
  allocated w -> Store.view (scope_entry w) = Store.view w.
Proof.
  intros [Ab Am]. rewrite scope_entry_eq. unfold Store.view, Store.deepcopy.
  cbn [fst snd Store.book_objs Store.member_objs Store.books Store.members
         Store.books_file Store.members_file].
  f_equal; apply view_dict_ext; intros a Ha; apply app_nth1; auto.
Qed.

Lemma scope_entry_wf (w : Store.t) : store_wf w -> store_wf (scope_entry w).
Proof.
  intros [[Ab Am] [Nb Nm]]. rewrite scope_entry_eq. unfold Store.deepcopy.
  repeat split; cbn; try assumption; intros a Ha; rewrite length_app;
    [apply Ab in Ha | apply Am in Ha]; unfold Store.addr in *; lia.
Qed.

Lemma simulates_save {J : JsonLib} : simulates Store.save Library.save.
Proof. intros w Hw. split; [reflexivity | exact Hw]. Qed.

Lemma deepcopy_NoDup {V : Type} (none : V) (objs : list V)
    (m : dict Store.addr) :
  NoDup (dict_values (snd (Store.deepcopy objs none m))).
Proof.
  unfold Store.deepcopy. cbn [snd].
  rewrite values_combine by (rewrite length_map, length_seq; reflexivity).
  apply seq_NoDup.
Qed.

(** The transaction over the object store is the transaction over the
    values, for a body that is one. *)
Lemma simulates_transaction {J : JsonLib} (body : Store.M unit)
    (body' : Library.M unit) :
  confined body -> simulates body body' ->
  simulates (Store.transaction body) (Library.transaction body').
Proof.
  intros Hc Hs w Hw. rewrite transaction_unfold.
  unfold Library.transaction, Library.try_except, Library.bind,
    Library.deepcopy.
  destruct (Hs (scope_entry w) (scope_entry_wf w Hw)) as [E W1].
  rewrite (view_scope_entry w (proj1 Hw)) in E. rewrite E.
  destruct (Hc (scope_entry w)) as [Fb Fm].
  destruct (body (scope_entry w)) as [w1 [[] | e]];
    cbn [fst snd] in *.
  - apply simulates_save. assumption.
  - destruct Hw as [[Ab Am] [Nb Nm]]. rewrite scope_entry_eq in Fb, Fm.
    cbn [Store.book_objs Store.member_objs Store.books Store.members] in *.
    split.
    + unfold Library.set_books, Library.set_members, Library.raise,
        Store.view.
      cbn [fst snd Store.book_objs Store.member_objs Store.books
             Store.members Store.books_file Store.members_file
             Library.books Library.members Library.books_file
             Library.members_file].
      rewrite (snapshot_kept _ _ _ _ _ Ab Fb).
      rewrite (snapshot_kept _ _ _ _ _ Am Fm). reflexivity.
    + destruct Fb as (Lb & _ & _). destruct Fm as (Lm & _ & _).
      repeat split;
        cbn [Store.book_objs Store.member_objs Store.books Store.members];
        try apply deepcopy_NoDup; intros a Ha; apply deepcopy_fresh in Ha;
        unfold Store.addr in *; lia.
Qed.

Lemma simulates_transaction_batch {J : JsonLib} (now : DT.datetime)
    (batch : list Library.op) :
  simulates (Store.transaction (Store.run_ops now batch))
    (Library.transaction (Library.run_ops now batch)).
Proof.
  apply simulates_transaction;
    [apply confined_run_ops | apply simulates_run_ops].
Qed.

(** C1.  A [with] block whose body raises [e] ends by raising the same [e],
    and the two mappings then read, key by key and in the same order, what
    they read when the block was entered: the catalog is given the
    snapshots, which are copies that the body has not reached.  This holds
    of every body that reaches the objects through the catalog, and every
    batch of catalog operations, an explicit [raise] included, is such a
    body. *)
Theorem transaction_rollback {J : JsonLib} :
  (forall (body : Store.M unit) (w after_body : Store.t) (e : exn),
     confined body ->
     allocated w ->
     body (scope_entry w) = (after_body, Raise e) ->
     exists restored,
       Store.transaction body w = (restored, Raise e) /\
       Library.books (Store.view restored) = Library.books (Store.view w) /\
       Library.members (Store.view restored)
       = Library.members (Store.view w)) /\
  (forall (now : DT.datetime) (batch : list Library.op),
     confined (Store.run_ops now batch)).
Proof.
  split.
  - intros body w after_body e. apply rollback_confined.
  - apply confined_run_ops.
Qed.

(** ** Borrowing and returning through the catalog *)

(** C2, as stated, fails: an ISBN shorter than ten characters names no
    book of the catalog, and the call ends in [ValueError] raised by
    [validate_isbn], not in a [NotFound] error. *)
Lemma borrow_book_short_isbn_is_not_NotFound :
  ~ borrow_book_as_specified now0 small_library "12345" "M001" 14.
Proof.
  unfold borrow_book_as_specified. cbn. intros (e & Hout & Hkind).
  injection Hout as <-. discriminate Hkind.
Qed.

(** C2, amended.  With an ISBN of at least ten characters and a member id
    that is not empty: [BookNotFoundError] or [MemberNotFoundError] when
    the entity is absent, [BookNotAvailableError] when the book is out,
    [BorrowLimitExceededError] with the member's limit when the member is
    at capacity, the catalog unchanged in each case; otherwise, when
    [now + days] is the date [due], the book is lent to the member until
    [due] and the ISBN is added to the member's list.  With a shorter ISBN
    or an empty member id the call ends in [ValueError], the catalog
    unchanged. *)
Theorem borrow_book_amended (now : DT.datetime) (self : Library.t)
    (isbn member_id : string) (days : Z) :
  (usable_isbn isbn -> usable_member_id member_id ->
   match dict_get isbn (Library.books self),
         dict_get member_id (Library.members self) with
   | None, _ =>
       Library.borrow_book now isbn member_id days self
       = (self, Raise (BookNotFoundError isbn))
   | Some _, None =>
       Library.borrow_book now isbn member_id days self
       = (self, Raise (MemberNotFoundError member_id))
   | Some book, Some member =>
       if negb (Book.available book)
       then Library.borrow_book now isbn member_id days self
            = (self, Raise (BookNotAvailableError isbn))
       else if negb (Member.can_borrow member)
       then Library.borrow_book now isbn member_id days self
            = (self, Raise (BorrowLimitExceededError member_id
                              (Member.max_books member)))
       else forall due,
           DT.add_days now days = Ok due ->
           Library.borrow_book now isbn member_id days self
           = (with_member member_id (Member.add_borrowed_book isbn member)
                (with_book isbn (book_borrowed book member_id due) self),
              Ok tt)
   end) /\
  (~ (usable_isbn isbn /\ usable_member_id member_id) ->
   exists msg,
     Library.borrow_book now isbn member_id days self
     = (self, Raise (ValueError msg))).
Proof.
  split.
  - intros Hi Hm. rewrite (borrow_book_unfold now _ _ _ _ Hi Hm).
    destruct (dict_get isbn (Library.books self)) as [book |];
      [| reflexivity].
    destruct (dict_get member_id (Library.members self)) as [member |];
      [| reflexivity].
    destruct (negb (Book.available book)) eqn:Hav; [reflexivity |].
    destruct (negb (Member.can_borrow member)); [reflexivity |].
    intros due Hdue. cbn zeta. unfold Book.borrow.
    rewrite Hav, Hdue. reflexivity.
  - apply borrow_book_unusable.
Qed.

(** The defect the amended statement leaves out: when [now + days] is not
    a representable date, [Book.borrow] has set [available] and
    [borrowed_by] before the sum raises, and the member is not updated. *)
Lemma borrow_book_overflow (now : DT.datetime) (self : Library.t)
    (isbn member_id : string) (days : Z) (book : Book.t) (member : Member.t)
    (e : exn) :
  usable_isbn isbn -> usable_member_id member_id ->
  dict_get isbn (Library.books self) = Some book ->
  dict_get member_id (Library.members self) = Some member ->
  Book.available book = true -> Member.can_borrow member = true ->
  DT.add_days now days = Raise e ->
  Library.borrow_book now isbn member_id days self
  = (with_book isbn
       (Book.mk (Book.isbn book) (Book.title book) (Book.author book)
                (Book.year book) false (Some member_id) (Book.due_date book))
       self, Raise e).
Proof.
  intros Hi Hm Hb Hmem Hav Hcan Hadd.
  rewrite (borrow_book_unfold now _ _ _ _ Hi Hm), Hb, Hmem, Hav, Hcan.
  cbn [negb]. cbn zeta. unfold Book.borrow. rewrite Hav, Hadd. reflexivity.
Qed.

Lemma mem_In (x : string) (l : list string) :
  Member.mem x l = true <-> In x l.
Proof.
  unfold Member.mem. rewrite existsb_exists. split.
  - intros (y & Hin & Heq). apply String.eqb_eq in Heq. now subst.
  - intros Hin. exists x. split; [assumption | apply String.eqb_refl].
Qed.

Lemma remove_first_NoDup (x : string) (l : list string) :
  NoDup l -> ~ In x (Member.remove_first x l).
Proof.
  induction l as [| y l IH]; cbn [Member.remove_first]; [tauto |].
  intros Hnd. inversion Hnd as [| ? ? Hnotin Hnd']; subst.
  destruct (String.eqb_spec x y) as [-> | Hne]; [assumption |].
  cbn [In]. intros [-> | Hin]; [congruence | now apply IH].
Qed.

Lemma remove_first_other (x y : string) (l : list string) :
  x <> y -> (In y (Member.remove_first x l) <-> In y l).
Proof.
  intros Hne. induction l as [| z l IH]; cbn [Member.remove_first]; [tauto |].
  destruct (String.eqb_spec x z) as [-> | Hz]; cbn [In].
  - intuition congruence.
  - rewrite IH. tauto.
Qed.

Lemma remove_borrowed_book_gone (isbn : string) (m : Member.t) :
  NoDup (Member.borrowed_books m) ->
  ~ In isbn (Member.borrowed_books (Member.remove_borrowed_book isbn m)).
Proof.
  intros Hnd. unfold Member.remove_borrowed_book.
  destruct (Member.mem isbn (Member.borrowed_books m)) eqn:Hmem.
  - cbn. now apply remove_first_NoDup.
  - intros Hin. apply mem_In in Hin. congruence.
Qed.

Lemma get_book_found (isbn : string) (self s : Library.t) (book : Book.t) :
  Library.get_book isbn self = (s, Ok book) ->
  usable_isbn isbn /\ dict_get isbn (Library.books self) = Some book.
Proof.
  unfold Library.get_book, Library.validate_isbn, usable_isbn.
  destruct (Z.ltb_spec (len isbn) 10) as [Hl | Hl];
    [discriminate |].
  destruct (dict_get isbn (Library.books self)); [| discriminate].
  intros [= _ <-]. split; [lia | reflexivity].
Qed.

Lemma get_member_found (member_id : string) (self s : Library.t)
    (member : Member.t) :
  Library.get_member member_id self = (s, Ok member) ->
  dict_get member_id (Library.members self) = Some member.
Proof.
  unfold Library.get_member.
  destruct (dict_get member_id (Library.members self)); [| discriminate].
  now intros [= _ <-].
Qed.

Lemma opt_str_eqb_spec (a b : option string) :
  opt_str_eqb a b = true <-> a = b.
Proof.
  destruct a as [x |], b as [y |]; cbn; try (split; congruence).
  rewrite String.eqb_eq. split; congruence.
Qed.

(** C8, as stated, fails: the book is lent to M001, and a return in the
    name of a member id that the catalog does not hold ends in
    [MemberNotFoundError], raised by the lookup that precedes the
    comparison, not in the mismatch error. *)
Lemma return_book_unknown_member_is_NotFound :
  ~ return_book_as_specified lent_library "978-0132350884" "M404".
Proof.
  intros H.
  destruct (H (book_borrowed clean_code "M001" due0) eq_refl)
    as [msg Hout].
  discriminate Hout.
Qed.

(** C8, amended.  [Book.return_book] on an available book raises
    [RuntimeError] (an [IllegalState] error) and leaves the book as it is.
    Through the catalog, for a book and a member that the catalog holds:
    [return_book] raises the mismatch [ValueError], the catalog unchanged,
    whenever the book's [borrowed_by] is not the member id; otherwise (an
    available book having no borrower) the book becomes available with
    both borrow fields cleared, and the ISBN leaves the member's list. *)
Theorem return_book_behaviour :
  (forall b : Book.t,
      Book.available b = true ->
      exists msg,
        Book.return_book b = (b, Raise (RuntimeError msg)) /\
        kind_of (RuntimeError msg) = IllegalState) /\
  (forall (self : Library.t) (isbn member_id : string) (book : Book.t)
          (member : Member.t),
      Library.get_book isbn self = (self, Ok book) ->
      Library.get_member member_id self = (self, Ok member) ->
      usable_member_id member_id ->
      (Book.borrowed_by book <> Some member_id ->
       Library.return_book isbn member_id self
       = (self, Raise (ValueError ("Книга с ISBN " ++ isbn
                                     ++ " не была выдана читателю "
                                     ++ member_id ++ ".")))) /\
      (Book.borrowed_by book = Some member_id ->
       (Book.available book = true -> Book.borrowed_by book = None) ->
       Library.return_book isbn member_id self
       = (with_member member_id (Member.remove_borrowed_book isbn member)
            (with_book isbn (book_returned book) self), Ok tt) /\
       (NoDup (Member.borrowed_books member) ->
        ~ In isbn (Member.borrowed_books
                     (Member.remove_borrowed_book isbn member))))).
Proof.
  split.
  - intros b Hav. eexists. unfold Book.return_book. rewrite Hav.
    split; reflexivity.
  - intros self isbn member_id book member Hb Hm Hid.
    apply get_book_found in Hb as [Hi Hb].
    apply get_member_found in Hm.
    rewrite (return_book_unfold _ _ _ Hi Hid), Hb, Hm. split.
    + intros Hne.
      destruct (opt_str_eqb (Book.borrowed_by book) (Some member_id)) eqn:E;
        [| reflexivity].
      apply opt_str_eqb_spec in E. contradiction.
    + intros Heq Hinv.
      destruct (opt_str_eqb (Book.borrowed_by book) (Some member_id)) eqn:E.
      * cbn [negb]. cbn zeta. unfold Book.return_book.
        destruct (Book.available book) eqn:Hav.
        -- rewrite Hinv in Heq by reflexivity. discriminate.
        -- split; [reflexivity |]. apply remove_borrowed_book_gone.
      * exfalso. apply opt_str_eqb_spec in Heq. congruence.
Qed.

(** ** Cross-entity consistency *)

Lemma dict_set_same_value {V : Type} (k : string) (v : V) (d : dict V) :
  dict_get k d = Some v -> dict_set k v d = d.
Proof.
  induction d as [| [k' v'] d IH]; cbn [dict_get dict_set]; [discriminate |].
  destruct (String.eqb_spec k k') as [-> | Hne].
  - now intros [= ->].
  - intros H. now rewrite IH.
Qed.

Lemma with_book_same (isbn : string) (b : Book.t) (self : Library.t) :
  dict_get isbn (Library.books self) = Some b -> with_book isbn b self = self.
Proof.
  intros H. unfold with_book. rewrite (dict_set_same_value _ _ _ H).
  now destruct self.
Qed.

Lemma add_borrowed_book_in (isbn : string) (m : Member.t) :
  In isbn (Member.borrowed_books (Member.add_borrowed_book isbn m)).
Proof.
  unfold Member.add_borrowed_book.
  destruct (Member.mem isbn (Member.borrowed_books m)) eqn:Hmem; cbn.
  - now apply mem_In.
  - apply in_or_app. right. now left.
Qed.

Lemma add_borrowed_book_incl (isbn x : string) (m : Member.t) :
  In x (Member.borrowed_books m) ->
  In x (Member.borrowed_books (Member.add_borrowed_book isbn m)).
Proof.
  intros Hin. unfold Member.add_borrowed_book.
  destruct (negb (Member.mem isbn (Member.borrowed_books m))); cbn;
    [apply in_or_app; now left | assumption].
Qed.

Lemma remove_borrowed_book_other (isbn x : string) (m : Member.t) :
  isbn <> x -> In x (Member.borrowed_books m) ->
  In x (Member.borrowed_books (Member.remove_borrowed_book isbn m)).
Proof.
  intros Hne Hin. unfold Member.remove_borrowed_book.
  destruct (Member.mem isbn (Member.borrowed_books m)); cbn;
    [now apply remove_first_other | assumption].
Qed.

(** The three ways a [borrow_book] call ends. *)
Lemma borrow_book_outcomes (now : DT.datetime) (isbn member_id : string)
    (days : Z) (self self' : Library.t) (r : result unit) :
  Library.borrow_book now isbn member_id days self = (self', r) ->
  (self' = self /\ exists e, r = Raise e) \/
  (exists book member,
      dict_get isbn (Library.books self) = Some book /\
      dict_get member_id (Library.members self) = Some member /\
      ((exists due,
           DT.add_days now days = Ok due /\ r = Ok tt /\
           self' = with_member member_id (Member.add_borrowed_book isbn member)
                     (with_book isbn (book_borrowed book member_id due) self))
       \/
       (exists e,
           DT.add_days now days = Raise e /\ r = Raise e /\
           Book.available book = true /\ Member.can_borrow member = true /\
           self' = with_book isbn
                     (Book.mk (Book.isbn book) (Book.title book)
                        (Book.author book) (Book.year book) false
                        (Some member_id) (Book.due_date book)) self))).
Proof.
  destruct (Z.ltb_spec (len isbn) 10) as [Hl | Hl].
  { unfold Library.borrow_book, Library.log_operation, Library.validate_isbn.
    apply Z.ltb_lt in Hl. rewrite Hl. intros [= <- <-]. left. eauto. }
  destruct (String.eqb_spec member_id "") as [-> | Hm].
  { unfold Library.borrow_book, Library.log_operation, Library.validate_isbn.
    apply Z.ltb_ge in Hl. rewrite Hl. cbn. intros [= <- <-]. left. eauto. }
  rewrite borrow_book_unfold by assumption.
  destruct (dict_get isbn (Library.books self)) as [book |];
    [| intros [= <- <-]; left; eauto].
  destruct (dict_get member_id (Library.members self)) as [member |];
    [| intros [= <- <-]; left; eauto].
  destruct (Book.available book) eqn:Hav; cbn [negb];
    [| intros [= <- <-]; left; eauto].
  destruct (Member.can_borrow member) eqn:Hcan; cbn [negb];
    [| intros [= <- <-]; left; eauto].
  cbn zeta. unfold Book.borrow. rewrite Hav. cbn [negb].
  destruct (DT.add_days now days) as [due | e] eqn:Hadd; cbn [fst snd];
    intros [= <- <-]; right; exists book, member;
    (split; [reflexivity | split; [reflexivity |]]).
  - left. exists due. repeat split.
  - right. exists e. repeat split; assumption.
Qed.

Lemma return_book_outcomes (isbn member_id : string)
    (self self' : Library.t) (r : result unit) :
  Library.return_book isbn member_id self = (self', r) ->
  (self' = self /\ exists e, r = Raise e) \/
  (exists book member,
      dict_get isbn (Library.books self) = Some book /\
      dict_get member_id (Library.members self) = Some member /\
      Book.borrowed_by book = Some member_id /\ r = Ok tt /\
      self' = with_member member_id (Member.remove_borrowed_book isbn member)
                (with_book isbn (book_returned book) self)).
Proof.
  destruct (Z.ltb_spec (len isbn) 10) as [Hl | Hl].
  { unfold Library.return_book, Library.log_operation, Library.validate_isbn.
    apply Z.ltb_lt in Hl. rewrite Hl. intros [= <- <-]. left. eauto. }
  destruct (String.eqb_spec member_id "") as [-> | Hm].
  { unfold Library.return_book, Library.log_operation, Library.validate_isbn.
    apply Z.ltb_ge in Hl. rewrite Hl. cbn. intros [= <- <-]. left. eauto. }
  rewrite return_book_unfold by assumption.
  destruct (dict_get isbn (Library.books self)) as [book |] eqn:Hb;
    [| intros [= <- <-]; left; eauto].
  destruct (dict_get member_id (Library.members self)) as [member |];
    [| intros [= <- <-]; left; eauto].
  destruct (opt_str_eqb (Book.borrowed_by book) (Some member_id)) eqn:E;
    cbn [negb]; [| intros [= <- <-]; left; eauto].
  apply opt_str_eqb_spec in E.
  cbn zeta. unfold Book.return_book.
  destruct (Book.available book); cbn [fst snd]; intros [= <- <-].
  - left. split; [now apply with_book_same | eauto].
  - right. exists book, member. repeat split. assumption.
Qed.

(** [return_book], whatever its outcome, keeps a consistent catalog
    consistent. *)
Lemma return_book_consistent (isbn member_id : string)
    (self self' : Library.t) (r : result unit) :
  keyed self -> consistent self ->
  Library.return_book isbn member_id self = (self', r) ->
  keyed self' /\ consistent self'.
Proof.
  intros Hk Hc Hret.
  destruct (return_book_outcomes _ _ _ _ _ Hret)
    as [[-> _] | (book & member & Hb & Hm & Hby & -> & ->)];
    [now split |].
  split.
  - intros k b. cbn [with_member with_book Library.books].
    rewrite dict_get_set. destruct (String.eqb_spec isbn k) as [<- | Hne].
    + intros [= <-]. cbn. now apply (Hk isbn book).
    + apply Hk.
  - intros k b. cbn [with_member with_book Library.books Library.members].
    rewrite dict_get_set. destruct (String.eqb_spec isbn k) as [<- | Hne].
    + intros [= <-]. discriminate.
    + intros Hget Hav.
      destruct (Hc k b Hget Hav) as (mid0 & m0 & Hby0 & Hm0 & Hin0).
      pose proof (Hk k b Hget) as Hkey.
      exists mid0. rewrite dict_get_set.
      destruct (String.eqb_spec member_id mid0) as [<- | Hmid].
      * eexists. repeat split; [assumption |].
        assert (m0 = member) as -> by congruence.
        apply remove_borrowed_book_other; congruence.
      * exists m0. repeat split; assumption.
Qed.

(** [borrow_book] keeps a consistent catalog consistent whenever the due
    date [now + days] is representable. *)
Lemma borrow_book_consistent (now : DT.datetime) (isbn member_id : string)
    (days : Z) (due : DT.datetime) (self self' : Library.t)
    (r : result unit) :
  keyed self -> consistent self ->
  DT.add_days now days = Ok due ->
  Library.borrow_book now isbn member_id days self = (self', r) ->
  keyed self' /\ consistent self'.
Proof.
  intros Hk Hc Hdue Hbor.
  destruct (borrow_book_outcomes _ _ _ _ _ _ _ Hbor)
    as [[-> _] | (book & member & Hb & Hm &
                  [(due' & Hadd & -> & ->) | (e & Hadd & _)])];
    [now split | | congruence].
  split.
  - intros k b. cbn [with_member with_book Library.books].
    rewrite dict_get_set. destruct (String.eqb_spec isbn k) as [<- | Hne].
    + intros [= <-]. cbn. now apply (Hk isbn book).
    + apply Hk.
  - intros k b. cbn [with_member with_book Library.books Library.members].
    rewrite dict_get_set. destruct (String.eqb_spec isbn k) as [<- | Hne].
    + intros [= <-] _. exists member_id. eexists.
      rewrite dict_get_set_same. repeat split.
      cbn [book_borrowed Book.isbn]. rewrite (Hk isbn book Hb).
      apply add_borrowed_book_in.
    + intros Hget Hav.
      destruct (Hc k b Hget Hav) as (mid0 & m0 & Hby0 & Hm0 & Hin0).
      exists mid0. rewrite dict_get_set.
      destruct (String.eqb_spec member_id mid0) as [<- | Hmid].
      * eexists. repeat split; [assumption |].
        assert (m0 = member) as -> by congruence.
        now apply add_borrowed_book_incl.
      * exists m0. repeat split; assumption.
Qed.

(** C10.  The code at the failing input: in a consistent catalog, a
    [borrow_book] call whose [days] is no representable [timedelta] ends
    in [OverflowError] after [Book.borrow] has marked the book as lent to
    the member; the member's list does not hold the ISBN, and the catalog
    is no longer consistent. *)
Theorem borrow_book_overflow_breaks_consistency :
  let half_lent :=
    Book.mk "978-0132350884" "Clean Code" "Robert C. Martin" 2008
            false (Some "M001"%string) None in
  let left := with_book "978-0132350884" half_lent small_library in
  keyed small_library /\ consistent small_library /\
  Library.borrow_book now0 "978-0132350884" "M001" (10 ^ 9) small_library
  = (left,
     Raise (OverflowError "days=1000000000; must have magnitude <= 999999999"))
  /\ ~ consistent left.
Proof.
  intros half_lent left. split; [| split; [| split]].
  - intros k b. cbn. destruct (String.eqb_spec k "978-0132350884");
      [intros [= <-]; now subst | discriminate].
  - intros k b. cbn. destruct (String.eqb_spec k "978-0132350884");
      [intros [= <-]; discriminate | discriminate].
  - reflexivity.
  - intros Hc.
    destruct (Hc "978-0132350884"%string half_lent eq_refl eq_refl)
      as (mid & m & Hby & Hm & Hin).
    cbn in Hby. injection Hby as <-. cbn in Hm. injection Hm as <-.
    exact Hin.
Qed.

(** ** The borrow invariant across the public interface *)

(** C4, as stated, fails: the constructor takes [available=False] with no
    borrower and no due date, validates the four descriptive fields, and
    returns a book outside the invariant. *)
Lemma constructor_accepts_inconsistent_borrow_fields :
  ~ (forall b : Book.t, book_produced now0 b -> Book.invariant b).
Proof.
  intros H.
  assert (Hp : book_produced now0
                 (Book.mk "1234567890" "t" "a" 2000 false None None)).
  { apply (produced_init now0 "1234567890" "t" "a" 2000 false None None).
    reflexivity. }
  destruct (H _ Hp) as [[Hout _] _]. cbn in Hout.
  destruct (Hout eq_refl) as [Hby _]. now apply Hby.
Qed.

(** [from_dict] gives the record's borrow fields back as they are. *)
Lemma from_dict_to_dict_borrow_fields (later : DT.datetime) (b b' : Book.t) :
  Book.from_dict later (Book.to_dict b) = Ok b' ->
  Book.available b' = Book.available b /\
  Book.borrowed_by b' = Book.borrowed_by b /\
  (Book.due_date b' = None <-> Book.due_date b = None).
Proof.
  destruct b as [i t a y av bb dd].
  unfold Book.from_dict, Book.to_dict, getitem, Book.__init__.
  cbn [dict_get String.eqb Ascii.eqb Bool.eqb Book.isbn Book.title Book.author
       Book.year Book.available Book.borrowed_by Book.due_date].
  destruct dd as [d |].
  - cbn [truthy]. destruct (String.eqb (DT.isoformat d) "") eqn:He.
    { apply String.eqb_eq in He. now apply isoformat_nonempty in He. }
    cbn [negb rbind as_str].
    destruct (DT.fromisoformat (DT.isoformat d)) as [d' | e];
      [| discriminate].
    cbn [rbind as_bool as_int].
    destruct bb; cbn [as_opt_str rbind];
      (destruct (Book.__post_init__ later _) as [[] |]; [| discriminate]);
      cbn [rbind]; intros [= <-]; cbn; repeat split; discriminate.
  - cbn [truthy rbind as_str as_bool as_int].
    destruct bb; cbn [as_opt_str rbind];
      (destruct (Book.__post_init__ later _) as [[] |]; [| discriminate]);
      cbn [rbind]; intros [= <-]; cbn; repeat split; reflexivity.
Qed.

(** C4, amended.  The invariant holds for a book built by the constructor
    from the four descriptive fields, for a book read by [from_dict] from
    the record [to_dict] wrote of a book in the invariant, for the book a
    [borrow] call that returns leaves, and for the book any [return_book]
    call leaves when it was in the invariant before. *)
Theorem book_invariant_amended :
  (forall (now : DT.datetime) (isbn title author : string) (year : Z)
          (b : Book.t),
      Book.create now isbn title author year = Ok b -> Book.invariant b) /\
  (forall (later : DT.datetime) (b b' : Book.t),
      Book.invariant b ->
      Book.from_dict later (Book.to_dict b) = Ok b' -> Book.invariant b') /\
  (forall (now : DT.datetime) (member_id : string) (days : Z)
          (b b' : Book.t),
      Book.borrow now member_id days b = (b', Ok tt) -> Book.invariant b') /\
  (forall b : Book.t,
      Book.invariant b -> Book.invariant (fst (Book.return_book b))).
Proof.
  split; [| split; [| split]].
  - exact book_create_invariant.
  - intros later b b' Hinv Hfd.
    destruct (from_dict_to_dict_borrow_fields _ _ _ Hfd) as (Hav & Hby & Hdd).
    unfold Book.invariant in *. rewrite Hav, Hby.
    destruct Hinv as [[H1 H2] [H3 H4]].
    repeat split; intros; intuition.
  - exact book_borrow_ok_invariant.
  - exact book_return_invariant.
Qed.

(** The defect the amended statement leaves out: a [borrow] whose due date
    is not representable leaves an available book marked as lent, without
    a due date. *)
Lemma book_borrow_overflow (now : DT.datetime) (member_id : string) (days : Z)
    (b : Book.t) (e : exn) :
  Book.available b = true -> DT.add_days now days = Raise e ->
  Book.borrow now member_id days b
  = (Book.mk (Book.isbn b) (Book.title b) (Book.author b) (Book.year b)
             false (Some member_id) (Book.due_date b), Raise e).
Proof.
  intros Hav Hadd. unfold Book.borrow. rewrite Hav, Hadd. reflexivity.
Qed.

(** ** Search *)

Lemma starts_with_spec (a b : string) :
  starts_with a b = true <-> exists post, b = (a ++ post)%string.
Proof.
  revert b. induction a as [| c a IH]; intros b; cbn [starts_with append].
  - split; [intros _; now exists b | reflexivity].
  - destruct b as [| c' b]; [split; [discriminate | intros [? [=]]] |].
    destruct (Ascii.eqb_spec c c') as [<- | Hne]; cbn [andb].
    + rewrite IH. split; intros [post H]; exists post; congruence.
    + split; [discriminate | intros [post [= ? _]]; congruence].
Qed.

Lemma str_contains_spec (needle hay : string) :
  str_contains needle hay = true <->
  exists pre post, hay = (pre ++ needle ++ post)%string.
Proof.
  induction hay as [| c hay IH]; cbn [str_contains].
  - rewrite orb_false_r, starts_with_spec. split.
    + intros [post H]. now exists ""%string, post.
    + intros (pre & post & H). destruct pre; [now exists post | discriminate].
  - rewrite orb_true_iff, starts_with_spec, IH. split.
    + intros [[post H] | (pre & post & H)].
      * now exists ""%string, post.
      * exists (String c pre), post. cbn [append]. now rewrite H.
    + intros (pre & post & H). destruct pre as [| c' pre].
      * left. now exists post.
      * right. cbn [append] in H. injection H as _ H. now exists pre, post.
Qed.

Lemma nat_of_ascii_lt (c : ascii) : (nat_of_ascii c < 256)%nat.
Proof. apply nat_ascii_bounded. Qed.









Section Search.
Variable lower : string -> string.

Lemma search_test_spec (query : string) (b : Book.t) :
  search_test lower query b = true <-> search_match lower query b.
Proof.
  unfold search_test, search_match, ci_substring.
  now rewrite orb_true_iff, !str_contains_spec.
Qed.


(** The result has exactly the matching books of the catalog. *)
Lemma search_books_in (query : string) (self : Library.t) (b : Book.t) :
  In b (Library.search_books lower query self) <->
  In b (dict_values (Library.books self)) /\ search_match lower query b.
Proof.
  change (Library.search_books lower query self)
    with (filter (search_test lower query)
            (dict_values (Library.books self))).
  now rewrite filter_In, search_test_spec.
Qed.

End Search.

(** ** Persistence *)

Lemma dict_get_app_none {V : Type} (k : string) (d1 d2 : dict V) :
  dict_get k d1 = None -> dict_get k (d1 ++ d2)%list = dict_get k d2.
Proof.
  induction d1 as [| [k' v'] d1 IH]; cbn [dict_get app]; [reflexivity |].
  destruct (String.eqb k k'); [discriminate | exact IH].
Qed.

Lemma book_to_dict_wf (b : Book.t) : json_wf (JObj (Book.to_dict b)).
Proof.
  cbn. split.
  - repeat (constructor; [cbn; intuition discriminate |]). constructor.
  - destruct (Book.borrowed_by b), (Book.due_date b); cbn; tauto.
Qed.

Lemma str_list_wf (l : list string) : json_wf (JArr (map JStr l)).
Proof. induction l as [| s l IH]; cbn; [exact I | split; [exact I | exact IH]]. Qed.

Lemma member_to_dict_wf (m : Member.t) : json_wf (JObj (Member.to_dict m)).
Proof.
  cbn. split.
  - repeat (constructor; [cbn; intuition discriminate |]). constructor.
  - repeat split. apply (str_list_wf (Member.borrowed_books m)).
Qed.

Lemma json_array_wf {A : Type} (f : A -> json) (l : list A) :
  (forall a, json_wf (f a)) -> json_wf (JArr (map f l)).
Proof.
  intros Hf. induction l as [| a l IH]; cbn; [exact I |].
  split; [apply Hf | exact IH].
Qed.

Section Persistence.
Context {J : JsonLib}.

Lemma json_load_dumps (v : json) : json_wf v -> json_load (dumps v) = Ok v.
Proof. intros Hwf. unfold json_load. now rewrite loads_dumps. Qed.

Lemma books_of_to_dict (now later : DT.datetime) :
  DT.year now <= DT.year later ->
  forall (d acc : dict Book.t),
    (forall k b, In (k, b) d -> Book.isbn b = k /\ Book.valid now b) ->
    NoDup (dict_keys d) ->
    (forall k, In k (dict_keys d) -> dict_get k acc = None) ->
    Library.books_of later
      (map (fun b => JObj (Book.to_dict b)) (dict_values d)) acc
    = Ok (acc ++ d)%list.
Proof.
  intros Hle. induction d as [| [k b] d IH]; intros acc Hd Hnd Hfresh.
  - cbn. now rewrite app_nil_r.
  - cbn [dict_values map snd Library.books_of].
    destruct (Hd k b (or_introl eq_refl)) as [Hk Hv].
    cbn [Library.subscript Book.to_dict getitem dict_get String.eqb Ascii.eqb
         Bool.eqb rbind Library.as_dict].
    change ((("isbn"%string, JStr (Book.isbn b)) :: _)) with (Book.to_dict b).
    rewrite (book_from_dict_to_dict _ _ _ Hv Hle).
    cbn [rbind as_str]. rewrite Hk.
    rewrite dict_set_new by (apply Hfresh; now left).
    inversion Hnd as [| ? ? Hnotin Hnd']; subst.
    fold (dict_values d). rewrite IH.
    + now rewrite <- app_assoc.
    + intros k' b' Hin. apply Hd. now right.
    + assumption.
    + intros k' Hin. rewrite dict_get_app_none.
      * cbn [dict_get]. destruct (String.eqb_spec k' (Book.isbn b));
          [subst; contradiction | reflexivity].
      * apply Hfresh. now right.
Qed.

Lemma members_of_to_dict :
  forall (d acc : dict Member.t),
    (forall k m, In (k, m) d ->
                 Member.member_id m = k /\ Member.__post_init__ m = Ok tt) ->
    NoDup (dict_keys d) ->
    (forall k, In k (dict_keys d) -> dict_get k acc = None) ->
    Library.members_of
      (map (fun m => JObj (Member.to_dict m)) (dict_values d)) acc
    = Ok (acc ++ d)%list.
Proof.
  induction d as [| [k m] d IH]; intros acc Hd Hnd Hfresh.
  - cbn. now rewrite app_nil_r.
  - cbn [dict_values map snd Library.members_of].
    destruct (Hd k m (or_introl eq_refl)) as [Hk Hv].
    cbn [Library.subscript Member.to_dict getitem dict_get String.eqb Ascii.eqb
         Bool.eqb rbind Library.as_dict].
    change ((("member_id"%string, JStr (Member.member_id m)) :: _))
      with (Member.to_dict m).
    rewrite (member_from_dict_to_dict _ Hv).
    cbn [rbind as_str]. rewrite Hk.
    rewrite dict_set_new by (apply Hfresh; now left).
    inversion Hnd as [| ? ? Hnotin Hnd']; subst.
    fold (dict_values d). rewrite IH.
    + now rewrite <- app_assoc.
    + intros k' m' Hin. apply Hd. now right.
    + assumption.
    + intros k' Hin. rewrite dict_get_app_none.
      * cbn [dict_get]. destruct (String.eqb_spec k' (Member.member_id m));
          [subst; contradiction | reflexivity].
      * apply Hfresh. now right.
Qed.

Lemma save_eq (self : Library.t) :
  Library.save self
  = (Library.mk (Library.books self) (Library.members self)
       (Some (dumps (JArr (map (fun b => JObj (Book.to_dict b))
                               (dict_values (Library.books self))))))
       (Some (dumps (JArr (map (fun m => JObj (Member.to_dict m))
                               (dict_values (Library.members self)))))),
     Ok tt).
Proof. reflexivity. Qed.

(** A fresh [Library] over the files [save] wrote holds the mappings that
    were saved. *)
Lemma load_after_save (now later : DT.datetime) (self saved : Library.t) :
  catalog_wf now self -> DT.year now <= DT.year later ->
  Library.save self = (saved, Ok tt) ->
  Library.__init__ later (Library.books_file saved) (Library.members_file saved)
  = Ok saved.
Proof.
  intros (Hbn & Hb & Hmn & Hm) Hle. rewrite save_eq. intros [= <-].
  cbn [Library.books_file Library.members_file].
  unfold Library.__init__, Library._load_data, Library.try_except,
    Library.bind, Library.lift, Library.read_books, Library.read_members.
  cbn [Library.books_file Library.members_file].
  destruct (String.eqb_spec
              (dumps (JArr (map (fun b => JObj (Book.to_dict b))
                                (dict_values (Library.books self))))) "")
    as [He | _]; [now apply dumps_nonempty in He |].
  cbn [negb].
  rewrite json_load_dumps by (apply json_array_wf, book_to_dict_wf).
  cbn [rbind Library.iter_json].
  rewrite (books_of_to_dict now later Hle _ [] Hb Hbn) by reflexivity.
  cbn [app Library.set_books Library.books Library.members Library.books_file
       Library.members_file].
  destruct (String.eqb_spec
              (dumps (JArr (map (fun m => JObj (Member.to_dict m))
                                (dict_values (Library.members self))))) "")
    as [He | _]; [now apply dumps_nonempty in He |].
  cbn [negb].
  rewrite json_load_dumps by (apply json_array_wf, member_to_dict_wf).
  cbn [rbind Library.iter_json].
  rewrite (members_of_to_dict _ [] Hm Hmn) by reflexivity.
  reflexivity.
Qed.

(** C5.  When the body of the [with] block returns, the transaction calls
    [save] on the catalog the body left and returns; and when that catalog
    holds validated entities under their own keys, a fresh [Library] over
    the files, at a time whose year is not earlier, has exactly its two
    mappings. *)
Theorem transaction_commit_persists (now later : DT.datetime)
    (body : Library.M unit) (self committed : Library.t) :
  body self = (committed, Ok tt) ->
  catalog_wf now committed -> DT.year now <= DT.year later ->
  exists saved,
    Library.transaction body self = (saved, Ok tt) /\
    Library.save committed = (saved, Ok tt) /\
    Library.books saved = Library.books committed /\
    Library.members saved = Library.members committed /\
    Library.__init__ later (Library.books_file saved)
      (Library.members_file saved) = Ok saved.
Proof.
  intros Hbody Hwf Hle.
  unfold Library.transaction, Library.try_except, Library.bind.
  rewrite Hbody, save_eq. eexists. split; [reflexivity |].
  split; [reflexivity |]. split; [reflexivity |]. split; [reflexivity |].
  apply (load_after_save now later committed); [assumption .. | apply save_eq].
Qed.

(** What [_load_data] does with an error of either store: the three
    kinds its [except] clause names become [InvalidDataError] with the
    text of the error, any other goes through as it is. *)
Lemma load_error_conversion (now : DT.datetime)
    (books_file members_file : option string) (e : exn) :
  Library.read_books now books_file = Raise e \/
  (exists bs, Library.read_books now books_file = Ok bs /\
              Library.read_members members_file = Raise e) ->
  Library.__init__ now books_file members_file
  = Raise (if Library.caught_by_load e
           then InvalidDataError ("Ошибка загрузки данных: " ++ str_exn e)
           else e).
Proof.
  unfold Library.__init__, Library._load_data, Library.try_except,
    Library.bind, Library.lift.
  cbn [Library.books_file Library.members_file].
  intros [-> | (bs & -> & Hm)].
  - destruct (Library.caught_by_load e); reflexivity.
  - cbn [Library.set_books Library.members_file]. rewrite Hm.
    destruct (Library.caught_by_load e); reflexivity.
Qed.

(** Content that [json.load] accepts but that is no collection, such as a
    number, ends in a [TypeError] that [_load_data] does not catch. *)
Lemma load_not_iterable (now : DT.datetime) (text : string)
    (members_file : option string) (v : json) :
  text <> ""%string -> loads text = inl v ->
  (v = JNull \/ (exists b, v = JBool b) \/ (exists n, v = JInt n)) ->
  Library.__init__ now (Some text) members_file
  = Raise (TypeError "object is not iterable").
Proof.
  intros Hne Hloads Hv.
  rewrite (load_error_conversion now (Some text) members_file
             (TypeError "object is not iterable")); [reflexivity |].
  left. unfold Library.read_books, json_load.
  destruct (String.eqb_spec text "") as [-> | _]; [contradiction |].
  cbn [negb]. rewrite Hloads.
  destruct Hv as [-> | [[b ->] | [n ->]]]; reflexivity.
Qed.

(** C6.  A store file that is missing or has no content gives the empty
    mapping and no error: the catalog is created with what the two files
    give.  A store file whose content [json.load] rejects makes the
    construction fail with [InvalidDataError], whose message carries the
    message of the [JSONDecodeError]. *)
Theorem load_missing_empty_malformed (now : DT.datetime)
    (books_file members_file : option string) :
  (absent_or_empty books_file -> Library.read_books now books_file = Ok []) /\
  (absent_or_empty members_file ->
   Library.read_members members_file = Ok []) /\
  (forall bs ms,
      Library.read_books now books_file = Ok bs ->
      Library.read_members members_file = Ok ms ->
      Library.__init__ now books_file members_file
      = Ok (Library.mk bs ms books_file members_file)) /\
  (forall text msg,
      books_file = Some text -> text <> ""%string -> loads text = inr msg ->
      Library.__init__ now books_file members_file
      = Raise (InvalidDataError ("Ошибка загрузки данных: " ++ msg)) /\
      kind_of (InvalidDataError ("Ошибка загрузки данных: " ++ msg))
      = CorruptData) /\
  (forall text msg bs,
      Library.read_books now books_file = Ok bs ->
      members_file = Some text -> text <> ""%string -> loads text = inr msg ->
      Library.__init__ now books_file members_file
      = Raise (InvalidDataError ("Ошибка загрузки данных: " ++ msg))).
Proof.
  split; [intros [-> | ->]; reflexivity |].
  split; [intros [-> | ->]; reflexivity |].
  split; [| split].
  - intros bs ms Hbs Hms.
    unfold Library.__init__, Library._load_data, Library.try_except,
      Library.bind, Library.lift.
    cbn [Library.books_file Library.members_file].
    rewrite Hbs. cbn [Library.set_books Library.members_file].
    rewrite Hms. reflexivity.
  - intros text msg -> Hne Hloads. split; [| reflexivity].
    unfold Library.__init__, Library._load_data, Library.try_except,
      Library.bind, Library.lift, Library.read_books, json_load.
    cbn [Library.books_file Library.members_file].
    destruct (String.eqb_spec text "") as [-> | _]; [contradiction |].
    cbn [negb]. rewrite Hloads. reflexivity.
  - intros text msg bs Hbs -> Hne Hloads.
    unfold Library.__init__, Library._load_data, Library.try_except,
      Library.bind, Library.lift.
    cbn [Library.books_file Library.members_file].
    rewrite Hbs. cbn [Library.set_books Library.members_file].
    unfold Library.read_members, json_load.
    destruct (String.eqb_spec text "") as [-> | _]; [contradiction |].
    cbn [negb]. rewrite Hloads. reflexivity.
Qed.

End Persistence.



Lemma read_unary_unary (n : nat) (rest : string) :
  RefJson.read_unary (RefJson.unary n rest) = Some (n, rest).
Proof.
  induction n as [| n IH]; cbn [RefJson.unary RefJson.read_unary].
  - reflexivity.
  - cbn. now rewrite IH.
Qed.

Lemma take_append (s rest : string) :
  RefJson.take (String.length s) (s ++ rest) = Some (s, rest).
Proof.
  induction s as [| c s IH]; cbn [String.length RefJson.take append].
  - reflexivity.
  - now rewrite IH.
Qed.

Lemma dec_str_enc_str (s rest : string) :
  RefJson.dec_str (RefJson.enc_str s rest) = Some (s, rest).
Proof.
  unfold RefJson.dec_str, RefJson.enc_str.
  rewrite read_unary_unary. apply take_append.
Qed.

Lemma dec_int_enc_int (z : Z) (rest : string) :
  RefJson.dec_int (RefJson.enc_int z rest) = Some (z, rest).
Proof.
  unfold RefJson.dec_int, RefJson.enc_int. rewrite read_unary_unary.
  destruct (Z.ltb_spec z 0); cbn; do 2 f_equal; lia.
Qed.

Lemma enc_arr (l : list json) (rest : string) :
  RefJson.enc (JArr l) rest = String "[" (RefJson.enc_items l rest).
Proof.
  cbn [RefJson.enc]. f_equal.
  induction l as [| x l IH]; cbn [RefJson.enc_items]; congruence.
Qed.

Lemma enc_obj (l : list (string * json)) (rest : string) :
  RefJson.enc (JObj l) rest = String "{" (RefJson.enc_fields l rest).
Proof.
  cbn [RefJson.enc]. f_equal.
  induction l as [| [k x] l IH]; cbn [RefJson.enc_fields]; congruence.
Qed.

Lemma need_arr (l : list json) :
  RefJson.need (JArr l) = S (RefJson.need_items l).
Proof.
  reflexivity.
Qed.

Lemma need_obj (l : list (string * json)) :
  RefJson.need (JObj l) = S (RefJson.need_fields l).
Proof.
  reflexivity.
Qed.

Lemma need_pos (v : json) : (1 <= RefJson.need v)%nat.
Proof. destruct v; cbn; lia. Qed.

Lemma need_items_pos (l : list json) : (1 <= RefJson.need_items l)%nat.
Proof. destruct l; cbn; lia. Qed.

Lemma need_fields_pos (l : list (string * json)) :
  (1 <= RefJson.need_fields l)%nat.
Proof. destruct l as [| [k x] l]; cbn; lia. Qed.

(** The text of a value does not start like the end of a list. *)
Lemma enc_head (v : json) (rest : string) :
  exists c r, RefJson.enc v rest = String c r /\ Ascii.eqb c "]" = false.
Proof.
  destruct v as [| [] | z | s | l | l]; cbn [RefJson.enc];
    eexists; eexists; split; reflexivity.
Qed.

Lemma dec_enc (fuel : nat) :
  (forall v rest, (RefJson.need v <= fuel)%nat ->
                  RefJson.dec fuel (RefJson.enc v rest) = Some (v, rest)) /\
  (forall l rest, (RefJson.need_items l <= fuel)%nat ->
                  RefJson.dec_items fuel (RefJson.enc_items l rest)
                  = Some (l, rest)) /\
  (forall l rest, (RefJson.need_fields l <= fuel)%nat ->
                  RefJson.dec_fields fuel (RefJson.enc_fields l rest)
                  = Some (l, rest)).
Proof.
  induction fuel as [| f (IHv & IHi & IHf)].
  - repeat split; intros x rest H.
    + pose proof (need_pos x). lia.
    + pose proof (need_items_pos x). lia.
    + pose proof (need_fields_pos x). lia.
  - repeat split.
    + intros v rest Hn. destruct v as [| [] | z | s | l | l].
      * reflexivity.
      * reflexivity.
      * reflexivity.
      * cbn [RefJson.enc RefJson.dec]. cbn [Ascii.eqb Bool.eqb].
        now rewrite dec_int_enc_int.
      * cbn [RefJson.enc RefJson.dec]. cbn [Ascii.eqb Bool.eqb].
        now rewrite dec_str_enc_str.
      * rewrite need_arr in Hn. rewrite enc_arr.
        cbn [RefJson.dec]. cbn [Ascii.eqb Bool.eqb].
        rewrite IHi by lia. reflexivity.
      * rewrite need_obj in Hn. rewrite enc_obj.
        cbn [RefJson.dec]. cbn [Ascii.eqb Bool.eqb].
        rewrite IHf by lia. reflexivity.
    + intros l rest Hn. destruct l as [| x l].
      * reflexivity.
      * cbn [RefJson.need_items] in Hn. cbn [RefJson.enc_items].
        destruct (enc_head x (RefJson.enc_items l rest)) as (c & r & He & Hc).
        cbn [RefJson.dec_items]. rewrite He, Hc, <- He.
        rewrite IHv by lia. rewrite IHi by lia. reflexivity.
    + intros l rest Hn. destruct l as [| [k x] l].
      * reflexivity.
      * cbn [RefJson.need_fields] in Hn. cbn [RefJson.enc_fields].
        cbn [RefJson.dec_fields]. cbn [Ascii.eqb Bool.eqb].
        rewrite dec_str_enc_str. rewrite IHv by lia. rewrite IHf by lia.
        reflexivity.
Qed.

Lemma length_unary (n : nat) (rest : string) :
  String.length (RefJson.unary n rest) = (n + 1 + String.length rest)%nat.
Proof. induction n as [| n IH]; cbn [RefJson.unary String.length]; lia. Qed.

Lemma length_append (a b : string) :
  String.length (a ++ b) = (String.length a + String.length b)%nat.
Proof. induction a as [| c a IH]; cbn [append String.length]; lia. Qed.

Lemma need_le_length (n : nat) :
  (forall v rest, (RefJson.need v <= n)%nat ->
     (RefJson.need v + String.length rest
      <= String.length (RefJson.enc v rest))%nat) /\
  (forall l rest, (RefJson.need_items l <= n)%nat ->
     (RefJson.need_items l + String.length rest
      <= String.length (RefJson.enc_items l rest))%nat) /\
  (forall l rest, (RefJson.need_fields l <= n)%nat ->
     (RefJson.need_fields l + String.length rest
      <= String.length (RefJson.enc_fields l rest))%nat).
Proof.
  induction n as [| n (IHv & IHi & IHf)].
  - repeat split; intros x rest H.
    + pose proof (need_pos x). lia.
    + pose proof (need_items_pos x). lia.
    + pose proof (need_fields_pos x). lia.
  - repeat split.
    + intros v rest Hn. destruct v as [| b | z | s | l | l].
      * cbn. lia.
      * cbn. lia.
      * cbn [RefJson.enc RefJson.need String.length]. unfold RefJson.enc_int.
        cbn [String.length]. rewrite length_unary. lia.
      * cbn [RefJson.enc RefJson.need String.length]. unfold RefJson.enc_str.
        rewrite length_unary, length_append. lia.
      * rewrite need_arr in *. rewrite enc_arr. cbn [String.length].
        specialize (IHi l rest). lia.
      * rewrite need_obj in *. rewrite enc_obj. cbn [String.length].
        specialize (IHf l rest). lia.
    + intros l rest Hn. destruct l as [| x l].
      * cbn. lia.
      * cbn [RefJson.need_items RefJson.enc_items] in *.
        pose proof (IHv x (RefJson.enc_items l rest)).
        pose proof (IHi l rest).
        pose proof (need_pos x). pose proof (need_items_pos l). lia.
    + intros l rest Hn. destruct l as [| [k x] l].
      * cbn. lia.
      * cbn [RefJson.need_fields RefJson.enc_fields String.length] in *.
        unfold RefJson.enc_str. rewrite length_unary, length_append.
        pose proof (IHv x (RefJson.enc_fields l rest)).
        pose proof (IHf l rest).
        pose proof (need_pos x). pose proof (need_fields_pos l). lia.
Qed.

Lemma ref_loads_dumps (v : json) :
  RefJson.ref_loads (RefJson.ref_dumps v) = inl v.
Proof.
  unfold RefJson.ref_loads, RefJson.ref_dumps.
  destruct (need_le_length (RefJson.need v)) as [Hlen _].
  specialize (Hlen v ""%string (le_n _)).
  destruct (dec_enc (S (String.length (RefJson.enc v "")))) as [Hdec _].
  rewrite Hdec by lia. reflexivity.
Qed.

Lemma ref_dumps_nonempty (v : json) : RefJson.ref_dumps v <> ""%string.
Proof. unfold RefJson.ref_dumps. destruct v; discriminate. Qed.

(** The codec as an instance of the interface. *)
Definition ref_json : JsonLib :=
  {| dumps := RefJson.ref_dumps;
     loads := RefJson.ref_loads;
     loads_dumps := fun v _ => ref_loads_dumps v;
     dumps_nonempty := ref_dumps_nonempty |}.

(** ** Catalog operations keep the catalog well formed *)

Lemma in_keys_dict_set {V : Type} (x k : string) (v : V) (d : dict V) :
  In x (dict_keys (dict_set k v d)) -> x = k \/ In x (dict_keys d).
Proof.
  induction d as [| [k0 v0] d IH]; cbn [dict_set dict_keys map fst In].
  - intros [<- | []]. now left.
  - destruct (String.eqb_spec k k0) as [-> | Hne]; cbn [map fst In].
    + tauto.
    + intros [<- | Hin]; [right; now left |].
      destruct (IH Hin); [now left | right; now right].
Qed.

Lemma dict_set_NoDup {V : Type} (k : string) (v : V) (d : dict V) :
  NoDup (dict_keys d) -> NoDup (dict_keys (dict_set k v d)).
Proof.
  induction d as [| [k0 v0] d IH]; cbn [dict_set dict_keys map fst].
  - intros _. constructor; [tauto | constructor].
  - intros Hnd. inversion Hnd as [| ? ? Hnotin Hnd']; subst.
    destruct (String.eqb_spec k k0) as [-> | Hne]; cbn [map fst].
    + now constructor.
    + constructor; [| now apply IH].
      intros Hin. apply in_keys_dict_set in Hin as [-> | Hin]; tauto.
Qed.

Lemma wf_with_book (now : DT.datetime) (isbn : string) (b : Book.t)
    (self : Library.t) :
  catalog_wf now self -> Book.isbn b = isbn -> Book.valid now b ->
  catalog_wf now (with_book isbn b self).
Proof.
  intros (Hbn & Hb & Hmn & Hm) Hi Hv. unfold catalog_wf, with_book.
  cbn [Library.books Library.members].
  split; [now apply dict_set_NoDup |]. split; [| split; assumption].
  intros k0 b0 Hin.
  apply in_dict_set in Hin as [[-> ->] | Hin]; [split; assumption |].
  now apply Hb.
Qed.

Lemma wf_with_member (now : DT.datetime) (member_id : string) (m : Member.t)
    (self : Library.t) :
  catalog_wf now self -> Member.member_id m = member_id ->
  Member.__post_init__ m = Ok tt ->
  catalog_wf now (with_member member_id m self).
Proof.
  intros (Hbn & Hb & Hmn & Hm) Hi Hv. unfold catalog_wf, with_member.
  cbn [Library.books Library.members].
  split; [assumption |]. split; [assumption |].
  split; [now apply dict_set_NoDup |].
  intros k0 m0 Hin.
  apply in_dict_set in Hin as [[-> ->] | Hin]; [split; assumption |].
  now apply Hm.
Qed.

Lemma wf_book (now : DT.datetime) (self : Library.t) (k : string)
    (b : Book.t) :
  catalog_wf now self -> dict_get k (Library.books self) = Some b ->
  Book.isbn b = k /\ Book.valid now b.
Proof. intros (_ & Hb & _) Hget. now apply Hb, dict_get_in. Qed.

Lemma wf_member (now : DT.datetime) (self : Library.t) (k : string)
    (m : Member.t) :
  catalog_wf now self -> dict_get k (Library.members self) = Some m ->
  Member.member_id m = k /\ Member.__post_init__ m = Ok tt.
Proof. intros (_ & _ & _ & Hm) Hget. now apply Hm, dict_get_in. Qed.

Lemma borrow_book_wf (now : DT.datetime) (isbn member_id : string) (days : Z)
    (self self' : Library.t) (r : result unit) :
  catalog_wf now self ->
  Library.borrow_book now isbn member_id days self = (self', r) ->
  catalog_wf now self'.
Proof.
  intros Hwf Hbor.
  destruct (borrow_book_outcomes _ _ _ _ _ _ _ Hbor)
    as [[-> _] | (book & member & Hb & Hm &
                  [(due & Hadd & -> & ->) | (e & Hadd & -> & _ & _ & ->)])];
    [assumption | |];
    destruct (wf_book _ _ _ _ Hwf Hb) as [Hi [Hp Hd]];
    destruct (wf_member _ _ _ _ Hwf Hm) as [Hmi Hmp].
  - apply wf_with_member.
    + apply wf_with_book; [assumption | exact Hi |]. split.
      * rewrite <- Hp. now apply book_post_init_fields.
      * cbn. intros d [= <-]. eapply add_days_wf; eassumption.
    + unfold Member.add_borrowed_book.
      destruct (negb (Member.mem isbn (Member.borrowed_books member)));
        assumption.
    + unfold Member.add_borrowed_book.
      destruct (negb (Member.mem isbn (Member.borrowed_books member)));
        assumption.
  - apply wf_with_book; [assumption | exact Hi |]. split.
    + rewrite <- Hp. now apply book_post_init_fields.
    + exact Hd.
Qed.

Lemma return_book_wf (now : DT.datetime) (isbn member_id : string)
    (self self' : Library.t) (r : result unit) :
  catalog_wf now self ->
  Library.return_book isbn member_id self = (self', r) ->
  catalog_wf now self'.
Proof.
  intros Hwf Hret.
  destruct (return_book_outcomes _ _ _ _ _ Hret)
    as [[-> _] | (book & member & Hb & Hm & _ & -> & ->)];
    [assumption |].
  destruct (wf_book _ _ _ _ Hwf Hb) as [Hi [Hp Hd]].
  destruct (wf_member _ _ _ _ Hwf Hm) as [Hmi Hmp].
  apply wf_with_member.
  - apply wf_with_book; [assumption | exact Hi |]. split.
    + rewrite <- Hp. now apply book_post_init_fields.
    + cbn. discriminate.
  - unfold Member.remove_borrowed_book.
    destruct (Member.mem isbn (Member.borrowed_books member)); assumption.
  - unfold Member.remove_borrowed_book.
    destruct (Member.mem isbn (Member.borrowed_books member)); assumption.
Qed.

(** A book that [add_book] stores goes last, under its ISBN. *)
Lemma add_book_outcomes (now : DT.datetime) (isbn title author : string)
    (year : Z) (self self' : Library.t) (r : result Book.t) :
  Library.add_book now isbn title author year self = (self', r) ->
  (self' = self /\ exists e, r = Raise e) \/
  (exists b,
      Book.create now isbn title author year = Ok b /\ r = Ok b /\
      dict_get isbn (Library.books self) = None /\
      Library.books self' = (Library.books self ++ [(isbn, b)])%list /\
      self' = with_book isbn b self).
Proof.
  unfold Library.add_book, Library.log_operation, Library.validate_isbn.
  destruct (len isbn <? 10);
    [intros [= <- <-]; left; eauto |].
  unfold dict_mem.
  destruct (dict_get isbn (Library.books self)) eqn:Hget;
    [intros [= <- <-]; left; eauto |].
  unfold Library.bind, Library.lift.
  destruct (Book.create now isbn title author year) as [b | e] eqn:Hc;
    [| intros [= <- <-]; left; eauto].
  cbn. intros [= <- <-]. right. exists b. repeat split; try assumption.
  cbn. now apply dict_set_new.
Qed.

Lemma add_member_outcomes (member_id name email : string)
    (self self' : Library.t) (r : result Member.t) :
  Library.add_member member_id name email self = (self', r) ->
  (self' = self /\ exists e, r = Raise e) \/
  (exists m,
      Member.create member_id name email = Ok m /\ r = Ok m /\
      self' = with_member member_id m self).
Proof.
  unfold Library.add_member, Library.log_operation, dict_mem.
  destruct (dict_get member_id (Library.members self)) eqn:Hget;
    [intros [= <- <-]; left; eauto |].
  unfold Library.bind, Library.lift.
  destruct (Member.create member_id name email) as [m | e] eqn:Hc;
    [| intros [= <- <-]; left; eauto].
  cbn. intros [= <- <-]. right. exists m. repeat split.
Qed.

Lemma book_create_isbn (now : DT.datetime) (i t a : string) (y : Z)
    (b : Book.t) :
  Book.create now i t a y = Ok b -> Book.isbn b = i.
Proof.
  unfold Book.create, Book.__init__.
  destruct (Book.__post_init__ now _) as [[] |]; [| discriminate].
  cbn [rbind]. now intros [= <-].
Qed.

Lemma member_create_valid (i n e : string) (m : Member.t) :
  Member.create i n e = Ok m ->
  Member.member_id m = i /\ Member.__post_init__ m = Ok tt.
Proof.
  unfold Member.create, Member.__init__.
  destruct (Member.__post_init__ _) as [[] |] eqn:Hp; [| discriminate].
  cbn [rbind]. intros [= <-]. split; [reflexivity | exact Hp].
Qed.

Lemma run_op_wf (now : DT.datetime) (o : Library.op)
    (self self' : Library.t) (r : result unit) :
  catalog_wf now self -> Library.run_op now o self = (self', r) ->
  catalog_wf now self'.
Proof.
  intros Hwf. destruct o as [i t a y | m n e | i m d | i m | e];
    cbn [Library.run_op].
  - unfold Library.bind.
    destruct (Library.add_book now i t a y self) as [s1 r1] eqn:Hadd.
    assert (Hs1 : catalog_wf now s1).
    { destruct (add_book_outcomes _ _ _ _ _ _ _ _ Hadd)
        as [[-> _] | (b & Hc & _ & _ & _ & ->)]; [assumption |].
      apply wf_with_book; [assumption | |].
      - eapply book_create_isbn; eassumption.
      - eapply book_create_valid; eassumption. }
    destruct r1; intros [= <- _]; assumption.
  - unfold Library.bind.
    destruct (Library.add_member m n e self) as [s1 r1] eqn:Hadd.
    assert (Hs1 : catalog_wf now s1).
    { destruct (add_member_outcomes _ _ _ _ _ _ Hadd)
        as [[-> _] | (mb & Hc & _ & ->)]; [assumption |].
      destruct (member_create_valid _ _ _ _ Hc).
      now apply wf_with_member. }
    destruct r1; intros [= <- _]; assumption.
  - now apply borrow_book_wf.
  - now apply return_book_wf.
  - now intros [= <- _].
Qed.

Lemma run_ops_wf (now : DT.datetime) (ops : list Library.op) :
  forall (self self' : Library.t) (r : result unit),
    catalog_wf now self -> Library.run_ops now ops self = (self', r) ->
    catalog_wf now self'.
Proof.
  induction ops as [| o ops IH]; intros self self' r Hwf;
    cbn [Library.run_ops].
  - now intros [= <- _].
  - unfold Library.bind.
    destruct (Library.run_op now o self) as [s1 [[] | e]] eqn:Hop.
    + apply IH. eapply run_op_wf; eassumption.
    + intros [= <- _]. eapply run_op_wf; eassumption.
Qed.

Lemma empty_catalog_wf (now : DT.datetime) (bf mf : option string) :
  catalog_wf now (Library.mk [] [] bf mf).
Proof. repeat split; try constructor; contradiction. Qed.

(** *** A loaded catalog is well formed *)

Lemma fromisoformat_wf (s : string) (d : DT.datetime) :
  DT.fromisoformat s = Ok d -> DT.wf d.
Proof.
  unfold DT.fromisoformat.
  destruct (DT.parse_iso s) as [[[[[[[y mo] dd] h] mi] sec] us] |];
    [apply new_wf | discriminate].
Qed.

Tactic Notation "step_result" hyp(H) "as" ident(x) ident(E) :=
  match type of H with
  | rbind ?r _ = Ok _ =>
      destruct r as [x |] eqn:E; cbn [rbind] in H; [| discriminate H]
  end.

Lemma book_from_dict_valid (now : DT.datetime) (data : dict json)
    (b : Book.t) :
  Book.from_dict now data = Ok b ->
  Book.valid now b /\ getitem data "isbn" = Ok (JStr (Book.isbn b)).
Proof.
  unfold Book.from_dict. intros H.
  step_result H as due Hdue.
  step_result H as v_isbn Hisbn.
  step_result H as v_title Htitle.
  step_result H as v_author Hauthor.
  step_result H as v_year Hyear.
  step_result H as av Hav.
  step_result H as by_ Hby.
  step_result H as i Hi.
  step_result H as t Ht.
  step_result H as au Hau.
  step_result H as y Hy.
  unfold Book.__init__ in H. step_result H as u Hpost. injection H as <-.
  destruct v_isbn; try discriminate. cbn in Hi. injection Hi as ->.
  destruct u. split; [split |]; [assumption | | reflexivity].
  cbn [Book.due_date]. intros d ->.
  destruct (dict_get "due_date" data) as [v |]; [| discriminate].
  destruct (truthy v); [| discriminate].
  destruct (as_str v) as [txt |]; cbn [rbind] in Hdue; [| discriminate].
  destruct (DT.fromisoformat txt) as [d' |] eqn:Hiso; cbn [rbind] in Hdue;
    [| discriminate].
  injection Hdue as <-. eapply fromisoformat_wf; eassumption.
Qed.

Lemma member_from_dict_valid (data : dict json) (m : Member.t) :
  Member.from_dict data = Ok m ->
  Member.__post_init__ m = Ok tt /\
  getitem data "member_id" = Ok (JStr (Member.member_id m)).
Proof.
  unfold Member.from_dict. intros H.
  step_result H as v_id Hid.
  step_result H as v_name Hname.
  step_result H as v_email Hemail.
  step_result H as bs Hbs.
  step_result H as mx Hmx.
  step_result H as i Hi.
  step_result H as n Hn.
  step_result H as e He.
  unfold Member.__init__ in H. step_result H as u Hpost. injection H as <-.
  destruct v_id; try discriminate. cbn in Hi. injection Hi as ->.
  destruct u. split; [assumption | reflexivity].
Qed.

Lemma books_of_wf (now : DT.datetime) (items : list json) :
  forall acc d,
    Library.books_of now items acc = Ok d ->
    NoDup (dict_keys acc) ->
    (forall k b, In (k, b) acc -> Book.isbn b = k /\ Book.valid now b) ->
    NoDup (dict_keys d) /\
    (forall k b, In (k, b) d -> Book.isbn b = k /\ Book.valid now b).
Proof.
  induction items as [| data items IH]; intros acc d; cbn [Library.books_of].
  - intros [= <-]. now split.
  - intros H Hnd Hacc.
    step_result H as key Hkey.
    step_result H as fields Hdict.
    step_result H as book Hbook.
    step_result H as k Hk.
    destruct data; try discriminate. cbn in Hdict, Hkey.
    injection Hdict as <-.
    destruct (book_from_dict_valid _ _ _ Hbook) as [Hvalid Hisbn].
    rewrite Hisbn in Hkey. injection Hkey as <-.
    cbn in Hk. injection Hk as <-.
    apply (IH _ _ H).
    + now apply dict_set_NoDup.
    + intros k0 b0 Hin.
      apply in_dict_set in Hin as [[-> ->] | Hin]; [now split | now apply Hacc].
Qed.

Lemma members_of_wf (items : list json) :
  forall acc d,
    Library.members_of items acc = Ok d ->
    NoDup (dict_keys acc) ->
    (forall k m, In (k, m) acc ->
                 Member.member_id m = k /\ Member.__post_init__ m = Ok tt) ->
    NoDup (dict_keys d) /\
    (forall k m, In (k, m) d ->
                 Member.member_id m = k /\ Member.__post_init__ m = Ok tt).
Proof.
  induction items as [| data items IH]; intros acc d;
    cbn [Library.members_of].
  - intros [= <-]. now split.
  - intros H Hnd Hacc.
    step_result H as key Hkey.
    step_result H as fields Hdict.
    step_result H as member Hmem.
    step_result H as k Hk.
    destruct data; try discriminate. cbn in Hdict, Hkey.
    injection Hdict as <-.
    destruct (member_from_dict_valid _ _ Hmem) as [Hvalid Hid].
    rewrite Hid in Hkey. injection Hkey as <-.
    cbn in Hk. injection Hk as <-.
    apply (IH _ _ H).
    + now apply dict_set_NoDup.
    + intros k0 m0 Hin.
      apply in_dict_set in Hin as [[-> ->] | Hin]; [now split | now apply Hacc].
Qed.

(** A catalog loaded from records of the annotated types holds validated
    entities under their own keys, no key twice. *)
Lemma loaded_catalog_wf {J : JsonLib} (now : DT.datetime)
    (books_file members_file : option string) (self : Library.t) :
  Library.__init__ now books_file members_file = Ok self ->
  catalog_wf now self.
Proof.
  unfold Library.__init__, Library._load_data, Library.try_except,
    Library.bind, Library.lift.
  cbn [Library.books_file Library.members_file].
  destruct (Library.read_books now books_file) as [bs | e] eqn:Hb;
    [| destruct (Library.caught_by_load e); discriminate].
  cbn [Library.set_books Library.members_file].
  destruct (Library.read_members members_file) as [ms | e] eqn:Hm;
    [| destruct (Library.caught_by_load e); discriminate].
  cbn. intros [= <-]. unfold catalog_wf. cbn [Library.books Library.members].
  assert (Hbs : NoDup (dict_keys bs) /\
                (forall k b, In (k, b) bs ->
                             Book.isbn b = k /\ Book.valid now b)).
  { unfold Library.read_books in Hb.
    destruct books_file as [text |];
      [| injection Hb as <-; split; [constructor | contradiction]].
    destruct (negb (String.eqb text ""));
      [| injection Hb as <-; split; [constructor | contradiction]].
    destruct (json_load text) as [v |]; cbn [rbind] in Hb; [| discriminate].
    destruct (Library.iter_json v) as [items |]; cbn [rbind] in Hb;
      [| discriminate].
    apply (books_of_wf now items [] bs Hb); [constructor | contradiction]. }
  assert (Hms : NoDup (dict_keys ms) /\
                (forall k m, In (k, m) ms ->
                             Member.member_id m = k /\
                             Member.__post_init__ m = Ok tt)).
  { unfold Library.read_members in Hm.
    destruct members_file as [text |];
      [| injection Hm as <-; split; [constructor | contradiction]].
    destruct (negb (String.eqb text ""));
      [| injection Hm as <-; split; [constructor | contradiction]].
    destruct (json_load text) as [v |]; cbn [rbind] in Hm; [| discriminate].
    destruct (Library.iter_json v) as [items |]; cbn [rbind] in Hm;
      [| discriminate].
    apply (members_of_wf items [] ms Hm); [constructor | contradiction]. }
  destruct Hbs, Hms.
  split; [assumption | split; [assumption | split; assumption]].
Qed.

(** A well-formed catalog stays so as the years pass. *)
Lemma catalog_wf_later (now later : DT.datetime) (self : Library.t) :
  DT.year now <= DT.year later -> catalog_wf now self ->
  catalog_wf later self.
Proof.
  intros Hle (Hbn & Hb & Hmn & Hm).
  split; [assumption |]. split; [| split; assumption].
  intros k b Hin. destruct (Hb k b Hin) as [Hk [Hp Hd]].
  split; [assumption |]. split; [| assumption].
  now apply (book_post_init_later now later).
Qed.

(** A batch of catalog operations that runs to its end inside a
    transaction, from a well-formed catalog, is found again by a fresh
    load. *)
Lemma transaction_commit_batch {J : JsonLib} (now later : DT.datetime)
    (ops : list Library.op) (self saved : Library.t) :
  catalog_wf now self -> DT.year now <= DT.year later ->
  Library.transaction (Library.run_ops now ops) self = (saved, Ok tt) ->
  Library.__init__ later (Library.books_file saved) (Library.members_file saved)
  = Ok saved.
Proof.
  intros Hwf Hle. unfold Library.transaction, Library.try_except, Library.bind.
  destruct (Library.run_ops now ops self) as [s1 [[] | e]] eqn:Hops.
  - rewrite save_eq. intros [= <-].
    apply (load_after_save now later s1); [| assumption | apply save_eq].
    eapply run_ops_wf; eassumption.
  - cbn. discriminate.
Qed.

(** * Further properties of the code *)

(** ** The calendar: ordinals of days *)

Lemma is_leap_cases (y : Z) :
  DT.is_leap y = true /\ (y mod 4 = 0 /\ (y mod 100 <> 0 \/ y mod 400 = 0)) \/
  DT.is_leap y = false /\ (y mod 4 <> 0 \/ (y mod 100 = 0 /\ y mod 400 <> 0)).
Proof.
  unfold DT.is_leap.
  destruct (Z.eqb_spec (y mod 4) 0), (Z.eqb_spec (y mod 100) 0),
    (Z.eqb_spec (y mod 400) 0); cbn; intuition lia.
Qed.


Lemma days_before_year_succ (y : Z) :
  DT.days_before_year (y + 1) = DT.days_before_year y + 365 + leap_day y.
Proof.
  unfold DT.days_before_year, leap_day. cbn zeta.
  replace (y + 1 - 1) with y by lia.
  destruct (is_leap_cases y) as [[-> H] | [-> H]];
    Z.div_mod_to_equations; lia.
Qed.

Lemma days_before_year_le (y1 y2 : Z) :
  y1 <= y2 -> DT.days_before_year y1 <= DT.days_before_year y2.
Proof.
  intros H. replace y2 with (y1 + Z.of_nat (Z.to_nat (y2 - y1))) by lia.
  induction (Z.to_nat (y2 - y1)) as [| n IH].
  - replace (y1 + Z.of_nat 0) with y1 by lia. lia.
  - replace (y1 + Z.of_nat (S n)) with (y1 + Z.of_nat n + 1) by lia.
    rewrite days_before_year_succ. unfold leap_day.
    destruct (DT.is_leap _); lia.
Qed.

(** The days before a month, by the month. *)
Lemma days_before_month_table (y m : Z) :
  1 <= m <= 13 ->
  DT.days_before_month y m =
  (if m =? 1 then 0 else if m =? 2 then 31
   else (if m =? 3 then 59 else if m =? 4 then 90 else if m =? 5 then 120
         else if m =? 6 then 151 else if m =? 7 then 181
         else if m =? 8 then 212 else if m =? 9 then 243
         else if m =? 10 then 273 else if m =? 11 then 304
         else if m =? 12 then 334 else 365) + leap_day y).
Proof.
  intros H.
  assert (Hm : m = 1 \/ m = 2 \/ m = 3 \/ m = 4 \/ m = 5 \/ m = 6 \/ m = 7 \/
               m = 8 \/ m = 9 \/ m = 10 \/ m = 11 \/ m = 12 \/ m = 13) by lia.
  unfold DT.days_before_month, leap_day.
  repeat destruct Hm as [-> | Hm]; try subst m;
    match goal with
    | |- context [Z.to_nat ?e] =>
        let n := eval vm_compute in (Z.to_nat e) in
        change (Z.to_nat e) with n
    end;
    cbn [DT.days_before_month_aux]; unfold DT.days_in_month;
    destruct (DT.is_leap y); reflexivity.
Qed.

Lemma days_in_month_table (y m : Z) :
  1 <= m <= 12 ->
  DT.days_in_month y m =
  DT.days_before_month y (m + 1) - DT.days_before_month y m.
Proof.
  intros H.
  assert (Hm : m = 1 \/ m = 2 \/ m = 3 \/ m = 4 \/ m = 5 \/ m = 6 \/ m = 7 \/
               m = 8 \/ m = 9 \/ m = 10 \/ m = 11 \/ m = 12) by lia.
  repeat destruct Hm as [-> | Hm]; try subst m;
    rewrite !days_before_month_table by lia; unfold DT.days_in_month, leap_day;
    cbn; destruct (DT.is_leap y); reflexivity.
Qed.

Lemma days_before_month_mono (y m1 m2 : Z) :
  1 <= m1 -> m1 <= m2 -> m2 <= 13 ->
  DT.days_before_month y m1 <= DT.days_before_month y m2.
Proof.
  intros H1 H2 H3. rewrite !days_before_month_table by lia.
  unfold leap_day. destruct (DT.is_leap y);
  repeat match goal with
         | |- context [?a =? ?b] => destruct (Z.eqb_spec a b)
         end; lia.
Qed.


Lemma day_of_year_bounds (y m d : Z) :
  date_ok y m d ->
  DT.days_before_month y m < DT.days_before_month y m + d
  <= DT.days_before_month y (m + 1).
Proof.
  intros [Hm Hd]. rewrite days_in_month_table in Hd by assumption. lia.
Qed.

Lemma year_length (y : Z) : DT.days_before_month y 13 = 365 + leap_day y.
Proof. rewrite days_before_month_table by lia. reflexivity. Qed.

(** The ordinal grows with the date. *)
Lemma ymd2ord_lt (y1 m1 d1 y2 m2 d2 : Z) :
  date_ok y1 m1 d1 -> date_ok y2 m2 d2 ->
  y1 < y2 \/ (y1 = y2 /\ (m1 < m2 \/ (m1 = m2 /\ d1 < d2))) ->
  DT.ymd2ord y1 m1 d1 < DT.ymd2ord y2 m2 d2.
Proof.
  intros H1 H2 Hlt. unfold DT.ymd2ord.
  pose proof (day_of_year_bounds _ _ _ H1) as B1.
  pose proof (day_of_year_bounds _ _ _ H2) as B2.
  destruct H1 as [Hm1 _], H2 as [Hm2 _].
  destruct Hlt as [Hy | [-> [Hm | [-> Hd]]]].
  - pose proof (days_before_month_mono y1 (m1 + 1) 13) as M1.
    pose proof (days_before_month_mono y2 1 m2) as M2.
    rewrite year_length in M1.
    rewrite (days_before_month_table y2 1) in M2 by lia. cbn in M2.
    pose proof (days_before_year_le (y1 + 1) y2) as L.
    rewrite days_before_year_succ in L. lia.
  - pose proof (days_before_month_mono y2 (m1 + 1) m2). lia.
  - lia.
Qed.

Lemma month_day_spec (y : Z) (fuel : nat) :
  forall m n m' d',
    1 <= m -> m + Z.of_nat fuel = 12 -> 0 <= n ->
    DT.days_before_month y m + n < DT.days_before_month y 13 ->
    DT.month_day y fuel m n = (m', d') ->
    date_ok y m' d' /\
    DT.days_before_month y m' + d' = DT.days_before_month y m + n + 1.
Proof.
  unfold date_ok.
  induction fuel as [| fuel IH]; intros m n m' d' Hm Hf Hn Hlt;
    cbn [DT.month_day].
  - intros [= <- <-].
    pose proof (days_in_month_table y m ltac:(lia)) as T.
    replace (m + 1) with 13 in T by lia. lia.
  - destruct (Z.ltb_spec n (DT.days_in_month y m)) as [Hd | Hd].
    + intros [= <- <-]. lia.
    + intros Hrec.
      pose proof (days_in_month_table y m ltac:(lia)) as T.
      apply IH in Hrec; lia.
Qed.

Lemma ymd2ord_ord2ymd (o : Z) :
  1 <= o ->
  let '(y, m, d) := DT.ord2ymd o in
  1 <= y /\ date_ok y m d /\ DT.ymd2ord y m d = o.
Proof.
  intros Ho. unfold DT.ord2ymd, DT.DI400Y, DT.DI100Y, DT.DI4Y. cbn zeta.
  set (n := o - 1).
  set (n400 := n / 146097). set (r400 := n mod 146097).
  set (n100 := r400 / 36524). set (r100 := r400 mod 36524).
  set (n4 := r100 / 1461). set (r4 := r100 mod 1461).
  set (n1 := r4 / 365). set (r := r4 mod 365).
  assert (E400 : n = 146097 * n400 + r400 /\ 0 <= r400 < 146097)
    by (subst n400 r400; Z.div_mod_to_equations; lia).
  assert (E100 : r400 = 36524 * n100 + r100 /\ 0 <= r100 < 36524)
    by (subst n100 r100; Z.div_mod_to_equations; lia).
  assert (E4 : r100 = 1461 * n4 + r4 /\ 0 <= r4 < 1461)
    by (subst n4 r4; Z.div_mod_to_equations; lia).
  assert (E1 : r4 = 365 * n1 + r /\ 0 <= r < 365)
    by (subst n1 r; Z.div_mod_to_equations; lia).
  assert (Hn : 0 <= n) by (subst n; lia).
  assert (Hn400 : 0 <= n400) by lia.
  clearbody n400 r400 n100 r100 n4 r4 n1 r.
  set (y := n400 * 400 + 1 + n100 * 100 + n4 * 4 + n1).
  destruct ((n1 =? 4) || (n100 =? 4)) eqn:Hlast.
  - assert (Hy1 : 1 <= y - 1).
    { subst y. destruct (Z.eqb_spec n100 4) as [H100 | H100]; [lia |].
      destruct (Z.eqb_spec n1 4) as [H1 | H1]; [| discriminate Hlast].
      assert (0 <= n100) by lia. assert (0 <= n4) by lia. lia. }
    split; [exact Hy1 |].
    split; [split; [lia | unfold DT.days_in_month; cbn; lia] |].
    unfold DT.ymd2ord.
    replace (DT.days_before_month (y - 1) 12) with (334 + leap_day (y - 1))
      by (rewrite days_before_month_table by lia; reflexivity).
    assert (Hy : y - 1 = 400 * n400 + 400 \/
                 (exists k, y - 1 = 400 * n400 + 4 * k /\ 1 <= k <= 99 /\
                            k mod 25 <> 0)).
    { subst y. destruct (Z.eqb_spec n100 4) as [H100 | H100].
      - left. lia.
      - destruct (Z.eqb_spec n1 4) as [H1 | H1]; [| discriminate Hlast].
        right. exists (25 * n100 + n4 + 1).
        assert (0 <= n100 <= 3) by lia. assert (0 <= n4 <= 23) by lia.
        split; [lia |]. split; [lia |]. Z.div_mod_to_equations. lia. }
    unfold DT.days_before_year, leap_day. cbn zeta.
    destruct (is_leap_cases (y - 1)) as [[-> L] | [-> L]].
    + clear Hy L. subst y n.
      destruct (Z.eqb_spec n100 4) as [H100 | H100].
      * assert (r100 = 0 /\ n4 = 0 /\ n1 = 0 /\ r = 0) as (-> & -> & -> & ->)
          by lia.
        subst n100.
        replace (n400 * 400 + 1 + 4 * 100 + 0 * 4 + 0 - 1 - 1)
          with (400 * n400 + 399) by lia.
        Z.div_mod_to_equations. lia.
      * destruct (Z.eqb_spec n1 4) as [H1 | H1]; [| discriminate Hlast].
        assert (0 <= n100 <= 3) by lia. assert (0 <= n4 <= 23) by lia.
        assert (r = 0) as -> by lia. subst n1.
        replace (n400 * 400 + 1 + n100 * 100 + n4 * 4 + 4 - 1 - 1)
          with (400 * n400 + 100 * n100 + 4 * n4 + 3) by lia.
        Z.div_mod_to_equations. lia.
    + exfalso. destruct Hy as [Hy | (k & Hy & Hk & Hk25)];
        rewrite Hy in L; Z.div_mod_to_equations; lia.
  - apply orb_false_iff in Hlast. destruct Hlast as [H1 H100].
    apply Z.eqb_neq in H1. apply Z.eqb_neq in H100.
    destruct (DT.month_day y 11 1 r) as [m d] eqn:Hmd.
    apply month_day_spec in Hmd; try lia.
    + destruct Hmd as [Hm Hd].
      assert (0 <= n100) by lia. assert (0 <= n4) by lia.
      assert (0 <= n1) by lia.
      split; [subst y; lia |]. split; [exact Hm |].
      rewrite (days_before_month_table y 1) in Hd by lia. cbn in Hd.
      unfold DT.ymd2ord, DT.days_before_year. cbn zeta.
      replace (y - 1) with (400 * n400 + 100 * n100 + 4 * n4 + n1)
        by (subst y; lia).
      assert (0 <= n100 <= 3) by lia. assert (0 <= n4 <= 24) by lia.
      assert (0 <= n1 <= 3) by lia. subst n.
      Z.div_mod_to_equations. lia.
    + rewrite year_length, (days_before_month_table y 1) by lia. cbn.
      unfold leap_day. destruct (DT.is_leap y); lia.
Qed.

Lemma ord2ymd_year_max (o y m d : Z) :
  o <= DT.MAXORDINAL -> date_ok y m d -> DT.ymd2ord y m d = o -> y <= 9999.
Proof.
  intros Ho Hok E. destruct (Z.le_gt_cases y 9999) as [H | H]; [assumption |].
  exfalso. pose proof (days_before_year_le 10000 y ltac:(lia)) as L.
  pose proof (day_of_year_bounds _ _ _ Hok) as B.
  pose proof (days_before_month_mono y 1 m) as M.
  rewrite (days_before_month_table y 1) in M by lia. cbn in M.
  destruct Hok as [Hm _]. unfold DT.ymd2ord in E.
  change (DT.days_before_year 10000) with 3652059 in L.
  unfold DT.MAXORDINAL in Ho. lia.
Qed.

Lemma check_fields_intro (y mo d h mi s us : Z) :
  1 <= y <= 9999 -> date_ok y mo d -> 0 <= h <= 23 -> 0 <= mi <= 59 ->
  0 <= s <= 59 -> 0 <= us <= 999999 ->
  DT.check_fields y mo d h mi s us = true.
Proof.
  intros Hy [Hm Hd] Hh Hmi Hs Hus. unfold DT.check_fields.
  repeat (apply andb_true_intro; split); apply Z.leb_le; lia.
Qed.

Lemma wf_date_ok (t : DT.datetime) :
  DT.wf t -> date_ok (DT.year t) (DT.month t) (DT.day t).
Proof.
  unfold DT.wf, DT.check_fields, date_ok. intros H.
  repeat (apply andb_prop in H; destruct H as [H ?]).
  repeat match goal with
         | H : (_ <=? _) = true |- _ => apply Z.leb_le in H
         end. lia.
Qed.

(** [t + timedelta(days=d)] is the same time of day [d] days later, when
    that day is in the calendar. *)
Lemma add_days_ok (t : DT.datetime) (d : Z) :
  DT.wf t ->
  Z.abs d <= 999999999 ->
  1 <= DT.ymd2ord (DT.year t) (DT.month t) (DT.day t) + d <= DT.MAXORDINAL ->
  exists due,
    DT.add_days t d = Ok due /\
    DT.wf due /\
    DT.ymd2ord (DT.year due) (DT.month due) (DT.day due)
    = DT.ymd2ord (DT.year t) (DT.month t) (DT.day t) + d /\
    DT.hour due = DT.hour t /\ DT.minute due = DT.minute t /\
    DT.second due = DT.second t /\ DT.microsecond due = DT.microsecond t.
Proof.
  intros Hwf Hd Ho. unfold DT.add_days.
  destruct (Z.ltb_spec 999999999 (Z.abs d)) as [H | _]; [lia |].
  set (o := DT.ymd2ord (DT.year t) (DT.month t) (DT.day t) + d) in *.
  destruct (Z.ltb_spec 0 o) as [_ | H]; [| lia].
  destruct (Z.leb_spec o DT.MAXORDINAL) as [_ | H]; [| lia].
  cbn [andb].
  pose proof (ymd2ord_ord2ymd o ltac:(lia)) as S.
  destruct (DT.ord2ymd o) as [[y m] dd]. destruct S as (Hy & Hok & E).
  pose proof (ord2ymd_year_max o y m dd ltac:(lia) Hok E) as Hmax.
  pose proof (check_fields_bounds _ _ _ _ _ _ _ Hwf) as B.
  assert (C : DT.check_fields y m dd (DT.hour t) (DT.minute t) (DT.second t)
                (DT.microsecond t) = true)
    by (apply check_fields_intro; try assumption; lia).
  unfold DT.new. rewrite C. eexists. split; [reflexivity |].
  split; [exact C |]. cbn. auto.
Qed.

(** Outside of the calendar, or with more days than a [timedelta] holds,
    it is an [OverflowError]. *)
Lemma add_days_raises (t : DT.datetime) (d : Z) :
  ~ (Z.abs d <= 999999999 /\
     1 <= DT.ymd2ord (DT.year t) (DT.month t) (DT.day t) + d
       <= DT.MAXORDINAL) ->
  exists msg, DT.add_days t d = Raise (OverflowError msg).
Proof.
  intros H. unfold DT.add_days.
  destruct (Z.ltb_spec 999999999 (Z.abs d)) as [_ | Hd]; [eauto |].
  destruct (Z.ltb_spec 0 (DT.ymd2ord (DT.year t) (DT.month t) (DT.day t) + d));
    [| cbn; eauto].
  destruct (Z.leb_spec (DT.ymd2ord (DT.year t) (DT.month t) (DT.day t) + d)
              DT.MAXORDINAL); [| cbn; eauto].
  exfalso. apply H. lia.
Qed.

(** Two moments at the same time of day compare as their days do. *)
Lemma gt_same_time (a b : DT.datetime) :
  DT.wf a -> DT.wf b ->
  DT.hour a = DT.hour b -> DT.minute a = DT.minute b ->
  DT.second a = DT.second b -> DT.microsecond a = DT.microsecond b ->
  DT.gt a b =
  (DT.ymd2ord (DT.year b) (DT.month b) (DT.day b)
   <? DT.ymd2ord (DT.year a) (DT.month a) (DT.day a)).
Proof.
  intros Wa Wb Eh Em Es Eu.
  apply wf_date_ok in Wa, Wb.
  unfold DT.gt, DT.fields. cbn [DT.tuple_gt]. rewrite Eh, Em, Es, Eu.
  rewrite !Z.eqb_refl, !Z.ltb_irrefl. cbn [andb orb].
  pose proof (ymd2ord_lt (DT.year a) (DT.month a) (DT.day a)
                (DT.year b) (DT.month b) (DT.day b) Wa Wb) as Lab.
  pose proof (ymd2ord_lt (DT.year b) (DT.month b) (DT.day b)
                (DT.year a) (DT.month a) (DT.day a) Wb Wa) as Lba.
  destruct (Z.ltb_spec (DT.year b) (DT.year a)) as [Hy | Hy]; cbn [orb].
  { symmetry. apply Z.ltb_lt. apply Lba. lia. }
  destruct (Z.eqb_spec (DT.year a) (DT.year b)) as [Ey | Ey]; cbn [andb].
  2: { symmetry. apply Z.ltb_ge. apply Z.lt_le_incl. apply Lab. lia. }
  destruct (Z.ltb_spec (DT.month b) (DT.month a)) as [Hm | Hm]; cbn [orb].
  { symmetry. apply Z.ltb_lt. apply Lba. lia. }
  destruct (Z.eqb_spec (DT.month a) (DT.month b)) as [Emo | Emo]; cbn [andb].
  2: { symmetry. apply Z.ltb_ge. apply Z.lt_le_incl. apply Lab. lia. }
  destruct (Z.ltb_spec (DT.day b) (DT.day a)) as [Hd | Hd]; cbn [orb].
  { symmetry. apply Z.ltb_lt. apply Lba. lia. }
  destruct (Z.eqb_spec (DT.day a) (DT.day b)) as [Ed | Ed]; cbn [andb].
  - symmetry. apply Z.ltb_ge. rewrite Ey, Emo, Ed. lia.
  - symmetry. apply Z.ltb_ge. apply Z.lt_le_incl. apply Lab. lia.
Qed.

Lemma gt_add_days (now due : DT.datetime) (d : Z) :
  DT.wf now -> DT.add_days now d = Ok due -> DT.gt now due = (d <? 0).
Proof.
  intros Hwf Hadd.
  destruct (Z.le_gt_cases (Z.abs d) 999999999) as [Hd | Hd].
  2: { destruct (add_days_raises now d ltac:(lia)) as [msg E]. congruence. }
  set (o := DT.ymd2ord (DT.year now) (DT.month now) (DT.day now)).
  assert (Ho : 1 <= o + d <= DT.MAXORDINAL).
  { destruct (Z.le_gt_cases 1 (o + d)) as [H1 | H1];
      [destruct (Z.le_gt_cases (o + d) DT.MAXORDINAL) as [H2 | H2];
         [lia |] |];
      (destruct (add_days_raises now d) as [msg E];
       [fold o; lia | congruence]). }
  destruct (add_days_ok now d Hwf Hd Ho) as (due' & E & Wd & Eo & Eh & Em & Es & Eu).
  rewrite E in Hadd. injection Hadd as <-.
  rewrite gt_same_time by (try assumption; congruence).
  rewrite Eo. fold o.
  destruct (Z.ltb_spec d 0); [apply Z.ltb_lt | apply Z.ltb_ge]; lia.
Qed.

(** ** [Book.borrow] and [Book.is_overdue] *)

(** X1.  [borrow] on an available book returns exactly when [days] fits a
    [timedelta] and the day [days] days from now is a day of the years 1 to
    9999; the due date is then that day at the time of day of [now].
    Otherwise it raises [OverflowError], and leaves the book marked as out
    to the member with the due date it had. *)
Theorem book_borrow_outcome (now : DT.datetime) (member_id : string)
    (days : Z) (b : Book.t) :
  DT.wf now ->
  Book.available b = true ->
  let day_of_now := DT.ymd2ord (DT.year now) (DT.month now) (DT.day now) in
  let in_calendar :=
    Z.abs days <= 999999999 /\ 1 <= day_of_now + days <= DT.MAXORDINAL in
  (in_calendar ->
   exists due,
     Book.borrow now member_id days b = (book_borrowed b member_id due, Ok tt) /\
     DT.ymd2ord (DT.year due) (DT.month due) (DT.day due) = day_of_now + days /\
     DT.hour due = DT.hour now /\ DT.minute due = DT.minute now /\
     DT.second due = DT.second now /\
     DT.microsecond due = DT.microsecond now) /\
  (~ in_calendar ->
   exists msg,
     Book.borrow now member_id days b
     = (Book.mk (Book.isbn b) (Book.title b) (Book.author b) (Book.year b)
          false (Some member_id) (Book.due_date b),
        Raise (OverflowError msg))).
Proof.
  intros Hwf Hav day_of_now in_calendar. unfold Book.borrow. rewrite Hav.
  cbn [negb]. split.
  - intros [Hd Ho].
    destruct (add_days_ok now days Hwf Hd Ho)
      as (due & E & _ & Eo & Eh & Em & Es & Eu).
    exists due. rewrite E. repeat split; assumption.
  - intros Hn. destruct (add_days_raises now days Hn) as [msg E].
    exists msg. rewrite E. reflexivity.
Qed.

(** X2.  At the moment it is borrowed a book is overdue exactly when
    [days] is negative: [borrow] takes any number of days. *)
Theorem is_overdue_at_borrow (now : DT.datetime) (member_id : string)
    (days : Z) (b b' : Book.t) :
  DT.wf now ->
  Book.borrow now member_id days b = (b', Ok tt) ->
  Book.is_overdue now b' = (days <? 0).
Proof.
  intros Hwf. unfold Book.borrow.
  destruct (negb (Book.available b)); [discriminate |].
  destruct (DT.add_days now days) as [due | e] eqn:E; [| discriminate].
  intros [= <-]. unfold Book.is_overdue. cbn.
  apply gt_add_days; assumption.
Qed.

Lemma tuple_gt_trans (a b c : list Z) :
  List.length a = List.length b -> List.length b = List.length c ->
  DT.tuple_gt a c = true -> DT.tuple_gt a b = false ->
  DT.tuple_gt b c = true.
Proof.
  revert b c. induction a as [| x a IH]; intros [| y b] [| z c] L1 L2;
    cbn in *; try discriminate; try congruence.
  injection L1 as L1. injection L2 as L2. specialize (IH b c L1 L2).
  intros Hac Hab.
  destruct (Z.ltb_spec z x), (Z.eqb_spec x z), (Z.ltb_spec y x),
    (Z.eqb_spec x y), (Z.ltb_spec z y), (Z.eqb_spec y z);
    cbn in *; try discriminate; try reflexivity; try lia; auto.
Qed.

(** X3.  A book that is overdue is overdue at every reading of the clock
    that is not earlier. *)
Theorem is_overdue_stays (t t' : DT.datetime) (b : Book.t) :
  Book.is_overdue t b = true ->
  DT.gt t t' = false ->
  Book.is_overdue t' b = true.
Proof.
  unfold Book.is_overdue. destruct (Book.due_date b) as [d |]; [| discriminate].
  unfold DT.gt. intros H1 H2.
  apply (tuple_gt_trans (DT.fields t)); try reflexivity; assumption.
Qed.

(** ** The list of a member *)

Lemma mem_false_not_In (x : string) (l : list string) :
  Member.mem x l = false <-> ~ In x l.
Proof.
  rewrite <- mem_In. destruct (Member.mem x l); split; congruence.
Qed.

Lemma remove_first_app_last (x : string) (l : list string) :
  ~ In x l -> Member.remove_first x (l ++ [x]) = l.
Proof.
  induction l as [| y l IH]; cbn; intros H.
  - rewrite String.eqb_refl. reflexivity.
  - destruct (String.eqb_spec x y) as [-> | Hn]; [tauto |].
    f_equal. apply IH. tauto.
Qed.

Lemma count_occ_remove_first (x y : string) (l : list string) :
  count_occ string_dec (Member.remove_first x l) y
  = if string_dec x y then Nat.pred (count_occ string_dec l y)
    else count_occ string_dec l y.
Proof.
  induction l as [| z l IH]; cbn.
  - destruct (string_dec x y); reflexivity.
  - destruct (String.eqb_spec x z) as [-> | Hn].
    + destruct (string_dec z y); reflexivity.
    + cbn. destruct (string_dec z y) as [-> | Hzy].
      * destruct (string_dec x y); [congruence |]. rewrite IH.
        destruct (string_dec x y); [congruence | reflexivity].
      * exact IH.
Qed.

(** X4.  [add_borrowed_book] is idempotent, puts a new ISBN last and keeps
    the others in place, and keeps a list without duplicates so. *)
Theorem add_borrowed_book_idempotent (isbn : string) (m : Member.t) :
  let m1 := Member.add_borrowed_book isbn m in
  Member.add_borrowed_book isbn m1 = m1 /\
  In isbn (Member.borrowed_books m1) /\
  (In isbn (Member.borrowed_books m) -> m1 = m) /\
  (~ In isbn (Member.borrowed_books m) ->
   Member.borrowed_books m1 = (Member.borrowed_books m ++ [isbn])%list) /\
  (NoDup (Member.borrowed_books m) -> NoDup (Member.borrowed_books m1)).
Proof.
  cbn zeta. unfold Member.add_borrowed_book.
  destruct (Member.mem isbn (Member.borrowed_books m)) eqn:E; cbn [negb].
  - rewrite E. cbn [negb]. apply mem_In in E.
    repeat split; auto; tauto.
  - apply mem_false_not_In in E.
    unfold Member.set_borrowed_books. cbn [Member.borrowed_books].
    assert (Hin : Member.mem isbn (Member.borrowed_books m ++ [isbn]) = true)
      by (apply mem_In, in_or_app; right; left; reflexivity).
    rewrite Hin. cbn [negb]. repeat split.
    + apply in_or_app. right. left. reflexivity.
    + tauto.
    + intros Hnd. apply NoDup_app; [assumption | repeat constructor; intros [] |].
      intros x Hx [<- | []]. contradiction.
Qed.

Lemma remove_add_borrowed_book (isbn : string) (m : Member.t) :
  ~ In isbn (Member.borrowed_books m) ->
  Member.remove_borrowed_book isbn (Member.add_borrowed_book isbn m) = m.
Proof.
  intros E. unfold Member.add_borrowed_book, Member.remove_borrowed_book.
  assert (E' := E). apply mem_false_not_In in E'. rewrite E'.
  unfold Member.set_borrowed_books.
  cbn [negb Member.borrowed_books Member.member_id Member.name
         Member.email Member.max_books].
  assert (Hin : Member.mem isbn (Member.borrowed_books m ++ [isbn]) = true)
    by (apply mem_In, in_or_app; right; left; reflexivity).
  rewrite Hin.
  rewrite remove_first_app_last by assumption. destruct m; reflexivity.
Qed.

(** X5.  [remove_borrowed_book] takes away one occurrence of the ISBN, the
    others and the other ISBNs stay; it does nothing when the ISBN is not
    in the list, and undoes an [add_borrowed_book] of an ISBN that was
    not. *)
Theorem remove_borrowed_book_first_occurrence (isbn : string) (m : Member.t) :
  let m1 := Member.remove_borrowed_book isbn m in
  count_occ string_dec (Member.borrowed_books m1) isbn
  = Nat.pred (count_occ string_dec (Member.borrowed_books m) isbn) /\
  (forall other, other <> isbn ->
     count_occ string_dec (Member.borrowed_books m1) other
     = count_occ string_dec (Member.borrowed_books m) other) /\
  (~ In isbn (Member.borrowed_books m) -> m1 = m) /\
  (~ In isbn (Member.borrowed_books m) ->
   Member.remove_borrowed_book isbn (Member.add_borrowed_book isbn m) = m).
Proof.
  cbn zeta. split; [| split; [| split]].
  - unfold Member.remove_borrowed_book.
    destruct (Member.mem isbn (Member.borrowed_books m)) eqn:E.
    + cbn. rewrite count_occ_remove_first.
      destruct (string_dec isbn isbn); [reflexivity | congruence].
    + apply mem_false_not_In in E.
      apply (count_occ_not_In string_dec) in E. rewrite E. reflexivity.
  - intros other Hn. unfold Member.remove_borrowed_book.
    destruct (Member.mem isbn (Member.borrowed_books m)); [| reflexivity].
    cbn. rewrite count_occ_remove_first.
    destruct (string_dec isbn other); [congruence | reflexivity].
  - intros E. apply mem_false_not_In in E.
    unfold Member.remove_borrowed_book. rewrite E. reflexivity.
  - apply remove_add_borrowed_book.
Qed.

(** ** Borrowing and returning, again *)

Lemma usable_dec (isbn member_id : string) :
  {usable_isbn isbn /\ usable_member_id member_id} +
  {~ (usable_isbn isbn /\ usable_member_id member_id)}.
Proof.
  unfold usable_isbn, usable_member_id.
  destruct (Z_le_dec 10 (len isbn));
    destruct (string_dec member_id ""); tauto.
Qed.

(** What [borrow_book] can do to the catalog. *)
Lemma borrow_book_steps (now : DT.datetime) (isbn member_id : string)
    (days : Z) (self self' : Library.t) (r : result unit) :
  Library.borrow_book now isbn member_id days self = (self', r) ->
  (self' = self /\ exists e, r = Raise e) \/
  (exists book member,
      dict_get isbn (Library.books self) = Some book /\
      dict_get member_id (Library.members self) = Some member /\
      Book.available book = true /\ Member.can_borrow member = true /\
      ((exists due,
           r = Ok tt /\
           self' = with_member member_id (Member.add_borrowed_book isbn member)
                     (with_book isbn (book_borrowed book member_id due) self))
       \/
       (exists e,
           r = Raise e /\
           self' = with_book isbn (book_half_borrowed book member_id) self))).
Proof.
  destruct (usable_dec isbn member_id) as [[Hi Hm] | Hn].
  2: { destruct (borrow_book_unusable now isbn member_id days self Hn)
         as [msg E]. rewrite E. intros [= <- <-]. left. eauto. }
  rewrite borrow_book_unfold by assumption.
  destruct (dict_get isbn (Library.books self)) as [book |] eqn:Eb;
    [| intros [= <- <-]; left; eauto].
  destruct (dict_get member_id (Library.members self)) as [member |] eqn:Em;
    [| intros [= <- <-]; left; eauto].
  destruct (Book.available book) eqn:Ea; cbn [negb];
    [| intros [= <- <-]; left; eauto].
  destruct (Member.can_borrow member) eqn:Ec; cbn [negb];
    [| intros [= <- <-]; left; eauto].
  cbn zeta. unfold Book.borrow. rewrite Ea. cbn [negb].
  destruct (DT.add_days now days) as [due | e]; cbn [fst snd];
    intros [= <- <-]; right; exists book, member;
    repeat (split; [assumption || reflexivity |]).
  - left. exists due. split; reflexivity.
  - right. exists e. split; reflexivity.
Qed.

Lemma dict_set_set {V : Type} (k : string) (v v' : V) (d : dict V) :
  dict_set k v (dict_set k v' d) = dict_set k v d.
Proof.
  induction d as [| [k' x] d IH]; cbn.
  - rewrite String.eqb_refl. reflexivity.
  - destruct (String.eqb k k') eqn:E; cbn.
    + rewrite String.eqb_refl. reflexivity.
    + rewrite E, IH. reflexivity.
Qed.

(** X6.  Through the catalog: a [borrow_book] that returns, followed by
    [return_book] with the same arguments, gives back the catalog as it
    was, for a book that satisfies the invariant and a member who did not
    list it. *)
Theorem borrow_then_return_restores_catalog (now : DT.datetime)
    (isbn member_id : string) (days : Z) (self lent : Library.t) :
  (forall book, dict_get isbn (Library.books self) = Some book ->
                Book.invariant book) ->
  (forall member, dict_get member_id (Library.members self) = Some member ->
                  ~ In isbn (Member.borrowed_books member)) ->
  Library.borrow_book now isbn member_id days self = (lent, Ok tt) ->
  Library.return_book isbn member_id lent = (self, Ok tt).
Proof.
  intros Hinv Hnew Hb.
  destruct (usable_dec isbn member_id) as [[Hi Hm] | Hn].
  2: { destruct (borrow_book_unusable now isbn member_id days self Hn)
         as [msg E]. congruence. }
  apply borrow_book_steps in Hb.
  destruct Hb as [[_ [e He]] | (book & member & Eb & Em & Ea & Ec & Hb)];
    [discriminate |].
  destruct Hb as [(due & _ & ->) | (e & He & _)]; [| discriminate].
  rewrite return_book_unfold by assumption.
  unfold with_member, with_book.
  cbn [Library.books Library.members Library.books_file
         Library.members_file].
  rewrite dict_get_set_same, dict_get_set_same.
  unfold book_borrowed at 1. cbn [Book.borrowed_by opt_str_eqb].
  rewrite String.eqb_refl. cbn [negb].
  unfold Book.return_book, book_borrowed.
  cbn [Book.available Book.set_available Book.set_borrowed_by
         Book.set_due_date Book.isbn Book.title Book.author Book.year
         Book.borrowed_by Book.due_date fst snd].
  cbn [Library.books Library.members Library.books_file
         Library.members_file].
  rewrite !dict_set_set.
  rewrite remove_add_borrowed_book by (apply Hnew; assumption).
  destruct (Hinv book Eb) as [_ Hav]. destruct (proj1 Hav Ea) as [Hby Hdue].
  match goal with
  | |- context [dict_set isbn ?b (Library.books self)] =>
      replace b with book
        by (clear - Ea Hby Hdue; destruct book; cbn in Ea, Hby, Hdue |- *;
            subst; reflexivity)
  end.
  rewrite (dict_set_same_value isbn book) by assumption.
  rewrite (dict_set_same_value member_id member) by assumption.
  destruct self; reflexivity.
Qed.

Lemma add_borrowed_book_NoDup (isbn : string) (m : Member.t) :
  NoDup (Member.borrowed_books m) ->
  NoDup (Member.borrowed_books (Member.add_borrowed_book isbn m)).
Proof.
  intros Hnd. unfold Member.add_borrowed_book.
  destruct (Member.mem isbn (Member.borrowed_books m)) eqn:E; cbn [negb];
    [assumption |].
  apply mem_false_not_In in E. cbn.
  apply NoDup_app; [assumption | repeat constructor; intros [] |].
  intros x Hx [<- | []]. contradiction.
Qed.

Lemma add_borrowed_book_length (isbn : string) (m : Member.t) :
  (List.length (Member.borrowed_books (Member.add_borrowed_book isbn m))
   <= S (List.length (Member.borrowed_books m)))%nat /\
  Member.max_books (Member.add_borrowed_book isbn m) = Member.max_books m.
Proof.
  unfold Member.add_borrowed_book.
  destruct (Member.mem isbn (Member.borrowed_books m)); cbn [negb].
  - split; [lia | reflexivity].
  - cbn. rewrite length_app. cbn. split; [lia | reflexivity].
Qed.

Lemma remove_first_In (x y : string) (l : list string) :
  In y (Member.remove_first x l) -> In y l.
Proof.
  induction l as [| z l IH]; cbn; [tauto |].
  destruct (String.eqb x z); cbn; tauto.
Qed.

Lemma remove_first_keeps_NoDup (x : string) (l : list string) :
  NoDup l -> NoDup (Member.remove_first x l).
Proof.
  induction 1 as [| z l Hz Hnd IH]; cbn; [constructor |].
  destruct (String.eqb x z); [assumption |].
  constructor; [| assumption]. intro H. apply Hz. eapply remove_first_In.
  eassumption.
Qed.

Lemma remove_first_length (x : string) (l : list string) :
  (List.length (Member.remove_first x l) <= List.length l)%nat.
Proof.
  induction l as [| z l IH]; cbn; [lia |].
  destruct (String.eqb x z); cbn; lia.
Qed.

Lemma remove_borrowed_book_NoDup (isbn : string) (m : Member.t) :
  NoDup (Member.borrowed_books m) ->
  NoDup (Member.borrowed_books (Member.remove_borrowed_book isbn m)).
Proof.
  intros Hnd. unfold Member.remove_borrowed_book.
  destruct (Member.mem isbn (Member.borrowed_books m)); [| assumption].
  cbn. apply remove_first_keeps_NoDup. assumption.
Qed.

Lemma remove_borrowed_book_length (isbn : string) (m : Member.t) :
  (List.length (Member.borrowed_books (Member.remove_borrowed_book isbn m))
   <= List.length (Member.borrowed_books m))%nat /\
  Member.max_books (Member.remove_borrowed_book isbn m) = Member.max_books m.
Proof.
  unfold Member.remove_borrowed_book.
  destruct (Member.mem isbn (Member.borrowed_books m)).
  - cbn. split; [apply remove_first_length | reflexivity].
  - split; [lia | reflexivity].
Qed.

Lemma remove_borrowed_book_In (isbn x : string) (m : Member.t) :
  In x (Member.borrowed_books (Member.remove_borrowed_book isbn m)) ->
  In x (Member.borrowed_books m).
Proof.
  unfold Member.remove_borrowed_book.
  destruct (Member.mem isbn (Member.borrowed_books m)); [| tauto].
  cbn. apply remove_first_In.
Qed.

Lemma add_borrowed_book_inv (isbn x : string) (m : Member.t) :
  In x (Member.borrowed_books (Member.add_borrowed_book isbn m)) ->
  x = isbn \/ In x (Member.borrowed_books m).
Proof.
  unfold Member.add_borrowed_book.
  destruct (Member.mem isbn (Member.borrowed_books m)); cbn [negb]; [tauto |].
  cbn. intros H. apply in_app_or in H. destruct H as [H | [<- | []]]; tauto.
Qed.

Lemma member_create_fields (member_id name email : string) (m : Member.t) :
  Member.create member_id name email = Ok m ->
  m = Member.mk member_id name email [] 3.
Proof.
  unfold Member.create, Member.__init__.
  destruct (Member.__post_init__ _); cbn; [| discriminate].
  intros [= <-]. reflexivity.
Qed.

(** A property of every member of the catalog that the catalog operations
    keep, given what they do to one member. *)
Lemma run_op_members (P : Member.t -> Prop) (now : DT.datetime) :
  (forall isbn m, Member.can_borrow m = true -> P m ->
                  P (Member.add_borrowed_book isbn m)) ->
  (forall isbn m, P m -> P (Member.remove_borrowed_book isbn m)) ->
  (forall member_id name email, P (Member.mk member_id name email [] 3)) ->
  forall (o : Library.op) (self self' : Library.t) (r : result unit),
    Library.run_op now o self = (self', r) ->
    (forall k m, dict_get k (Library.members self) = Some m -> P m) ->
    forall k m, dict_get k (Library.members self') = Some m -> P m.
Proof.
  intros Hadd Hrm Hnew o self self' r Hop Hall k m.
  destruct o as [i t a y | mid n e | i mid d | i mid | e];
    cbn [Library.run_op] in Hop.
  - unfold Library.bind in Hop.
    destruct (Library.add_book now i t a y self) as [s1 [b |]] eqn:E;
      apply add_book_outcomes in E;
      destruct E as [[-> _] | (b' & _ & _ & _ & _ & ->)];
      injection Hop as <- _; try apply Hall.
    all: unfold with_book; cbn [Library.members]; apply Hall.
  - unfold Library.bind in Hop.
    destruct (Library.add_member mid n e self) as [s1 [b |]] eqn:E;
      apply add_member_outcomes in E;
      destruct E as [[-> _] | (m' & Hc & _ & ->)];
      injection Hop as <- _; try apply Hall.
    all: unfold with_member; cbn [Library.members]; rewrite dict_get_set;
      destruct (String.eqb mid k); [| apply Hall];
      intros [= <-]; apply member_create_fields in Hc; subst m'; apply Hnew.
  - apply borrow_book_steps in Hop.
    destruct Hop as [[-> _] | (book & member & Eb & Em & Ea & Ec & Hop)];
      [apply Hall |].
    destruct Hop as [(due & _ & ->) | (e & _ & ->)];
      unfold with_member, with_book; cbn [Library.members]; [| apply Hall].
    rewrite dict_get_set. destruct (String.eqb mid k); [| apply Hall].
    intros [= <-]. apply Hadd; [assumption |]. eapply Hall. eassumption.
  - apply return_book_outcomes in Hop.
    destruct Hop as [[-> _] | (book & member & Eb & Em & Eby & _ & ->)];
      [apply Hall |].
    unfold with_member, with_book; cbn [Library.members].
    rewrite dict_get_set. destruct (String.eqb mid k); [| apply Hall].
    intros [= <-]. apply Hrm. eapply Hall. eassumption.
  - injection Hop as <- _. apply Hall.
Qed.

Lemma run_ops_members (P : Member.t -> Prop) (now : DT.datetime) :
  (forall isbn m, Member.can_borrow m = true -> P m ->
                  P (Member.add_borrowed_book isbn m)) ->
  (forall isbn m, P m -> P (Member.remove_borrowed_book isbn m)) ->
  (forall member_id name email, P (Member.mk member_id name email [] 3)) ->
  forall (batch : list Library.op) (self self' : Library.t) (r : result unit),
    Library.run_ops now batch self = (self', r) ->
    (forall k m, dict_get k (Library.members self) = Some m -> P m) ->
    forall k m, dict_get k (Library.members self') = Some m -> P m.
Proof.
  intros Hadd Hrm Hnew batch.
  induction batch as [| o batch IH]; intros self self' r;
    cbn [Library.run_ops].
  - intros [= <- _] H. exact H.
  - unfold Library.bind.
    destruct (Library.run_op now o self) as [s1 [[] | e]] eqn:Hop.
    + intros Hrest Hall. eapply IH; [eassumption |].
      eapply run_op_members; eassumption.
    + intros [= <- _] Hall. eapply run_op_members; eassumption.
Qed.

(** X7.  No batch of catalog operations, whatever its outcome, takes a
    member over the member's limit or puts an ISBN twice into a member's
    list. *)
Theorem batch_keeps_member_lists (now : DT.datetime)
    (batch : list Library.op) (self self' : Library.t) (r : result unit) :
  Library.run_ops now batch self = (self', r) ->
  (within_limits self -> within_limits self') /\
  (no_duplicate_loans self -> no_duplicate_loans self').
Proof.
  intros Hrun. split; intros H.
  - unfold within_limits in *.
    apply (run_ops_members
             (fun m => Z.of_nat (List.length (Member.borrowed_books m))
                       <= Member.max_books m) now) with (4 := Hrun);
      [| | | exact H].
    + intros isbn m Hc Hm. unfold Member.can_borrow in Hc.
      apply Z.ltb_lt in Hc.
      destruct (add_borrowed_book_length isbn m) as [L ->]. lia.
    + intros isbn m Hm.
      destruct (remove_borrowed_book_length isbn m) as [L ->]. lia.
    + intros. cbn. lia.
  - unfold no_duplicate_loans in *.
    apply (run_ops_members (fun m => NoDup (Member.borrowed_books m)) now)
      with (4 := Hrun); [| | | exact H].
    + intros isbn m _. apply add_borrowed_book_NoDup.
    + intros isbn m. apply remove_borrowed_book_NoDup.
    + intros. cbn. constructor.
Qed.

Lemma book_create_fields (now : DT.datetime) (isbn title author : string)
    (year : Z) (b : Book.t) :
  Book.create now isbn title author year = Ok b ->
  b = Book.mk isbn title author year true None None.
Proof.
  unfold Book.create, Book.__init__.
  destruct (Book.__post_init__ _ _); cbn; [| discriminate].
  intros [= <-]. reflexivity.
Qed.

Lemma run_op_loans_backed (now : DT.datetime) (o : Library.op)
    (self self' : Library.t) (r : result unit) :
  Library.run_op now o self = (self', r) ->
  no_duplicate_loans self -> loans_backed self -> loans_backed self'.
Proof.
  intros Hop Hnd Hlb k m x.
  destruct o as [i t a y | mid n e | i mid d | i mid | e];
    cbn [Library.run_op] in Hop.
  - unfold Library.bind in Hop.
    destruct (Library.add_book now i t a y self) as [s1 [b |]] eqn:E;
      apply add_book_outcomes in E;
      destruct E as [[-> _] | (b' & _ & _ & Hnone & _ & ->)];
      injection Hop as <- _; try apply Hlb.
    all: unfold with_book; cbn [Library.members Library.books];
      intros Hm Hx; destruct (Hlb k m x Hm Hx) as (b0 & Hb0 & Hav & Hby);
      exists b0; rewrite dict_get_set;
      destruct (String.eqb_spec i x) as [-> | _]; [congruence | auto].
  - unfold Library.bind in Hop.
    destruct (Library.add_member mid n e self) as [s1 [b |]] eqn:E;
      apply add_member_outcomes in E;
      destruct E as [[-> _] | (m' & Hc & _ & ->)];
      injection Hop as <- _; try apply Hlb.
    all: unfold with_member; cbn [Library.members Library.books];
      rewrite dict_get_set; destruct (String.eqb mid k); [| apply Hlb];
      intros [= <-]; apply member_create_fields in Hc; subst m';
      intros [].
  - apply borrow_book_steps in Hop.
    destruct Hop as [[-> _] | (book & member & Eb & Em & Ea & Ec & Hop)];
      [apply Hlb |].
    assert (Hfree : forall k0 m0, dict_get k0 (Library.members self) = Some m0 ->
                                  ~ In i (Member.borrowed_books m0)).
    { intros k0 m0 Hm0 Hin.
      destruct (Hlb k0 m0 i Hm0 Hin) as (b0 & Hb0 & Hav & _). congruence. }
    destruct Hop as [(due & _ & ->) | (e & _ & ->)];
      unfold with_member, with_book; cbn [Library.members Library.books].
    + rewrite dict_get_set. destruct (String.eqb_spec mid k) as [-> | Hk].
      * intros [= <-] Hx. apply add_borrowed_book_inv in Hx.
        destruct Hx as [-> | Hx].
        -- eexists. rewrite dict_get_set_same. split; [reflexivity |].
           split; reflexivity.
        -- destruct (Hlb k member x Em Hx) as (b0 & Hb0 & Hav & Hby).
           exists b0. rewrite dict_get_set.
           destruct (String.eqb_spec i x) as [-> | _]; [congruence | auto].
      * intros Hm Hx.
        destruct (Hlb k m x Hm Hx) as (b0 & Hb0 & Hav & Hby).
        exists b0. rewrite dict_get_set.
        destruct (String.eqb_spec i x) as [-> | _]; [congruence | auto].
    + intros Hm Hx.
      destruct (Hlb k m x Hm Hx) as (b0 & Hb0 & Hav & Hby).
      exists b0. rewrite dict_get_set.
      destruct (String.eqb_spec i x) as [-> | _]; [congruence | auto].
  - apply return_book_outcomes in Hop.
    destruct Hop as [[-> _] | (book & member & Eb & Em & Eby & _ & ->)];
      [apply Hlb |].
    unfold with_member, with_book; cbn [Library.members Library.books].
    rewrite dict_get_set. destruct (String.eqb_spec mid k) as [-> | Hk].
    + intros [= <-] Hx.
      assert (x <> i).
      { intros ->. revert Hx. apply remove_borrowed_book_gone.
        eapply Hnd. eassumption. }
      apply remove_borrowed_book_In in Hx.
      destruct (Hlb k member x Em Hx) as (b0 & Hb0 & Hav & Hby).
      exists b0. rewrite dict_get_set_other by congruence. auto.
    + intros Hm Hx.
      destruct (Hlb k m x Hm Hx) as (b0 & Hb0 & Hav & Hby).
      exists b0. rewrite dict_get_set.
      destruct (String.eqb_spec i x) as [-> | _]; [congruence | auto].
  - injection Hop as <- _. apply Hlb.
Qed.

(** X8.  In the direction from members to books the catalog stays
    consistent under every batch of catalog operations, whatever its
    outcome, the failed [borrow] of an overflowing due date included: each
    ISBN a member lists is a book that is out to that member. *)
Theorem batch_keeps_loans_backed (now : DT.datetime)
    (batch : list Library.op) :
  forall (self self' : Library.t) (r : result unit),
    Library.run_ops now batch self = (self', r) ->
    no_duplicate_loans self -> loans_backed self -> loans_backed self'.
Proof.
  induction batch as [| o batch IH]; intros self self' r;
    cbn [Library.run_ops].
  - intros [= <- _] _ H. exact H.
  - unfold Library.bind.
    destruct (Library.run_op now o self) as [s1 [[] | e]] eqn:Hop.
    + intros Hrest Hnd Hlb. eapply IH; [eassumption | |].
      * unfold no_duplicate_loans in *.
        apply (run_op_members (fun m => NoDup (Member.borrowed_books m)) now)
          with (4 := Hop); [| | | exact Hnd].
        -- intros isbn m _. apply add_borrowed_book_NoDup.
        -- intros isbn m. apply remove_borrowed_book_NoDup.
        -- intros. cbn. constructor.
      * eapply run_op_loans_backed; eassumption.
    + intros [= <- _] Hnd Hlb. eapply run_op_loans_backed; eassumption.
Qed.

(** ** Adding and finding *)

Lemma dict_mem_get {V : Type} (k : string) (d : dict V) :
  dict_mem k d = false <-> dict_get k d = None.
Proof.
  unfold dict_mem. destruct (dict_get k d); split; congruence.
Qed.

(** X9.  A book that [add_book] returns is the one [get_book] finds; it is
    last in the mapping, and every other lookup is as before.  An ISBN that
    the catalog holds is never given a new book. *)
Theorem add_book_then_get_book (now : DT.datetime)
    (isbn title author : string) (year : Z) (self : Library.t) :
  (forall self' book,
     Library.add_book now isbn title author year self = (self', Ok book) ->
     book = Book.mk isbn title author year true None None /\
     Library.books self' = (Library.books self ++ [(isbn, book)])%list /\
     Library.members self' = Library.members self /\
     Library.get_book isbn self' = (self', Ok book) /\
     (forall other, other <> isbn ->
        snd (Library.get_book other self') = snd (Library.get_book other self)))
  /\
  (forall held,
     dict_get isbn (Library.books self) = Some held ->
     exists msg,
       Library.add_book now isbn title author year self
       = (self, Raise (ValueError msg))).
Proof.
  split.
  - intros self' book.
    unfold Library.add_book, Library.log_operation, Library.validate_isbn.
    destruct (Z.ltb_spec (len isbn) 10) as [Hl | Hl];
      [discriminate |].
    destruct (dict_mem isbn (Library.books self)) eqn:Hmem; [discriminate |].
    apply dict_mem_get in Hmem.
    unfold Library.bind, Library.lift, Library.on_book, Library.ret.
    destruct (Book.create now isbn title author year) as [b |] eqn:Hc;
      [| discriminate].
    cbn [fst snd]. intros [= <- <-].
    cbn [Library.books Library.members].
    split; [eapply book_create_fields; eassumption |].
    split; [apply dict_set_new; assumption |].
    split; [reflexivity |].
    unfold Library.get_book, Library.validate_isbn, Library.ret, Library.raise.
    destruct (Z.ltb_spec (len isbn) 10) as [Hl' | _];
      [lia |].
    cbn [Library.books]. rewrite dict_get_set_same. split; [reflexivity |].
    intros other Hother.
    destruct (len other <? 10); [reflexivity |].
    cbn beta. cbn [Library.books].
    rewrite dict_get_set_other by congruence.
    destruct (dict_get other (Library.books self)); reflexivity.
  - intros held Hheld.
    unfold Library.add_book, Library.log_operation, Library.validate_isbn.
    destruct (len isbn <? 10); [eexists; reflexivity |].
    unfold dict_mem. rewrite Hheld. eexists. reflexivity.
Qed.

(** X10.  The same for [add_member] and [get_member]. *)
Theorem add_member_then_get_member (member_id name email : string)
    (self : Library.t) :
  (forall self' member,
     Library.add_member member_id name email self = (self', Ok member) ->
     member = Member.mk member_id name email [] 3 /\
     Library.members self'
     = (Library.members self ++ [(member_id, member)])%list /\
     Library.books self' = Library.books self /\
     Library.get_member member_id self' = (self', Ok member) /\
     (forall other, other <> member_id ->
        snd (Library.get_member other self')
        = snd (Library.get_member other self)))
  /\
  (forall held,
     dict_get member_id (Library.members self) = Some held ->
     exists msg,
       Library.add_member member_id name email self
       = (self, Raise (ValueError msg))).
Proof.
  split.
  - intros self' member.
    unfold Library.add_member, Library.log_operation.
    destruct (dict_mem member_id (Library.members self)) eqn:Hmem;
      [discriminate |].
    apply dict_mem_get in Hmem.
    unfold Library.bind, Library.lift, Library.on_member, Library.ret.
    destruct (Member.create member_id name email) as [m |] eqn:Hc;
      [| discriminate].
    cbn [fst snd]. intros [= <- <-].
    cbn [Library.books Library.members].
    split; [eapply member_create_fields; eassumption |].
    split; [apply dict_set_new; assumption |].
    split; [reflexivity |].
    unfold Library.get_member, Library.ret, Library.raise.
    cbn [Library.members]. rewrite dict_get_set_same. split; [reflexivity |].
    intros other Hother. cbn beta. cbn [Library.members].
    rewrite dict_get_set_other by congruence.
    destruct (dict_get other (Library.members self)); reflexivity.
  - intros held Hheld.
    unfold Library.add_member, Library.log_operation.
    unfold dict_mem. rewrite Hheld. eexists. reflexivity.
Qed.

Lemma filter_dict_set {V : Type} (p : V -> bool) (k : string) (v v0 : V)
    (d : dict V) :
  dict_get k d = Some v0 ->
  (List.length (filter p (dict_values (dict_set k v d)))
   + (if p v0 then 1 else 0)
   = List.length (filter p (dict_values d)) + (if p v then 1 else 0))%nat /\
  List.length (dict_set k v d) = List.length d.
Proof.
  unfold dict_values.
  induction d as [| [k' x] d IH]; cbn; [discriminate |].
  destruct (String.eqb k k'); cbn.
  - intros [= ->]. destruct (p v), (p v0); cbn; lia.
  - intros H. destruct (IH H) as [IH1 IH2]. destruct (p x); cbn; lia.
Qed.

(** X11.  A [borrow_book] that returns moves one book from the available
    ones to the borrowed ones, a [return_book] that returns moves one
    back, and the number of books stays. *)
Theorem borrow_and_return_move_one_book (now : DT.datetime)
    (isbn member_id : string) (days : Z) (self self' : Library.t) :
  let available s := List.length (Library.get_available_books s) in
  let borrowed s := List.length (Library.get_borrowed_books s) in
  (Library.borrow_book now isbn member_id days self = (self', Ok tt) ->
   S (available self') = available self /\
   borrowed self' = S (borrowed self) /\
   List.length (Library.books self') = List.length (Library.books self)) /\
  (Library.return_book isbn member_id self = (self', Ok tt) ->
   available self' = S (available self) /\
   S (borrowed self') = borrowed self /\
   List.length (Library.books self') = List.length (Library.books self)).
Proof.
  cbn zeta. unfold Library.get_available_books, Library.get_borrowed_books.
  split; intros Hop.
  - apply borrow_book_steps in Hop.
    destruct Hop as [[_ [e He]] | (book & member & Eb & Em & Ea & Ec & Hop)];
      [discriminate |].
    destruct Hop as [(due & _ & ->) | (e & He & _)]; [| discriminate].
    unfold with_member, with_book. cbn [Library.books].
    destruct (filter_dict_set (fun b => Book.available b) isbn
                (book_borrowed book member_id due) book _ Eb) as [F1 L].
    destruct (filter_dict_set (fun b => negb (Book.available b)) isbn
                (book_borrowed book member_id due) book _ Eb) as [F2 _].
    cbn [book_borrowed Book.available negb] in F1, F2.
    rewrite Ea in F1, F2. cbn [negb] in F2. lia.
  - destruct (usable_dec isbn member_id) as [[Hi Hm] | Hn].
    2: { exfalso. revert Hop.
         unfold Library.return_book, Library.log_operation,
           Library.validate_isbn, Library.require_member, usable_isbn,
           usable_member_id in *.
         destruct (Z.ltb_spec (len isbn) 10);
           [discriminate |].
         destruct (String.eqb_spec member_id ""); [discriminate |].
         exfalso. apply Hn. split; assumption. }
    rewrite return_book_unfold in Hop by assumption.
    destruct (dict_get isbn (Library.books self)) as [book |] eqn:Eb;
      [| discriminate].
    destruct (dict_get member_id (Library.members self)) as [member |];
      [| discriminate].
    destruct (negb (opt_str_eqb _ _)); [discriminate |].
    cbn zeta in Hop. unfold Book.return_book in Hop.
    destruct (Book.available book) eqn:Ea; cbn [fst snd] in Hop;
      [discriminate |].
    injection Hop as <-.
    unfold with_member, with_book. cbn [Library.books].
    match goal with
    | |- context [dict_set isbn ?nb (Library.books self)] =>
        destruct (filter_dict_set (fun x => Book.available x) isbn
                    nb book _ Eb) as [F1 L];
        destruct (filter_dict_set (fun x => negb (Book.available x)) isbn
                    nb book _ Eb) as [F2 _]
    end.
    cbn [Book.available Book.set_available Book.set_borrowed_by
           Book.set_due_date negb] in F1, F2.
    rewrite Ea in F1, F2. cbn [negb] in F2. lia.
Qed.

(** ** Queries and statistics *)

Lemma filter_partition {A : Type} (p : A -> bool) (l : list A) :
  Permutation (filter p l ++ filter (fun x => negb (p x)) l) l.
Proof.
  induction l as [| x l IH]; cbn; [constructor |].
  destruct (p x); cbn.
  - constructor. exact IH.
  - apply Permutation_sym, Permutation_cons_app, Permutation_sym, IH.
Qed.

(** X12.  Every book of the catalog is either in [get_available_books] or
    in [get_borrowed_books], and in one of them only. *)
Theorem available_and_borrowed_partition (self : Library.t) :
  Permutation
    (Library.get_available_books self ++ Library.get_borrowed_books self)
    (Library.__iter__ self) /\
  (forall b, In b (Library.get_available_books self) ->
             ~ In b (Library.get_borrowed_books self)).
Proof.
  unfold Library.get_available_books, Library.get_borrowed_books,
    Library.__iter__.
  split.
  - apply (filter_partition (fun b => Book.available b)).
  - intros b Ha Hb. apply filter_In in Ha, Hb.
    destruct Ha as [_ Ha], Hb as [_ Hb]. rewrite Ha in Hb. discriminate.
Qed.

Lemma overdue_from_length (clock : nat -> DT.datetime) (l : list Book.t) :
  forall k,
    (List.length (Library.overdue_from clock k l) <= List.length l)%nat.
Proof.
  induction l as [| b l IH]; intros k; cbn; [lia |].
  destruct (Book.is_overdue (clock k) b); cbn; specialize (IH (S k)); lia.
Qed.

Lemma overdue_from_In (clock : nat -> DT.datetime) (l : list Book.t) :
  forall k b,
    In b (Library.overdue_from clock k l) ->
    In b l /\ exists due, Book.due_date b = Some due.
Proof.
  induction l as [| x l IH]; intros k b; cbn; [tauto |].
  destruct (Book.is_overdue (clock k) x) eqn:E.
  - intros [<- | H].
    + split; [left; reflexivity |]. unfold Book.is_overdue in E.
      destruct (Book.due_date x); [eauto | discriminate].
    + apply IH in H. tauto.
  - intros H. apply IH in H. tauto.
Qed.

Lemma overdue_from_borrowed (clock : nat -> DT.datetime) (l : list Book.t) :
  (forall b, In b l -> Book.invariant b) ->
  forall k,
    (List.length (Library.overdue_from clock k l)
     <= List.length (filter (fun b => negb (Book.available b)) l))%nat.
Proof.
  induction l as [| x l IH]; intros Hinv k; cbn; [lia |].
  assert (IH' := IH (fun b H => Hinv b (or_intror H)) (S k)).
  destruct (Book.is_overdue (clock k) x) eqn:E.
  - unfold Book.is_overdue in E.
    destruct (Book.due_date x) as [d |] eqn:Ed; [| discriminate].
    destruct (Hinv x (or_introl eq_refl)) as [_ Hav].
    destruct (Book.available x) eqn:Ea.
    + destruct (proj1 Hav eq_refl) as [_ Hd]. congruence.
    + cbn. lia.
  - destruct (negb (Book.available x)); cbn; lia.
Qed.

(** X13.  The counts of [get_statistics]: available and borrowed add up to
    the total, overdue is at most the total, and at most borrowed when the
    books satisfy the invariant. *)
Theorem get_statistics_add_up (clock : nat -> DT.datetime)
    (self : Library.t) :
  exists total available borrowed overdue total_members,
    Library.get_statistics clock self
    = [ ("total_books", total); ("available_books", available);
        ("borrowed_books", borrowed); ("overdue_books", overdue);
        ("total_members", total_members) ] /\
    available + borrowed = total /\
    0 <= overdue <= total /\
    ((forall k b, In (k, b) (Library.books self) -> Book.invariant b) ->
     overdue <= borrowed).
Proof.
  unfold Library.get_statistics. do 5 eexists. split; [reflexivity |].
  unfold Library.get_available_books, Library.get_borrowed_books,
    Library.get_overdue_books.
  pose proof (Permutation_length
                (filter_partition (fun b => Book.available b)
                   (dict_values (Library.books self)))) as P.
  rewrite length_app in P.
  pose proof (overdue_from_length clock (dict_values (Library.books self)) 0)
    as O.
  assert (L : List.length (dict_values (Library.books self))
              = List.length (Library.books self))
    by apply length_map.
  split; [lia |]. split; [lia |].
  intros Hinv.
  pose proof (overdue_from_borrowed clock (dict_values (Library.books self)))
    as B.
  apply Nat2Z.inj_le, B. intros b Hb. unfold dict_values in Hb.
  apply in_map_iff in Hb. destruct Hb as ([k b'] & <- & Hb). eapply Hinv.
  exact Hb.
Qed.

(** X14.  An overdue book is a book of the catalog with a due date, and a
    borrowed one when the books satisfy the invariant, at whatever time the
    clock is read for each book. *)
Theorem overdue_books_are_borrowed (clock : nat -> DT.datetime)
    (self : Library.t) :
  (forall b, In b (Library.get_overdue_books clock self) ->
     In b (Library.__iter__ self) /\
     exists due, Book.due_date b = Some due) /\
  ((forall k b, In (k, b) (Library.books self) -> Book.invariant b) ->
   forall b, In b (Library.get_overdue_books clock self) ->
             In b (Library.get_borrowed_books self)).
Proof.
  unfold Library.get_overdue_books, Library.__iter__,
    Library.get_borrowed_books.
  split.
  - intros b Hb. eapply overdue_from_In. eassumption.
  - intros Hinv b Hb. apply overdue_from_In in Hb.
    destruct Hb as [Hin [due Hdue]]. apply filter_In. split; [assumption |].
    unfold dict_values in Hin. apply in_map_iff in Hin.
    destruct Hin as ([k b'] & <- & Hin).
    destruct (Hinv k b' Hin) as [_ Hav]. cbn in *.
    destruct (Book.available b'); [| reflexivity].
    destruct (proj1 Hav eq_refl) as [_ Hd]. congruence.
Qed.

Lemma filter_filter_or {A : Type} (p q : A -> bool) (l : list A) :
  filter p (filter (fun x => q x || p x) l) = filter p l.
Proof.
  induction l as [| x l IH]; cbn; [reflexivity |].
  destruct (p x) eqn:Ep, (q x); cbn; rewrite ?Ep, IH; reflexivity.
Qed.

Section TextQueries.
Variable lower : string -> string.

(** X15.  [books_by_author] yields the books of [search_books] for the same
    text whose author matches, in the same order. *)
Theorem books_by_author_within_search (query : string) (self : Library.t) :
  Library.books_by_author lower query self
  = filter (fun book =>
              str_contains (lower query) (lower (Book.author book)))
           (Library.search_books lower query self) /\
  (forall book, In book (Library.books_by_author lower query self) ->
                In book (Library.search_books lower query self)).
Proof.
  unfold Library.books_by_author, Library.search_books. cbn zeta.
  assert (E : filter (fun book =>
                        str_contains (lower query) (lower (Book.author book)))
                (dict_values (Library.books self))
              = filter (fun book =>
                          str_contains (lower query)
                            (lower (Book.author book)))
                  (filter (fun book =>
                             str_contains (lower query)
                               (lower (Book.title book))
                             || str_contains (lower query)
                                  (lower (Book.author book)))
                     (dict_values (Library.books self)))).
  { symmetry.
    apply (filter_filter_or
             (fun book => str_contains (lower query)
                            (lower (Book.author book)))
             (fun book => str_contains (lower query)
                            (lower (Book.title book)))). }
  split; [exact E |].
  intros book H. rewrite E in H. apply filter_In in H. tauto.
Qed.

Lemma str_contains_empty (s : string) : str_contains "" s = true.
Proof. destruct s; reflexivity. Qed.

Lemma filter_all {A : Type} (p : A -> bool) (l : list A) :
  (forall x, In x l -> p x = true) -> filter p l = l.
Proof.
  induction l as [| x l IH]; cbn; intros H; [reflexivity |].
  rewrite (H x) by tauto. f_equal. apply IH. intros; apply H; tauto.
Qed.

(** X19.  The empty text matches every book, in [search_books] and in
    [books_by_author]. *)
Theorem empty_query_matches_every_book (self : Library.t) :
  lower "" = "" ->
  Library.search_books lower "" self = Library.__iter__ self /\
  Library.books_by_author lower "" self = Library.__iter__ self.
Proof.
  intros Hl. unfold Library.search_books, Library.books_by_author,
    Library.__iter__. cbn zeta. rewrite Hl.
  split; apply filter_all; intros b _; rewrite !str_contains_empty;
    reflexivity.
Qed.

End TextQueries.

(** X16.  [books_by_year_range] yields the books whose year is within the
    two bounds, both included; none when the bounds are in the wrong
    order; and every book of a validated catalog between 1000 and the
    current year. *)
Theorem books_by_year_range_bounds (start_year end_year : Z)
    (self : Library.t) :
  (forall book,
     In book (Library.books_by_year_range start_year end_year self) <->
     In book (Library.__iter__ self) /\
     start_year <= Book.year book <= end_year) /\
  (end_year < start_year ->
   Library.books_by_year_range start_year end_year self = []) /\
  (forall now,
     catalog_wf now self ->
     Library.books_by_year_range 1000 (DT.year now) self
     = Library.__iter__ self).
Proof.
  unfold Library.books_by_year_range, Library.__iter__.
  split; [| split].
  - intros book. rewrite filter_In, andb_true_iff, !Z.leb_le. tauto.
  - intros H. induction (dict_values (Library.books self)) as [| b l IH];
      cbn; [reflexivity |].
    destruct (Z.leb_spec start_year (Book.year b)),
      (Z.leb_spec (Book.year b) end_year); cbn; try exact IH. lia.
  - intros now (_ & Hb & _). apply filter_all. intros b Hin.
    unfold dict_values in Hin. apply in_map_iff in Hin.
    destruct Hin as ([k b'] & <- & Hin). cbn.
    destruct (Hb k b' Hin) as [_ [Hv _]].
    unfold Book.__post_init__ in Hv.
    destruct (_ || _); [discriminate |].
    destruct (String.eqb _ _); [discriminate |].
    destruct (String.eqb _ _); [discriminate |].
    destruct ((1000 <=? Book.year b') && (Book.year b' <=? DT.year now));
      [reflexivity | discriminate].
Qed.

(** ** Pages *)

Lemma slice_from {A : Type} (l : list A) (i p : Z) :
  0 <= i -> 0 <= p ->
  slice l i (i + p) = firstn (Z.to_nat p) (skipn (Z.to_nat i) l).
Proof.
  intros Hi Hp. unfold slice, slice_index.
  destruct (Z.ltb_spec i 0); [lia |]. destruct (Z.ltb_spec (i + p) 0); [lia |].
  set (n := Z.of_nat (List.length l)).
  destruct (Z.le_gt_cases n i) as [Hge | Hlt].
  - rewrite !Z.min_r by lia.
    replace (Z.to_nat (n - n)) with 0%nat by lia.
    rewrite (skipn_all2 l (n := Z.to_nat i)) by (subst n; lia).
    rewrite firstn_nil. reflexivity.
  - rewrite (Z.min_l i n) by lia.
    destruct (Z.le_gt_cases (i + p) n) as [Hle | Hgt].
    + rewrite Z.min_l by lia. f_equal. lia.
    + rewrite Z.min_r by lia.
      assert (L : List.length (skipn (Z.to_nat i) l) = Z.to_nat (n - i))
        by (rewrite length_skipn; subst n; lia).
      rewrite <- L. rewrite firstn_all.
      symmetry. apply firstn_all2. lia.
Qed.

Lemma firstn_add {A : Type} (a b : nat) (l : list A) :
  firstn (a + b) l = (firstn a l ++ firstn b (skipn a l))%list.
Proof.
  revert l. induction a as [| a IH]; intros [| x l]; cbn;
    rewrite ?firstn_nil; try reflexivity.
  f_equal. apply IH.
Qed.

Lemma pages_concat {A : Type} (l : list A) (p : Z) (c : nat) :
  0 < p ->
  forall i, 0 <= i ->
    concat (map (fun i => slice l i (i + p)) (range_items c i p))
    = firstn (c * Z.to_nat p) (skipn (Z.to_nat i) l).
Proof.
  intros Hp. induction c as [| c IH]; intros i Hi; cbn [range_items map concat].
  - reflexivity.
  - rewrite IH by lia. rewrite slice_from by lia.
    replace (S c * Z.to_nat p)%nat with (Z.to_nat p + c * Z.to_nat p)%nat
      by lia.
    rewrite firstn_add, skipn_skipn. do 3 f_equal. lia.
Qed.

Lemma range_items_length (c : nat) (i p : Z) :
  List.length (range_items c i p) = c.
Proof. revert i. induction c; intros i; cbn; auto. Qed.

Lemma nth_range_items (c : nat) (p d : Z) :
  forall i k, (k < c)%nat ->
    nth k (range_items c i p) d = i + Z.of_nat k * p.
Proof.
  induction c as [| c IH]; intros i k Hk; [lia |].
  destruct k as [| k]; cbn [nth range_items]; [lia |].
  rewrite IH by lia. lia.
Qed.

Lemma range_length_spec (n p : Z) :
  0 <= n -> 0 < p ->
  let c := range_length 0 n p in
  c = (n + p - 1) / p /\ 0 <= c /\ n <= c * p /\ (c - 1) * p < n \/
  (n = 0 /\ range_length 0 n p = 0 /\ (n + p - 1) / p = 0).
Proof.
  intros Hn Hp. unfold range_length. cbn zeta.
  destruct (Z.ltb_spec 0 n) as [H | H].
  - left. replace (n - 0 - 1) with (n - 1) by lia.
    assert (E : (n + p - 1) / p = (n - 1) / p + 1).
    { replace (n + p - 1) with (n - 1 + 1 * p) by lia.
      apply Z.div_add. lia. }
    rewrite E. pose proof (Z.div_mod (n - 1) p ltac:(lia)) as D.
    pose proof (Z.mod_pos_bound (n - 1) p Hp) as B.
    pose proof (Z.div_pos (n - 1) p ltac:(lia) Hp) as Q.
    nia.
  - right. assert (n = 0) by lia. subst n.
    repeat split. cbn. apply Z.div_small. lia.
Qed.

(** X17.  For a positive page size the pages of [paginate_books], one after
    the other, are the books of the catalog in order; there are
    [ceil(n / page_size)] of them, none is empty, and all but the last are
    full. *)
Theorem paginate_books_pages (page_size : Z) (self : Library.t) :
  0 < page_size ->
  exists pages,
    Library.paginate_books page_size self = (pages, Ok tt) /\
    concat pages = Library.__iter__ self /\
    Z.of_nat (List.length pages)
    = (Z.of_nat (List.length (Library.books self)) + page_size - 1)
      / page_size /\
    (forall k, (k < List.length pages)%nat ->
       1 <= Z.of_nat (List.length (nth k pages [])) <= page_size) /\
    (forall k, (S k < List.length pages)%nat ->
       Z.of_nat (List.length (nth k pages [])) = page_size).
Proof.
  intros Hp. unfold Library.paginate_books, Library.__iter__, range.
  cbn zeta.
  destruct (Z.eqb_spec page_size 0) as [H0 | _]; [lia |].
  destruct (Z.ltb_spec 0 page_size) as [_ | H0]; [| lia].
  set (l := dict_values (Library.books self)).
  assert (Ll : List.length (Library.books self) = List.length l)
    by (symmetry; apply length_map).
  rewrite Ll.
  set (n := Z.of_nat (List.length l)).
  assert (Hc : exists c,
             range_length 0 n page_size = c /\
             c = (n + page_size - 1) / page_size /\ 0 <= c /\
             n <= c * page_size /\ (0 < n -> (c - 1) * page_size < n)).
  { pose proof (range_length_spec n page_size ltac:(subst n; lia) Hp) as S.
    cbn zeta in S.
    destruct S as [(E & C0 & C1 & C2) | (N0 & C0 & E)].
    - eexists. split; [reflexivity |]. repeat split; try assumption.
      intros _. assumption.
    - exists 0. rewrite E. repeat split; try assumption; lia. }
  destruct Hc as (c & -> & Hc).
  eexists. split; [reflexivity |].
  destruct Hc as (Ec & C0 & C1 & C2).
  split; [| split; [| split]].
  - rewrite pages_concat by lia. cbn [Z.to_nat skipn].
    apply firstn_all2. subst n. nia.
  - rewrite length_map, range_items_length. lia.
  - intros k. rewrite length_map, range_items_length. intros Hk.
    rewrite (nth_indep _ [] (slice l 0 (0 + page_size)))
      by (rewrite length_map, range_items_length; exact Hk).
    rewrite (map_nth (fun i => slice l i (i + page_size))).
    rewrite nth_range_items by exact Hk.
    rewrite slice_from by lia.
    rewrite length_firstn, length_skipn.
    assert (Hn : 0 < n).
    { destruct (Z.eq_dec n 0) as [N0 | N0]; [| subst n; lia].
      rewrite N0, Z.div_small in Ec by lia. lia. }
    assert (Z.of_nat k * page_size <= (c - 1) * page_size) by nia.
    specialize (C2 Hn). subst n. lia.
  - intros k. rewrite length_map, range_items_length. intros Hk.
    rewrite (nth_indep _ [] (slice l 0 (0 + page_size)))
      by (rewrite length_map, range_items_length; lia).
    rewrite (map_nth (fun i => slice l i (i + page_size))).
    rewrite nth_range_items by lia.
    rewrite slice_from by lia.
    rewrite length_firstn, length_skipn.
    assert (Hn : 0 < n).
    { destruct (Z.eq_dec n 0) as [N0 | N0]; [| subst n; lia].
      rewrite N0, Z.div_small in Ec by lia. lia. }
    assert (Z.of_nat (S k) * page_size <= (c - 1) * page_size) by nia.
    specialize (C2 Hn). subst n. lia.
Qed.

(** X18.  A page size of zero makes the generator raise [ValueError] before
    the first page, even for an empty catalog; a negative one yields no
    page at all. *)
Theorem paginate_books_page_size_not_positive (page_size : Z)
    (self : Library.t) :
  (page_size = 0 ->
   Library.paginate_books page_size self
   = ([], Raise (ValueError "range() arg 3 must not be zero"))) /\
  (page_size < 0 -> Library.paginate_books page_size self = ([], Ok tt)).
Proof.
  unfold Library.paginate_books, range. cbn zeta. split.
  - intros ->. reflexivity.
  - intros Hn.
    destruct (Z.eqb_spec page_size 0) as [H0 | _]; [lia |].
    destruct (Z.ltb_spec 0 page_size) as [H0 | _]; [lia |].
    unfold range_length.
    destruct (Z.ltb_spec (Z.of_nat (List.length (dict_values (Library.books self)))) 0);
      [lia |].
    reflexivity.
Qed.

(** ** Clearing, saving and rolling back *)

Section Saved.
Context {J : JsonLib}.

Lemma clear_all_data_eq (self : Library.t) :
  Library.clear_all_data self
  = Library.save (Library.mk [] [] (Library.books_file self)
                    (Library.members_file self)).
Proof. reflexivity. Qed.

(** X20.  [clear_all_data] leaves an empty catalog, in memory and in the
    files: a fresh [Library] over them is empty. *)
Theorem clear_all_data_then_load (now : DT.datetime) (self : Library.t) :
  exists cleared,
    Library.clear_all_data self = (cleared, Ok tt) /\
    Library.books cleared = [] /\ Library.members cleared = [] /\
    Library.__init__ now (Library.books_file cleared)
      (Library.members_file cleared)
    = Ok cleared.
Proof.
  rewrite clear_all_data_eq, save_eq. eexists. split; [reflexivity |].
  split; [reflexivity |]. split; [reflexivity |].
  apply (load_after_save now now
           (Library.mk [] [] (Library.books_file self)
              (Library.members_file self))).
  - apply empty_catalog_wf.
  - lia.
  - apply save_eq.
Qed.

(** X21.  What the body of a transaction saves is not rolled back: when the
    block fails after a [save], the mappings are restored and the files
    hold the catalog as it was saved. *)
Theorem rollback_keeps_what_was_saved (now later : DT.datetime)
    (body : Library.M unit) (self at_save : Library.t) (e : exn) :
  body self = (at_save, Ok tt) ->
  catalog_wf now at_save ->
  DT.year now <= DT.year later ->
  exists restored,
    Library.transaction
      (Library.bind body
         (fun _ => Library.bind Library.save (fun _ => Library.raise e)))
      self
    = (restored, Raise e) /\
    Library.books restored = Library.books self /\
    Library.members restored = Library.members self /\
    Library.__init__ later (Library.books_file restored)
      (Library.members_file restored)
    = Ok (Library.mk (Library.books at_save) (Library.members at_save)
            (Library.books_file restored) (Library.members_file restored)).
Proof.
  intros Hbody Hwf Hy.
  unfold Library.transaction, Library.try_except, Library.bind.
  rewrite Hbody, save_eq.
  unfold Library.set_books, Library.set_members, Library.raise,
    Library.deepcopy.
  cbn [Library.books Library.members Library.books_file
         Library.members_file].
  eexists. split; [reflexivity |].
  cbn [Library.books Library.members Library.books_file
         Library.members_file].
  split; [reflexivity |]. split; [reflexivity |].
  pose proof (load_after_save now later at_save _ Hwf Hy (save_eq at_save))
    as L.
  cbn [Library.books_file Library.members_file] in L. exact L.
Qed.

(** X22.  A transaction that fails after [clear_all_data] gives the mappings
    back, and leaves the files empty: a fresh [Library] over them has no
    book and no member. *)
Theorem rollback_after_clear_all_data (now : DT.datetime) (self : Library.t)
    (e : exn) :
  exists restored,
    Library.transaction
      (Library.bind Library.clear_all_data (fun _ => Library.raise e)) self
    = (restored, Raise e) /\
    Library.books restored = Library.books self /\
    Library.members restored = Library.members self /\
    Library.__init__ now (Library.books_file restored)
      (Library.members_file restored)
    = Ok (Library.mk [] [] (Library.books_file restored)
            (Library.members_file restored)).
Proof.
  unfold Library.transaction, Library.try_except, Library.bind.
  rewrite clear_all_data_eq, save_eq.
  unfold Library.set_books, Library.set_members, Library.raise,
    Library.deepcopy.
  cbn [Library.books Library.members Library.books_file
         Library.members_file].
  eexists. split; [reflexivity |].
  cbn [Library.books Library.members Library.books_file
         Library.members_file].
  split; [reflexivity |]. split; [reflexivity |].
  pose proof (load_after_save now now
                (Library.mk [] [] (Library.books_file self)
                   (Library.members_file self)) _
                (empty_catalog_wf now _ _) (Z.le_refl _) (save_eq _)) as L.
  cbn [Library.books Library.members Library.books_file
         Library.members_file] in L. exact L.
Qed.

End Saved.

(** ** Constructors and records *)

(** X23.  [Book(isbn, title, author, year)] is built exactly for an ISBN of
    ten characters or more, a title and an author that are not empty, and a
    year from 1000 to the current one; otherwise it is a [ValueError]. *)
Theorem book_constructor_accepts_iff (now : DT.datetime)
    (isbn title author : string) (year : Z) :
  let accepted :=
    10 <= len isbn /\ title <> "" /\ author <> "" /\
    1000 <= year <= DT.year now in
  (accepted ->
   Book.create now isbn title author year
   = Ok (Book.mk isbn title author year true None None)) /\
  (~ accepted ->
   exists msg,
     Book.create now isbn title author year = Raise (ValueError msg)).
Proof.
  cbn zeta. unfold Book.create, Book.__init__, Book.__post_init__.
  cbn [Book.isbn Book.title Book.author Book.year].
  destruct (String.eqb_spec isbn "") as [-> | Hi].
  { cbn. split; [intros [H _]; cbn in H; lia | eauto]. }
  cbn [orb].
  destruct (Z.ltb_spec (len isbn) 10) as [Hl | Hl].
  { cbn. split; [intros [H _]; lia | eauto]. }
  destruct (String.eqb_spec title "") as [-> | Ht].
  { cbn. split; [tauto | eauto]. }
  destruct (String.eqb_spec author "") as [-> | Ha].
  { cbn. split; [tauto | eauto]. }
  destruct (Z.leb_spec 1000 year) as [H1 | H1];
    destruct (Z.leb_spec year (DT.year now)) as [H2 | H2]; cbn;
    (split; [try reflexivity; intros (_ & _ & _ & H); lia
            | try (intros H; exfalso; apply H; repeat split; assumption);
              eauto]).
Qed.

(** X24.  [Member(member_id, name, email)] is built exactly for an
    identifier and a name that are not empty and an email with an [@] in
    it, with no book and a limit of three; otherwise it is a
    [ValueError]. *)
Theorem member_constructor_accepts_iff (member_id name email : string) :
  let accepted :=
    member_id <> "" /\ name <> "" /\
    exists pre post, email = (pre ++ "@" ++ post)%string in
  (accepted ->
   Member.create member_id name email
   = Ok (Member.mk member_id name email [] 3)) /\
  (~ accepted ->
   exists msg, Member.create member_id name email = Raise (ValueError msg)).
Proof.
  cbn zeta. unfold Member.create, Member.__init__, Member.__post_init__.
  cbn [Member.member_id Member.name Member.email].
  destruct (String.eqb_spec member_id "") as [-> | Hi].
  { cbn. split; [tauto | eauto]. }
  destruct (String.eqb_spec name "") as [-> | Hn].
  { cbn. split; [tauto | eauto]. }
  destruct (str_contains "@" email) eqn:E; cbn [negb rbind].
  - split; [reflexivity |]. intros H. exfalso. apply H.
    apply str_contains_spec in E. tauto.
  - split; [| eauto]. intros (_ & _ & H). apply str_contains_spec in H.
    congruence.
Qed.

(** X25.  A record with the descriptive fields only is read as the
    constructor builds it: a book that is available, a member with no book
    and a limit of three.  A record without its key field is a
    [KeyError] of that field. *)
Theorem from_dict_defaults (now : DT.datetime) (data : dict json) :
  (forall isbn title author year,
     dict_get "isbn" data = Some (JStr isbn) ->
     dict_get "title" data = Some (JStr title) ->
     dict_get "author" data = Some (JStr author) ->
     dict_get "year" data = Some (JInt year) ->
     dict_get "available" data = None ->
     dict_get "borrowed_by" data = None ->
     dict_get "due_date" data = None ->
     Book.from_dict now data = Book.create now isbn title author year) /\
  (forall member_id name email,
     dict_get "member_id" data = Some (JStr member_id) ->
     dict_get "name" data = Some (JStr name) ->
     dict_get "email" data = Some (JStr email) ->
     dict_get "borrowed_books" data = None ->
     dict_get "max_books" data = None ->
     Member.from_dict data = Member.create member_id name email) /\
  (dict_get "due_date" data = None -> dict_get "isbn" data = None ->
   Book.from_dict now data = Raise (KeyError "isbn")) /\
  (dict_get "member_id" data = None ->
   Member.from_dict data = Raise (KeyError "member_id")).
Proof.
  split; [| split; [| split]].
  - intros isbn title author year Hi Ht Ha Hy Hav Hby Hd.
    unfold Book.from_dict, getitem. rewrite Hd, Hi, Ht, Ha, Hy, Hav, Hby.
    reflexivity.
  - intros member_id name email Hi Hn He Hb Hm.
    unfold Member.from_dict, getitem. rewrite Hi, Hn, He, Hb, Hm.
    reflexivity.
  - intros Hd Hi. unfold Book.from_dict, getitem. rewrite Hd, Hi.
    reflexivity.
  - intros Hi. unfold Member.from_dict, getitem. rewrite Hi. reflexivity.
Qed.

(** ** Objects and records of the catalog *)

(** X28.  [get_book] hands out the catalog's own object, not a copy: a
    [borrow] called on what it returns is a change of the book in the
    catalog, and of nothing else, so the member's list does not follow. *)
Theorem get_book_hands_out_the_object (now : DT.datetime)
    (isbn member_id : string) (days : Z) (w : Store.t) (book : Store.addr) :
  store_wf w ->
  Store.get_book isbn w = (w, Ok book) ->
  let call := Book.borrow now member_id days (Store.book_at book w) in
  let w' := fst (Store.call_book book (Book.borrow now member_id days) w) in
  dict_get isbn (Library.books (Store.view w)) = Some (Store.book_at book w) /\
  Library.books (Store.view w')
  = dict_set isbn (fst call) (Library.books (Store.view w)) /\
  Library.members (Store.view w') = Library.members (Store.view w).
Proof.
  intros [[Ab Am] [Nb Nm]] Hget. cbn zeta.
  unfold Store.get_book, Store.validate_isbn in Hget.
  destruct (len isbn <? 10); [discriminate |].
  destruct (dict_get isbn (Store.books w)) as [a |] eqn:E; [| discriminate].
  injection Hget as <-.
  unfold Store.view, Store.call_book.
  cbn [fst snd Store.book_objs Store.member_objs Store.books Store.members
         Library.books Library.members].
  split; [| split].
  - rewrite dict_get_view, E. reflexivity.
  - apply view_dict_upd; [assumption | assumption |].
    apply Ab. eapply dict_get_value. eassumption.
  - reflexivity.
Qed.

Lemma from_dict_isbn (now : DT.datetime) (data : dict json) (b : Book.t) :
  Book.from_dict now data = Ok b ->
  dict_get "isbn" data = Some (JStr (Book.isbn b)).
Proof.
  unfold Book.from_dict, Book.__init__, getitem.
  destruct (match dict_get "due_date" data with
            | Some v => _
            | None => _
            end) as [dd |]; cbn [rbind]; [| discriminate].
  destruct (dict_get "isbn" data) as [vi |]; cbn [rbind]; [| discriminate].
  destruct (dict_get "title" data) as [vt |]; cbn [rbind]; [| discriminate].
  destruct (dict_get "author" data) as [va |]; cbn [rbind]; [| discriminate].
  destruct (dict_get "year" data) as [vy |]; cbn [rbind]; [| discriminate].
  destruct (match dict_get "available" data with
            | Some v => _
            | None => _
            end) as [av |]; cbn [rbind]; [| discriminate].
  destruct (match dict_get "borrowed_by" data with
            | Some v => _
            | None => _
            end) as [by_ |]; cbn [rbind]; [| discriminate].
  destruct vi; cbn [as_str rbind]; try discriminate.
  destruct (as_str vt); cbn [rbind]; [| discriminate].
  destruct (as_str va); cbn [rbind]; [| discriminate].
  destruct (as_int vy); cbn [rbind]; [| discriminate].
  destruct (Book.__post_init__ _ _); cbn [rbind]; [| discriminate].
  intros [= <-]. reflexivity.
Qed.

(** X29.  Two records of one ISBN in the books file are one book of the
    catalog: the later record, at the place of the earlier. *)
Theorem load_duplicate_isbn_last_wins (now : DT.datetime)
    (first second : dict json) (b1 b2 : Book.t) (rest : list json) :
  Book.from_dict now first = Ok b1 ->
  Book.from_dict now second = Ok b2 ->
  Book.isbn b1 = Book.isbn b2 ->
  Library.books_of now (JObj first :: JObj second :: rest) []
  = Library.books_of now rest [(Book.isbn b2, b2)].
Proof.
  intros H1 H2 E.
  pose proof (from_dict_isbn now first b1 H1) as K1.
  pose proof (from_dict_isbn now second b2 H2) as K2.
  cbn [Library.books_of]. unfold Library.subscript, getitem, Library.as_dict.
  rewrite K1, K2. cbn [rbind]. rewrite H1, H2. cbn [rbind as_str dict_set].
  rewrite E, String.eqb_refl. reflexivity.
Qed.

(** * The properties on the fixtures of the test suite *)

(** The populated catalog of the test suite is well formed. *)
Lemma populated_library_wf : catalog_wf now0 populated_library.
Proof.
  unfold populated_library.
  destruct (Library.run_ops now0 populated_ops (Library.mk [] [] None None))
    as [s r] eqn:Hrun.
  eapply run_ops_wf; [apply empty_catalog_wf | exact Hrun].
Qed.

(** The two searches of the test suite. *)
Example search_python :
  map Book.title (Library.search_books str_lower "python" populated_library)
  = ["Effective Python"; "Fluent Python"]%string.
Proof. reflexivity. Qed.

Example search_martin :
  map Book.title (Library.search_books str_lower "MARTIN" populated_library)
  = ["Clean Code"]%string.
Proof. reflexivity. Qed.

(** C1 on the failing transaction of the test suite: a book is added,
    then the block raises. *)
Lemma populated_store_view : Store.view populated_store = populated_library.
Proof. vm_compute. reflexivity. Qed.

Lemma transaction_rollback_witness :
  let body :=
    Store.run_ops now0
      [ Library.AddBook "new-isbn-123" "New Book" "New Author" 2023;
        Library.RaiseError (ValueError "Something went wrong") ] in
  List.length
    (Library.books (Store.view (fst (body (scope_entry populated_store)))))
  = 6%nat /\
  exists restored,
    Store.transaction (J := ref_json) body populated_store
    = (restored, Raise (ValueError "Something went wrong")) /\
    Library.books (Store.view restored)
    = Library.books (Store.view populated_store) /\
    Library.members (Store.view restored)
    = Library.members (Store.view populated_store).
Proof.
  intros body. split; [vm_compute; reflexivity |].
  apply (proj1 (transaction_rollback (J := ref_json)) body populated_store
           (fst (body (scope_entry populated_store)))
           (ValueError "Something went wrong")).
  - apply (proj2 (transaction_rollback (J := ref_json))).
  - split; intros a Ha; vm_compute in Ha; vm_compute;
      repeat (destruct Ha as [<- | Ha]; [lia |]); destruct Ha.
  - vm_compute. reflexivity.
Defined.

(** The copy has to be deep.  With the mappings copied and the objects
    shared, a book borrowed in the block is still borrowed after the
    rollback. *)
Example sharing_snapshot_does_not_roll_back :
  let body :=
    Store.run_ops now0
      [ Library.BorrowBook "978-0132350884" "M001" 14;
        Library.RaiseError (ValueError "Something went wrong") ] in
  let restored := fst (transaction_sharing (J := ref_json) body small_store) in
  Store.books restored = Store.books small_store /\
  dict_get "978-0132350884" (Library.books (Store.view small_store))
  = Some clean_code /\
  dict_get "978-0132350884" (Library.books (Store.view restored))
  = Some (book_borrowed clean_code "M001" due0).
Proof. vm_compute. repeat split. Qed.

(** C2, amended, on a loan that succeeds and on an ISBN that is too
    short. *)
Lemma borrow_book_amended_witness :
  usable_isbn "978-0132350884" /\ usable_member_id "M001" /\
  DT.add_days now0 14 = Ok due0 /\
  Library.borrow_book now0 "978-0132350884" "M001" 14 small_library
  = (with_member "M001" (Member.add_borrowed_book "978-0132350884" john)
       (with_book "978-0132350884" (book_borrowed clean_code "M001" due0)
          small_library), Ok tt) /\
  ~ (usable_isbn "12345" /\ usable_member_id "M001") /\
  (exists msg,
     Library.borrow_book now0 "12345" "M001" 14 small_library
     = (small_library, Raise (ValueError msg))) /\
  ~ (usable_isbn "ёёёёё" /\ usable_member_id "M001") /\
  exists msg,
    Library.borrow_book now0 "ёёёёё" "M001" 14 small_library
    = (small_library, Raise (ValueError msg)).
Proof.
  assert (Hi : usable_isbn "978-0132350884") by (unfold usable_isbn; simpl; lia).
  assert (Hm : usable_member_id "M001") by discriminate.
  assert (Hbad : ~ (usable_isbn "12345" /\ usable_member_id "M001")).
  { unfold usable_isbn. simpl. lia. }
  assert (Hcyr : ~ (usable_isbn "ёёёёё" /\ usable_member_id "M001")).
  { unfold usable_isbn. simpl. lia. }
  split; [exact Hi |]. split; [exact Hm |]. split; [reflexivity |].
  split; [| split; [exact Hbad |]].
  - exact (proj1 (borrow_book_amended now0 small_library "978-0132350884"
                    "M001" 14) Hi Hm due0 eq_refl).
  - split; [| split; [exact Hcyr |]].
    + exact (proj2 (borrow_book_amended now0 small_library "12345" "M001" 14)
               Hbad).
    + exact (proj2 (borrow_book_amended now0 small_library "ёёёёё" "M001" 14)
               Hcyr).
Defined.

(** C3 on a lent book and on a member with two borrowed books. *)
Lemma serialization_round_trip_witness :
  let lent := fst (Book.borrow now0 "M001" 14 clean_code) in
  book_reachable now0 lent /\ DT.year now0 <= DT.year later0 /\
  Book.due_date lent = Some due0 /\
  Book.from_dict later0 (Book.to_dict lent) = Ok lent /\
  Member.__post_init__ member_with_books = Ok tt /\
  Member.from_dict (Member.to_dict member_with_books) = Ok member_with_books.
Proof.
  intros lent.
  destruct serialization_round_trip as (Hbook & Hreach & Hmember).
  assert (Hr : book_reachable now0 lent).
  { apply reach_borrow.
    apply (reach_create now0 "978-0132350884" "Clean Code" "Robert C. Martin"
             2008).
    reflexivity. }
  assert (Hle : DT.year now0 <= DT.year later0) by (simpl; lia).
  split; [exact Hr |]. split; [exact Hle |]. split; [reflexivity |].
  split; [| split; [reflexivity |]].
  - exact (Hbook now0 later0 lent (Hreach now0 lent Hr) Hle).
  - exact (Hmember member_with_books eq_refl).
Defined.

(** C4, amended, on a book that is created, lent, stored and read back,
    and returned. *)
Lemma book_invariant_amended_witness :
  Book.create now0 "978-0132350884" "Clean Code" "Robert C. Martin" 2008
  = Ok clean_code /\
  Book.invariant clean_code /\
  Book.borrow now0 "M001" 14 clean_code
  = (book_borrowed clean_code "M001" due0, Ok tt) /\
  Book.invariant (book_borrowed clean_code "M001" due0) /\
  Book.from_dict later0 (Book.to_dict (book_borrowed clean_code "M001" due0))
  = Ok (book_borrowed clean_code "M001" due0) /\
  Book.invariant
    (fst (Book.return_book (book_borrowed clean_code "M001" due0))).
Proof.
  destruct book_invariant_amended as (Hcreate & Hload & Hborrow & Hreturn).
  assert (H1 : Book.invariant clean_code).
  { apply (Hcreate now0 "978-0132350884" "Clean Code" "Robert C. Martin"
             2008)%string. reflexivity. }
  assert (H2 : Book.invariant (book_borrowed clean_code "M001" due0)).
  { apply (Hborrow now0 "M001"%string 14 clean_code). reflexivity. }
  split; [reflexivity |]. split; [exact H1 |]. split; [reflexivity |].
  split; [exact H2 |]. split; [reflexivity |].
  apply Hreturn.
  apply (Hload later0 (book_borrowed clean_code "M001" due0));
    [exact H2 | reflexivity].
Defined.

(** C5 on a transaction that adds two books to the populated catalog. *)
Lemma transaction_commit_persists_witness :
  let body :=
    Library.run_ops now0
      [ Library.AddBook "1234567890" "t" "a" 2000;
        Library.AddBook "0987654321" "u" "b" 2001 ] in
  let committed := fst (body populated_library) in
  body populated_library = (committed, Ok tt) /\
  catalog_wf now0 committed /\
  exists saved,
    Library.transaction (J := ref_json) body populated_library = (saved, Ok tt) /\
    Library.__init__ (J := ref_json) later0 (Library.books_file saved)
      (Library.members_file saved) = Ok saved /\
    dict_keys (Library.books saved)
    = (dict_keys (Library.books populated_library)
         ++ ["1234567890"; "0987654321"]%string)%list.
Proof.
  intros body committed.
  assert (Hbody : body populated_library = (committed, Ok tt))
    by reflexivity.
  assert (Hwf : catalog_wf now0 committed).
  { eapply run_ops_wf; [apply populated_library_wf | exact Hbody]. }
  assert (Hle : DT.year now0 <= DT.year later0) by (simpl; lia).
  split; [exact Hbody |]. split; [exact Hwf |].
  destruct (transaction_commit_persists (J := ref_json) now0 later0 body
              populated_library committed Hbody Hwf Hle)
    as (saved & Htx & _ & Hbooks & _ & Hload).
  exists saved. split; [exact Htx |]. split; [exact Hload |].
  rewrite Hbooks. reflexivity.
Defined.

(** C6 on a missing file, an empty file and a file that is not JSON. *)
Lemma load_missing_empty_malformed_witness :
  absent_or_empty None /\ absent_or_empty (Some ""%string) /\
  Library.__init__ (J := ref_json) now0 (Some ""%string) None
  = Ok (Library.mk [] [] (Some ""%string) None) /\
  loads (JsonLib := ref_json) "this is not json" = inr "Extra data"%string /\
  Library.__init__ (J := ref_json) now0 (Some "this is not json"%string) None
  = Raise (InvalidDataError ("Ошибка загрузки данных: " ++ "Extra data")).
Proof.
  assert (Hnone : absent_or_empty None) by (left; reflexivity).
  assert (Hempty : absent_or_empty (Some ""%string)) by (right; reflexivity).
  destruct (load_missing_empty_malformed (J := ref_json) now0
              (Some ""%string) None) as (Hb & Hm & Hboth & _).
  destruct (load_missing_empty_malformed (J := ref_json) now0
              (Some "this is not json"%string) None) as (_ & _ & _ & Hbad & _).
  split; [exact Hnone |]. split; [exact Hempty |].
  split; [exact (Hboth [] [] (Hb Hempty) (Hm Hnone)) |].
  split; [reflexivity |].
  apply (Hbad "this is not json"%string "Extra data"%string);
    [reflexivity | discriminate | reflexivity].
Defined.

(** C7 for fourteen days and for a number of days that overflows. *)
Lemma borrow_then_return_restores_witness :
  Book.available clean_code = true /\
  Book.borrow now0 "M001" 14 clean_code
  = (book_borrowed clean_code "M001" due0, Ok tt) /\
  Book.return_book (fst (Book.borrow now0 "M001" 14 clean_code))
  = (clean_code, Ok tt) /\
  Book.return_book (fst (Book.borrow now0 "M001" (10 ^ 9) clean_code))
  = (clean_code, Ok tt).
Proof.
  split; [reflexivity |]. split; [| split].
  - exact (proj1 (borrow_then_return_restores now0 clean_code "M001" 14
                    eq_refl) due0 eq_refl).
  - exact (proj2 (borrow_then_return_restores now0 clean_code "M001" 14
                    eq_refl)).
  - exact (proj2 (borrow_then_return_restores now0 clean_code "M001" (10 ^ 9)
                    eq_refl)).
Defined.

(** C8, amended, on the populated catalog after one loan: a return by
    another member, and the return by the borrower. *)
Lemma return_book_behaviour_witness :
  let lent :=
    fst (Library.borrow_book now0 "978-0132350884" "M001" 14 populated_library)
  in
  (exists msg,
      Book.return_book clean_code = (clean_code, Raise (RuntimeError msg))) /\
  (exists msg,
      Library.return_book "978-0132350884" "M002" lent
      = (lent, Raise (ValueError msg))) /\
  exists returned,
    Library.return_book "978-0132350884" "M001" lent = (returned, Ok tt) /\
    Library.books returned = Library.books populated_library /\
    Library.members returned = Library.members populated_library.
Proof.
  intros lent.
  destruct return_book_behaviour as [Hbook Hcatalog].
  split; [| split].
  - destruct (Hbook clean_code eq_refl) as (msg & Hmsg & _).
    exists msg. exact Hmsg.
  - eexists.
    refine (proj1 (Hcatalog lent "978-0132350884" "M002"
                     (book_borrowed clean_code "M001" due0)
                     (Member.mk "M002" "Jane Smith" "jane@example.com" [] 3)
                     eq_refl eq_refl _)%string _);
      discriminate.
  - eexists. split.
    + refine (proj1 (proj2 (Hcatalog lent "978-0132350884" "M001"
                              (book_borrowed clean_code "M001" due0)
                              (Member.mk "M001" "John Doe" "john@example.com"
                                 ["978-0132350884"] 3)
                              eq_refl eq_refl _)%string eq_refl _));
        discriminate.
    + split; reflexivity.
Defined.


(** ** The further properties on the same fixtures *)

(** X1 for fourteen days, and for a day after the year 9999. *)
Lemma book_borrow_outcome_witness :
  DT.wf now0 /\ Book.available clean_code = true /\
  (exists due,
     Book.borrow now0 "M001" 14 clean_code
     = (book_borrowed clean_code "M001" due, Ok tt) /\
     DT.ymd2ord (DT.year due) (DT.month due) (DT.day due)
     = DT.ymd2ord 2026 11 3 + 14 /\
     DT.hour due = 14 /\ DT.minute due = 55 /\ DT.second due = 7 /\
     DT.microsecond due = 123456) /\
  (exists msg,
     Book.borrow now0 "M001" 3000000 clean_code
     = (Book.mk "978-0132350884" "Clean Code" "Robert C. Martin" 2008 false
          (Some "M001") None,
        Raise (OverflowError msg))).
Proof.
  assert (Hwf : DT.wf now0) by reflexivity.
  assert (Hav : Book.available clean_code = true) by reflexivity.
  split; [exact Hwf |]. split; [exact Hav |]. split.
  - apply (proj1 (book_borrow_outcome now0 "M001" 14 clean_code Hwf Hav)).
    vm_compute. repeat split; discriminate.
  - apply (proj2 (book_borrow_outcome now0 "M001" 3000000 clean_code Hwf Hav)).
    vm_compute. intros [_ [_ H]]. apply H. reflexivity.
Defined.

(** X2 for fourteen days and for the day before. *)
Lemma is_overdue_at_borrow_witness :
  DT.wf now0 /\
  Book.borrow now0 "M001" 14 clean_code
  = (book_borrowed clean_code "M001" due0, Ok tt) /\
  Book.is_overdue now0 (book_borrowed clean_code "M001" due0) = false /\
  Book.is_overdue now0 (fst (Book.borrow now0 "M001" (-1) clean_code)) = true.
Proof.
  assert (Hwf : DT.wf now0) by reflexivity.
  assert (Hb : Book.borrow now0 "M001" 14 clean_code
               = (book_borrowed clean_code "M001" due0, Ok tt))
    by (vm_compute; reflexivity).
  split; [exact Hwf |]. split; [exact Hb |]. split.
  - exact (is_overdue_at_borrow now0 "M001" 14 clean_code _ Hwf Hb).
  - apply (is_overdue_at_borrow now0 "M001" (-1) clean_code _ Hwf).
    vm_compute. reflexivity.
Defined.

(** X3: overdue in January, and in February. *)
Lemma is_overdue_stays_witness :
  Book.is_overdue later0 (book_borrowed clean_code "M001" due0) = true /\
  DT.gt later0 (DT.mk 2027 2 1 0 0 0 0) = false /\
  Book.is_overdue (DT.mk 2027 2 1 0 0 0 0)
    (book_borrowed clean_code "M001" due0) = true.
Proof.
  assert (H1 : Book.is_overdue later0 (book_borrowed clean_code "M001" due0)
               = true) by reflexivity.
  assert (H2 : DT.gt later0 (DT.mk 2027 2 1 0 0 0 0) = false) by reflexivity.
  split; [exact H1 |]. split; [exact H2 |].
  exact (is_overdue_stays later0 (DT.mk 2027 2 1 0 0 0 0) _ H1 H2).
Defined.

(** X4 on a member with two books. *)
Lemma add_borrowed_book_idempotent_witness :
  In "978-0735619678"%string (Member.borrowed_books member_with_books) /\
  Member.add_borrowed_book "978-0735619678" member_with_books
  = member_with_books /\
  ~ In "978-0132350884"%string (Member.borrowed_books member_with_books) /\
  Member.borrowed_books
    (Member.add_borrowed_book "978-0132350884" member_with_books)
  = ["978-0735619678"; "978-0134494166"; "978-0132350884"]%string /\
  NoDup (Member.borrowed_books member_with_books) /\
  NoDup (Member.borrowed_books
           (Member.add_borrowed_book "978-0132350884" member_with_books)).
Proof.
  assert (H1 : In "978-0735619678"%string
                 (Member.borrowed_books member_with_books))
    by (left; reflexivity).
  assert (H2 : ~ In "978-0132350884"%string
                 (Member.borrowed_books member_with_books))
    by (cbn; intros [H | [H | []]]; discriminate).
  assert (H3 : NoDup (Member.borrowed_books member_with_books)).
  { cbn. repeat constructor; cbn; intros H;
      repeat (destruct H as [H | H]; [discriminate |]); exact H. }
  destruct (add_borrowed_book_idempotent "978-0735619678" member_with_books)
    as (_ & _ & Hsame & _).
  destruct (add_borrowed_book_idempotent "978-0132350884" member_with_books)
    as (_ & _ & _ & Hlast & Hnd).
  split; [exact H1 |]. split; [exact (Hsame H1) |]. split; [exact H2 |].
  split; [exact (Hlast H2) |]. split; [exact H3 | exact (Hnd H3)].
Defined.

(** X5 on the same member. *)
Lemma remove_borrowed_book_first_occurrence_witness :
  ~ In "978-0132350884"%string (Member.borrowed_books member_with_books) /\
  Member.remove_borrowed_book "978-0132350884" member_with_books
  = member_with_books /\
  Member.remove_borrowed_book "978-0132350884"
    (Member.add_borrowed_book "978-0132350884" member_with_books)
  = member_with_books /\
  count_occ string_dec
    (Member.borrowed_books
       (Member.remove_borrowed_book "978-0735619678" member_with_books))
    "978-0735619678"%string
  = 0%nat.
Proof.
  assert (H2 : ~ In "978-0132350884"%string
                 (Member.borrowed_books member_with_books))
    by (cbn; intros [H | [H | []]]; discriminate).
  destruct (remove_borrowed_book_first_occurrence "978-0132350884"
              member_with_books) as (_ & _ & Hnone & Hundo).
  destruct (remove_borrowed_book_first_occurrence "978-0735619678"
              member_with_books) as (Hcount & _).
  split; [exact H2 |]. split; [exact (Hnone H2) |].
  split; [exact (Hundo H2) |]. exact Hcount.
Defined.

(** X6 on the small catalog. *)
Lemma borrow_then_return_restores_catalog_witness :
  Library.borrow_book now0 "978-0132350884" "M001" 14 small_library
  = (lent_library, Ok tt) /\
  Library.return_book "978-0132350884" "M001" lent_library
  = (small_library, Ok tt).
Proof.
  assert (Hb : Library.borrow_book now0 "978-0132350884" "M001" 14
                 small_library = (lent_library, Ok tt))
    by (vm_compute; reflexivity).
  split; [exact Hb |].
  apply (borrow_then_return_restores_catalog now0 "978-0132350884" "M001" 14
           small_library lent_library); [| | exact Hb].
  - intros book H. vm_compute in H. injection H as <-.
    unfold Book.invariant. cbn. intuition congruence.
  - intros member H. vm_compute in H. injection H as <-. cbn. tauto.
Defined.

(** X7: John at his limit of three after three loans; the fourth fails. *)
Lemma batch_keeps_member_lists_witness :
  let batch :=
    [ Library.AddBook "978-0201633610" "Design Patterns" "Erich Gamma" 1994;
      Library.AddBook "978-0735619678" "Code Complete" "Steve McConnell" 2004;
      Library.AddBook "978-0134494166" "Effective Python" "Brett Slatkin"
        2019;
      Library.BorrowBook "978-0132350884" "M001" 14;
      Library.BorrowBook "978-0201633610" "M001" 14;
      Library.BorrowBook "978-0735619678" "M001" 14;
      Library.BorrowBook "978-0134494166" "M001" 14 ] in
  let out := Library.run_ops now0 batch small_library in
  snd out = Raise (BorrowLimitExceededError "M001" 3) /\
  within_limits small_library /\ within_limits (fst out) /\
  no_duplicate_loans small_library /\ no_duplicate_loans (fst out).
Proof.
  intros batch out.
  assert (Hout : Library.run_ops now0 batch small_library
                 = (fst out, snd out)) by apply surjective_pairing.
  assert (Hw : within_limits small_library).
  { intros k m H. cbn in H. destruct (String.eqb k "M001");
      [injection H as <-; cbn; lia | discriminate]. }
  assert (Hn : no_duplicate_loans small_library).
  { intros k m H. cbn in H. destruct (String.eqb k "M001");
      [injection H as <-; constructor | discriminate]. }
  destruct (batch_keeps_member_lists now0 batch small_library _ _ Hout)
    as [Kw Kn].
  split; [vm_compute; reflexivity |].
  split; [exact Hw |]. split; [exact (Kw Hw) |].
  split; [exact Hn | exact (Kn Hn)].
Defined.

(** X8: John holds a book; it comes back, Jane takes another, and a third
    loan fails on its due date. *)
Lemma batch_keeps_loans_backed_witness :
  let batch :=
    [ Library.ReturnBook "978-0132350884" "M001";
      Library.BorrowBook "978-0201633610" "M002" 14;
      Library.BorrowBook "978-0735619678" "M001" (10 ^ 9) ] in
  let out := Library.run_ops now0 batch lent_populated_library in
  option_map Member.borrowed_books
    (dict_get "M001" (Library.members lent_populated_library))
  = Some ["978-0132350884"%string] /\
  no_duplicate_loans lent_populated_library /\
  loans_backed lent_populated_library /\
  (exists msg, snd out = Raise (OverflowError msg)) /\
  option_map Member.borrowed_books
    (dict_get "M002" (Library.members (fst out)))
  = Some ["978-0201633610"%string] /\
  option_map Book.borrowed_by
    (dict_get "978-0735619678" (Library.books (fst out)))
  = Some (Some "M001"%string) /\
  loans_backed (fst out).
Proof.
  intros batch out.
  assert (Hout : Library.run_ops now0 batch lent_populated_library
                 = (fst out, snd out)) by apply surjective_pairing.
  assert (Hn : no_duplicate_loans lent_populated_library).
  { intros k m H. apply dict_get_in in H.
    repeat (destruct H as [H | H];
            [injection H as _ <-; repeat constructor; intros [] |]).
    destruct H. }
  assert (Hl : loans_backed lent_populated_library).
  { intros k m isbn H Hin. apply dict_get_in in H.
    destruct H as [H | H].
    - injection H as <- <-. destruct Hin as [<- | []].
      eexists. split; [reflexivity |]. split; reflexivity.
    - repeat (destruct H as [H | H]; [injection H as _ <-; destruct Hin |]).
      destruct H. }
  split; [reflexivity |]. split; [exact Hn |]. split; [exact Hl |].
  split; [eexists; vm_compute; reflexivity |].
  split; [vm_compute; reflexivity |]. split; [vm_compute; reflexivity |].
  exact (batch_keeps_loans_backed now0 batch lent_populated_library _ _ Hout
           Hn Hl).
Defined.

(** X9 on the small catalog. *)
Lemma add_book_then_get_book_witness :
  let book :=
    Book.mk "978-0201633610" "Design Patterns" "Erich Gamma" 1994 true None
      None in
  let added := with_book "978-0201633610" book small_library in
  Library.add_book now0 "978-0201633610" "Design Patterns" "Erich Gamma" 1994
    small_library
  = (added, Ok book) /\
  Library.get_book "978-0201633610" added = (added, Ok book) /\
  dict_get "978-0132350884" (Library.books small_library) = Some clean_code /\
  exists msg,
    Library.add_book now0 "978-0132350884" "Other" "Other" 2000 small_library
    = (small_library, Raise (ValueError msg)).
Proof.
  intros book added.
  assert (Ha : Library.add_book now0 "978-0201633610" "Design Patterns"
                 "Erich Gamma" 1994 small_library = (added, Ok book))
    by (vm_compute; reflexivity).
  assert (Hh : dict_get "978-0132350884" (Library.books small_library)
               = Some clean_code) by reflexivity.
  destruct (proj1 (add_book_then_get_book now0 "978-0201633610"
                     "Design Patterns" "Erich Gamma" 1994 small_library)
              added book Ha) as (_ & _ & _ & Hget & _).
  split; [exact Ha |]. split; [exact Hget |]. split; [exact Hh |].
  exact (proj2 (add_book_then_get_book now0 "978-0132350884" "Other" "Other"
                  2000 small_library) clean_code Hh).
Defined.

(** X10 on the small catalog. *)
Lemma add_member_then_get_member_witness :
  let member := Member.mk "M002" "Jane Smith" "jane@example.com" [] 3 in
  let added := with_member "M002" member small_library in
  Library.add_member "M002" "Jane Smith" "jane@example.com" small_library
  = (added, Ok member) /\
  Library.get_member "M002" added = (added, Ok member) /\
  dict_get "M001" (Library.members small_library) = Some john /\
  exists msg,
    Library.add_member "M001" "Other" "other@example.com" small_library
    = (small_library, Raise (ValueError msg)).
Proof.
  intros member added.
  assert (Ha : Library.add_member "M002" "Jane Smith" "jane@example.com"
                 small_library = (added, Ok member))
    by (vm_compute; reflexivity).
  assert (Hh : dict_get "M001" (Library.members small_library) = Some john)
    by reflexivity.
  destruct (proj1 (add_member_then_get_member "M002" "Jane Smith"
                     "jane@example.com" small_library)
              added member Ha) as (_ & _ & _ & Hget & _).
  split; [exact Ha |]. split; [exact Hget |]. split; [exact Hh |].
  exact (proj2 (add_member_then_get_member "M001" "Other" "other@example.com"
                  small_library) john Hh).
Defined.

(** X11 on the small catalog. *)
Lemma borrow_and_return_move_one_book_witness :
  Library.borrow_book now0 "978-0132350884" "M001" 14 small_library
  = (lent_library, Ok tt) /\
  Library.return_book "978-0132350884" "M001" lent_library
  = (small_library, Ok tt) /\
  List.length (Library.get_available_books small_library) = 1%nat /\
  List.length (Library.get_available_books lent_library) = 0%nat /\
  List.length (Library.get_borrowed_books lent_library) = 1%nat.
Proof.
  assert (Hb : Library.borrow_book now0 "978-0132350884" "M001" 14
                 small_library = (lent_library, Ok tt))
    by (vm_compute; reflexivity).
  assert (Hr : Library.return_book "978-0132350884" "M001" lent_library
               = (small_library, Ok tt))
    by (vm_compute; reflexivity).
  destruct (proj1 (borrow_and_return_move_one_book now0 "978-0132350884"
                     "M001" 14 small_library lent_library) Hb)
    as (Ha & Hbo & _).
  destruct (proj2 (borrow_and_return_move_one_book now0 "978-0132350884"
                     "M001" 14 lent_library small_library) Hr)
    as (Ha' & _ & _).
  split; [exact Hb |]. split; [exact Hr |].
  split; [reflexivity |]. split; [| exact Hbo].
  apply eq_add_S. rewrite Ha. reflexivity.
Defined.

(** X12 on the small catalog. *)
Lemma available_and_borrowed_partition_witness :
  In clean_code (Library.get_available_books small_library) /\
  ~ In clean_code (Library.get_borrowed_books small_library).
Proof.
  assert (H : In clean_code (Library.get_available_books small_library))
    by (left; reflexivity).
  split; [exact H |].
  exact (proj2 (available_and_borrowed_partition small_library) clean_code H).
Defined.

(** X13 on the small catalog with its book out, read after the due date. *)
Lemma get_statistics_add_up_witness :
  (forall k b, In (k, b) (Library.books lent_library) -> Book.invariant b) /\
  exists total available borrowed overdue total_members,
    Library.get_statistics (fun _ => later0) lent_library
    = [ ("total_books", total); ("available_books", available);
        ("borrowed_books", borrowed); ("overdue_books", overdue);
        ("total_members", total_members) ] /\
    available + borrowed = total /\ overdue <= borrowed.
Proof.
  assert (Hinv : forall k b, In (k, b) (Library.books lent_library) ->
                             Book.invariant b).
  { intros k b H. vm_compute in H. destruct H as [H | []].
    injection H as _ <-. unfold Book.invariant. cbn. intuition congruence. }
  split; [exact Hinv |].
  destruct (get_statistics_add_up (fun _ => later0) lent_library)
    as (t & a & b & o & m & E & S & _ & I).
  exists t, a, b, o, m. split; [exact E |]. split; [exact S | exact (I Hinv)].
Defined.

(** X14 on the same catalog. *)
Lemma overdue_books_are_borrowed_witness :
  let book := book_borrowed clean_code "M001" due0 in
  (forall k b, In (k, b) (Library.books lent_library) -> Book.invariant b) /\
  In book (Library.get_overdue_books (fun _ => later0) lent_library) /\
  In book (Library.get_borrowed_books lent_library).
Proof.
  intros book.
  assert (Hinv : forall k b, In (k, b) (Library.books lent_library) ->
                             Book.invariant b).
  { intros k b H. vm_compute in H. destruct H as [H | []].
    injection H as _ <-. unfold Book.invariant. cbn. intuition congruence. }
  assert (Hin : In book (Library.get_overdue_books (fun _ => later0)
                           lent_library))
    by (vm_compute; left; reflexivity).
  split; [exact Hinv |]. split; [exact Hin |].
  exact (proj2 (overdue_books_are_borrowed (fun _ => later0) lent_library)
           Hinv book Hin).
Defined.

(** X15 on the small catalog. *)
Lemma books_by_author_within_search_witness :
  In clean_code (Library.books_by_author str_lower "MARTIN" small_library) /\
  In clean_code (Library.search_books str_lower "MARTIN" small_library).
Proof.
  assert (H : In clean_code
                (Library.books_by_author str_lower "MARTIN" small_library))
    by (vm_compute; left; reflexivity).
  split; [exact H |].
  exact (proj2 (books_by_author_within_search str_lower "MARTIN"
                  small_library) clean_code H).
Defined.

(** X16 on the populated catalog. *)
Lemma books_by_year_range_bounds_witness :
  2000 < 2010 /\
  Library.books_by_year_range 2010 2000 populated_library = [] /\
  catalog_wf now0 populated_library /\
  Library.books_by_year_range 1000 2026 populated_library
  = Library.__iter__ populated_library.
Proof.
  assert (H : 2000 < 2010) by lia.
  destruct (books_by_year_range_bounds 2010 2000 populated_library)
    as (_ & Hempty & _).
  destruct (books_by_year_range_bounds 1000 2026 populated_library)
    as (_ & _ & Hall).
  split; [exact H |]. split; [exact (Hempty H) |].
  split; [exact populated_library_wf |].
  exact (Hall now0 populated_library_wf).
Defined.

(** X17: the five books of the populated catalog by pages of two. *)
Lemma paginate_books_pages_witness :
  0 < 2 /\
  exists pages,
    Library.paginate_books 2 populated_library = (pages, Ok tt) /\
    concat pages = Library.__iter__ populated_library /\
    map (map Book.title) pages
    = [ ["Clean Code"; "Design Patterns"];
        ["Code Complete"; "Effective Python"]; ["Fluent Python"] ]%string.
Proof.
  assert (H : 0 < 2) by lia. split; [exact H |].
  destruct (paginate_books_pages 2 populated_library H)
    as (pages & E & Hc & _).
  exists pages. split; [exact E |]. split; [exact Hc |].
  assert (E' : fst (Library.paginate_books 2 populated_library) = pages)
    by (rewrite E; reflexivity).
  rewrite <- E'. vm_compute. reflexivity.
Defined.

(** X18 on the small catalog. *)
Lemma paginate_books_page_size_not_positive_witness :
  Library.paginate_books 0 small_library
  = ([], Raise (ValueError "range() arg 3 must not be zero")) /\
  -1 < 0 /\
  Library.paginate_books (-1) small_library = ([], Ok tt).
Proof.
  assert (H : -1 < 0) by lia.
  split; [exact (proj1 (paginate_books_page_size_not_positive 0
                          small_library) eq_refl) |].
  split; [exact H |].
  exact (proj2 (paginate_books_page_size_not_positive (-1) small_library) H).
Defined.

(** X19 on the populated catalog. *)
Lemma empty_query_matches_every_book_witness :
  str_lower "" = ""%string /\
  Library.search_books str_lower "" populated_library
  = Library.__iter__ populated_library /\
  Library.books_by_author str_lower "" populated_library
  = Library.__iter__ populated_library.
Proof.
  assert (H : str_lower "" = ""%string) by reflexivity.
  split; [exact H |].
  exact (empty_query_matches_every_book str_lower populated_library H).
Defined.

(** X21: the catalog is populated and saved in a block that then fails. *)
Lemma rollback_keeps_what_was_saved_witness :
  let empty := Library.mk [] [] None None in
  let body := Library.run_ops now0 populated_ops in
  body empty = (populated_library, Ok tt) /\
  catalog_wf now0 populated_library /\
  DT.year now0 <= DT.year later0 /\
  exists restored,
    Library.transaction (J := ref_json)
      (Library.bind body
         (fun _ => Library.bind (Library.save (J := ref_json))
                     (fun _ => Library.raise (ValueError "late"))))
      empty
    = (restored, Raise (ValueError "late")) /\
    Library.books restored = [] /\
    Library.members restored = [] /\
    Library.__init__ (J := ref_json) later0 (Library.books_file restored)
      (Library.members_file restored)
    = Ok (Library.mk (Library.books populated_library)
            (Library.members populated_library)
            (Library.books_file restored) (Library.members_file restored)).
Proof.
  intros empty body.
  assert (Hb : body empty = (populated_library, Ok tt))
    by (vm_compute; reflexivity).
  assert (Hy : DT.year now0 <= DT.year later0) by (cbn; lia).
  split; [exact Hb |]. split; [exact populated_library_wf |].
  split; [exact Hy |].
  exact (rollback_keeps_what_was_saved (J := ref_json) now0 later0 body empty
           populated_library (ValueError "late") Hb populated_library_wf Hy).
Defined.

(** X23 for a book of the test suite, for an ISBN that is too short, and
    for one of five Cyrillic letters, which are ten bytes. *)
Lemma book_constructor_accepts_iff_witness :
  Book.create now0 "978-0132350884" "Clean Code" "Robert C. Martin" 2008
  = Ok clean_code /\
  (exists msg, Book.create now0 "123" "Title" "Author" 2020
               = Raise (ValueError msg)) /\
  String.length "ёёёёё" = 10%nat /\
  exists msg, Book.create now0 "ёёёёё" "Title" "Author" 2020
              = Raise (ValueError msg).
Proof.
  split; [| split; [| split; [reflexivity |]]].
  - apply (proj1 (book_constructor_accepts_iff now0 "978-0132350884"
                    "Clean Code" "Robert C. Martin" 2008)).
    split; [vm_compute; discriminate |]. split; [discriminate |].
    split; [discriminate |]. cbn. lia.
  - apply (proj2 (book_constructor_accepts_iff now0 "123" "Title" "Author"
                    2020)).
    intros [H _]. vm_compute in H. apply H. reflexivity.
  - apply (proj2 (book_constructor_accepts_iff now0 "ёёёёё" "Title" "Author"
                    2020)).
    intros [H _]. vm_compute in H. apply H. reflexivity.
Defined.

(** X24 for a member of the test suite, and for an email without [@]. *)
Lemma member_constructor_accepts_iff_witness :
  Member.create "M001" "John Doe" "john@example.com" = Ok john /\
  exists msg, Member.create "M001" "John Doe" "invalid-email"
              = Raise (ValueError msg).
Proof.
  split.
  - apply (proj1 (member_constructor_accepts_iff "M001" "John Doe"
                    "john@example.com")).
    split; [discriminate |]. split; [discriminate |].
    exists "john"%string, "example.com"%string. reflexivity.
  - apply (proj2 (member_constructor_accepts_iff "M001" "John Doe"
                    "invalid-email")).
    intros (_ & _ & H). apply str_contains_spec in H. discriminate.
Defined.

(** X25 on a record of four fields, and on an empty record. *)
Lemma from_dict_defaults_witness :
  Book.from_dict now0
    [ ("isbn", JStr "978-0132350884"); ("title", JStr "Clean Code");
      ("author", JStr "Robert C. Martin"); ("year", JInt 2008) ]
  = Book.create now0 "978-0132350884" "Clean Code" "Robert C. Martin" 2008 /\
  Member.from_dict
    [ ("member_id", JStr "M001"); ("name", JStr "John Doe");
      ("email", JStr "john@example.com") ]
  = Member.create "M001" "John Doe" "john@example.com" /\
  Book.from_dict now0 [] = Raise (KeyError "isbn") /\
  Member.from_dict [] = Raise (KeyError "member_id").
Proof.
  split; [| split; [| split]].
  - apply (proj1 (from_dict_defaults now0 _)); reflexivity.
  - apply (proj1 (proj2 (from_dict_defaults now0 _))); reflexivity.
  - apply (proj1 (proj2 (proj2 (from_dict_defaults now0 [])))); reflexivity.
  - apply (proj2 (proj2 (proj2 (from_dict_defaults now0 [])))); reflexivity.
Defined.

(** X26: a book is added to the small catalog in a block that then fails. *)
Lemma transaction_rollback_batch_witness :
  let batch :=
    [ Library.AddBook "978-0201633610" "Design Patterns" "Erich Gamma" 1994;
      Library.RaiseError (ValueError "Something went wrong") ] in
  let after := fst (Library.run_ops now0 batch small_library) in
  List.length (Library.books after) = 2%nat /\
  Library.run_ops now0 batch small_library
  = (after, Raise (ValueError "Something went wrong")) /\
  Library.transaction (J := ref_json) (Library.run_ops now0 batch)
    small_library
  = (small_library, Raise (ValueError "Something went wrong")).
Proof.
  intros batch after.
  assert (H : Library.run_ops now0 batch small_library
              = (after, Raise (ValueError "Something went wrong")))
    by (vm_compute; reflexivity).
  split; [vm_compute; reflexivity |]. split; [exact H |].
  exact (transaction_rollback_batch (J := ref_json) now0 batch small_library
           after (ValueError "Something went wrong") H).
Defined.

(** X28 on the small catalog: the book is marked as out, John's list is
    as it was. *)
Lemma get_book_hands_out_the_object_witness :
  let w' :=
    fst (Store.call_book 0%nat (Book.borrow now0 "M001" 14) small_store) in
  store_wf small_store /\
  Store.get_book "978-0132350884" small_store = (small_store, Ok 0%nat) /\
  Library.books (Store.view w')
  = [("978-0132350884"%string, book_borrowed clean_code "M001" due0)] /\
  Library.members (Store.view w') = [("M001"%string, john)].
Proof.
  intros w'.
  assert (Hwf : store_wf small_store).
  { repeat split; cbn; try (repeat constructor; intros []);
      intros a [<- | []]; lia. }
  assert (Hget : Store.get_book "978-0132350884" small_store
                 = (small_store, Ok 0%nat)) by reflexivity.
  destruct (get_book_hands_out_the_object now0 "978-0132350884" "M001" 14
              small_store 0%nat Hwf Hget) as (_ & Hb & Hm).
  split; [exact Hwf |]. split; [exact Hget |].
  split; [exact Hb | exact Hm].
Defined.

(** X29 on two records of one ISBN. *)
Lemma load_duplicate_isbn_last_wins_witness :
  let second :=
    Book.mk "978-0132350884" "Clean Code, 2nd printing" "Robert C. Martin"
      2009 true None None in
  Book.from_dict now0 (Book.to_dict clean_code) = Ok clean_code /\
  Book.from_dict now0 (Book.to_dict second) = Ok second /\
  Library.books_of now0
    [JObj (Book.to_dict clean_code); JObj (Book.to_dict second)] []
  = Ok [("978-0132350884"%string, second)].
Proof.
  intros second.
  assert (H1 : Book.from_dict now0 (Book.to_dict clean_code) = Ok clean_code)
    by reflexivity.
  assert (H2 : Book.from_dict now0 (Book.to_dict second) = Ok second)
    by reflexivity.
  split; [exact H1 |]. split; [exact H2 |].
  exact (load_duplicate_isbn_last_wins now0 _ _ clean_code second [] H1 H2
           eq_refl).
Defined.
